(** * Dummy Bank API: CustomerOID validation and customer lifecycle

    A shallow embedding of [main.py] (validator, portfolio aggregation,
    existence check, registration, deletion) over the tables of [db.py],
    with the parts of CPython's [uuid], [re], [str] and [int] that the
    validator calls. *)

From Stdlib Require Import ZArith NArith Bool List Ascii String Floats Lia.
From stdpp Require Import base option list gmap strings.
Import ListNotations.

Local Open Scope string_scope.
Local Open Scope Z_scope.

#[local] Arguments String.append !s1 s2 : simpl nomatch.

(** ** Characters

    A Python [str] is modelled by [string]; a character is its code point,
    restricted to U+0000..U+00FF. *)

Definition code (c : ascii) : Z := Z.of_N (N_of_ascii c).

Definition in_range (lo hi c : ascii) : bool :=
  (code lo <=? code c) && (code c <=? code hi).

Definition is_upper (c : ascii) : bool := in_range "A" "Z" c.
Definition is_lower (c : ascii) : bool := in_range "a" "z" c.
Definition is_digit (c : ascii) : bool := in_range "0" "9" c.

Definition is_hex (c : ascii) : bool :=
  is_digit c || in_range "a" "f" c || in_range "A" "F" c.

(** The character class [[A-Z0-9-]] of the legacy pattern. *)
Definition legacy_class (c : ascii) : bool :=
  is_upper c || is_digit c || Ascii.eqb c "-".

(** CPython's [Py_ISSPACE]: space, \t, \n, \v, \f, \r. *)
Definition Py_ISSPACE (c : ascii) : bool :=
  ((9 <=? code c) && (code c <=? 13)) || (code c =? 32).

(** [Py_UNICODE_ISSPACE] on U+0000..U+00FF: the characters [str.isspace]
    and the argument-less [str.strip] treat as whitespace. *)
Definition Py_UNICODE_ISSPACE (c : ascii) : bool :=
  ((9 <=? code c) && (code c <=? 13))
  || ((28 <=? code c) && (code c <=? 32))
  || (code c =? 133) || (code c =? 160).

(** CPython's [_PyLong_DigitValue]: the value of a digit in bases up to 36,
    and 37 for every other character. *)
Definition digit_value (c : ascii) : Z :=
  if is_digit c then code c - 48
  else if is_lower c then code c - 97 + 10
  else if is_upper c then code c - 65 + 10
  else 37.

(** ** [str] methods *)

Fixpoint all_chars (p : ascii -> bool) (s : string) : bool :=
  match s with
  | EmptyString => true
  | String c r => p c && all_chars p r
  end.

Fixpoint mem_char (c : ascii) (chars : string) : bool :=
  match chars with
  | EmptyString => false
  | String d r => Ascii.eqb c d || mem_char c r
  end.

(** [s.replace(old, new)] for a non-empty [old]: occurrences are found left
    to right and do not overlap.  [skip] counts the characters of a matched
    occurrence that are still to be dropped. *)
Fixpoint replace_from (old new : string) (skip : nat) (s : string) : string :=
  match s with
  | EmptyString => EmptyString
  | String c r =>
      match skip with
      | S k => replace_from old new k r
      | O =>
          if String.prefix old s
          then new ++ replace_from old new (Nat.pred (String.length old)) r
          else String c (replace_from old new O r)
      end
  end.

Definition str_replace (old new s : string) : string := replace_from old new O s.

Fixpoint str_lstrip (chars s : string) : string :=
  match s with
  | EmptyString => EmptyString
  | String c r => if mem_char c chars then str_lstrip chars r else s
  end.

Fixpoint str_rstrip (chars s : string) : string :=
  match s with
  | EmptyString => EmptyString
  | String c r =>
      match str_rstrip chars r with
      | EmptyString => if mem_char c chars then EmptyString else String c EmptyString
      | r' => String c r'
      end
  end.

(** [s.strip(chars)] *)
Definition str_strip (chars s : string) : string :=
  str_rstrip chars (str_lstrip chars s).

(** [s.strip()]: whitespace is removed at both ends. *)
Fixpoint ws_lstrip (s : string) : string :=
  match s with
  | EmptyString => EmptyString
  | String c r => if Py_UNICODE_ISSPACE c then ws_lstrip r else s
  end.

Fixpoint ws_rstrip (s : string) : string :=
  match s with
  | EmptyString => EmptyString
  | String c r =>
      match ws_rstrip r with
      | EmptyString => if Py_UNICODE_ISSPACE c then EmptyString else String c EmptyString
      | r' => String c r'
      end
  end.

Definition ws_strip (s : string) : string := ws_rstrip (ws_lstrip s).

Definition len (s : string) : Z := Z.of_nat (String.length s).

(** ** [int(s, 16)]

    [PyLong_FromUnicodeObject] first maps the string to ASCII
    ([_PyUnicode_TransformDecimalAndSpaceToASCII]): characters below 127 are
    kept, other whitespace becomes a blank, and the first character that is
    neither ends the buffer with a question mark.  U+0000..U+00FF holds no
    decimal digit other than 0..9. *)
Fixpoint transform_decimal_and_space (s : string) : string :=
  match s with
  | EmptyString => EmptyString
  | String c r =>
      if code c <? 127 then String c (transform_decimal_and_space r)
      else if Py_UNICODE_ISSPACE c then String " " (transform_decimal_and_space r)
      else String "?" EmptyString
  end.

Fixpoint skip_spaces (s : string) : string :=
  match s with
  | EmptyString => EmptyString
  | String c r => if Py_ISSPACE c then skip_spaces r else s
  end.

Definition skip_sign (s : string) : Z * string :=
  match s with
  | String c r =>
      if Ascii.eqb c "+" then (1, r)
      else if Ascii.eqb c "-" then (-1, r)
      else (1, s)
  | EmptyString => (1, s)
  end.

(** The optional [0x] of base 16, after which one underscore is allowed. *)
Definition skip_hex_prefix (s : string) : string :=
  match s with
  | String c0 (String c1 r) =>
      if Ascii.eqb c0 "0" && (Ascii.eqb c1 "x" || Ascii.eqb c1 "X")
      then match r with
           | String c2 r' => if Ascii.eqb c2 "_" then r' else r
           | EmptyString => r
           end
      else s
  | _ => s
  end.

Definition starts_with_underscore (s : string) : bool :=
  match s with
  | String c _ => Ascii.eqb c "_"
  | EmptyString => false
  end.

(** [long_from_binary_base]: digits with single underscores between them.
    [prev] is the character read last ([None] before the first one), [acc]
    the value so far.  The result is [None] on a doubled or trailing
    underscore, else the last character, the value and the unread rest. *)
Fixpoint long_from_binary_base (base : Z) (prev : option ascii) (acc : Z)
    (s : string) : option (option ascii * Z * string) :=
  let stop :=
    match prev with
    | Some p => if Ascii.eqb p "_" then None else Some (prev, acc, s)
    | None => Some (prev, acc, s)
    end in
  match s with
  | EmptyString => stop
  | String c r =>
      if Ascii.eqb c "_" then
        match prev with
        | Some p =>
            if Ascii.eqb p "_" then None
            else long_from_binary_base base (Some c) acc r
        | None => long_from_binary_base base (Some c) acc r
        end
      else if digit_value c <? base then
        long_from_binary_base base (Some c) (acc * base + digit_value c) r
      else stop
  end.

(** [PyLong_FromString(str, &end, 16)], [None] for [ValueError]. *)
Definition PyLong_FromString16 (s : string) : option Z :=
  let s := skip_spaces s in
  let '(sign, s) := skip_sign s in
  let s := skip_hex_prefix s in
  if starts_with_underscore s then None
  else
    match long_from_binary_base 16 None 0 s with
    | None => None
    | Some (None, _, _) => None
    | Some (Some _, z, rest) =>
        match skip_spaces rest with
        | EmptyString => Some (sign * z)
        | _ => None
        end
    end.

Definition int16 (s : string) : option Z :=
  PyLong_FromString16 (transform_decimal_and_space s).

(** ** [uuid.UUID(hex)]

    [Some i] is the 128-bit value of the parsed UUID, [None] is
    [ValueError]. *)
Definition UUID (hex : string) : option Z :=
  let hex := str_replace "uuid:" "" (str_replace "urn:" "" hex) in
  let hex := str_replace "-" "" (str_strip "{}" hex) in
  if negb (len hex =? 32) then None
  else
    match int16 hex with
    | None => None
    | Some i => if (0 <=? i) && (i <? 2 ^ 128) then Some i else None
    end.

(** ** [re.match(r'^[A-Z0-9-]{8,36}$', s)]

    [re_repeat cls lo hi k s]: between [lo] and [hi] characters of class
    [cls], as many as possible first, followed by what [k] matches. *)
Fixpoint re_repeat (cls : ascii -> bool) (lo hi : nat) (k : string -> bool)
    (s : string) {struct s} : bool :=
  (match s, hi with
   | String c r, S hi' => cls c && re_repeat cls (Nat.pred lo) hi' k r
   | _, _ => false
   end)
  || (Nat.eqb lo 0 && k s).

(** [$] without [re.MULTILINE]: the end of the string, or the position just
    before a newline that ends the string. *)
Definition re_dollar (s : string) : bool :=
  match s with
  | EmptyString => true
  | String c EmptyString => Ascii.eqb c "010"
  | _ => false
  end.

Definition re_match_legacy (s : string) : bool :=
  re_repeat legacy_class 8 36 re_dollar s.

(** ** Exceptions and results *)

Inductive Exn : Type :=
  | HTTPException (status_code : Z) (detail : string)
  | StoreError (msg : string).

Inductive Outcome (A : Type) : Type :=
  | Ok (a : A)
  | Raise (e : Exn).
Arguments Ok {A} a.
Arguments Raise {A} e.

Definition empty_detail : string := "CustomerOID cannot be empty".
Definition format_detail : string :=
  "Invalid CustomerOID format. Expected UUID format (e.g., 550e8400-e29b-41d4-a716-446655440000) or alphanumeric string".

(** ** [validate_customer_oid] *)
Definition validate_customer_oid (customer_oid : string) : Outcome string :=
  if String.eqb customer_oid "" then Raise (HTTPException 400 empty_detail)
  else
    match UUID customer_oid with
    | Some _ => Ok customer_oid
    | None =>
        if negb (re_match_legacy customer_oid)
        then Raise (HTTPException 400 format_detail)
        else Ok customer_oid
    end.

(** ** [uuid.uuid4()] and [str(UUID)]

    [entropy] stands for the sixteen bytes of [os.urandom(16)], read as a
    big-endian integer. *)
Definition uuid4 (entropy : Z) : Z :=
  let int := entropy mod 2 ^ 128 in
  let int := Z.land int (Z.lnot (Z.shiftl 0xc000 48)) in
  let int := Z.lor int (Z.shiftl 0x8000 48) in
  let int := Z.land int (Z.lnot (Z.shiftl 0xf000 64)) in
  Z.lor int (Z.shiftl 4 76).

Definition hex_char (d : Z) : ascii :=
  nth (Z.to_nat d) (list_ascii_of_string "0123456789abcdef") "0"%char.

Definition nibble (x : Z) (k : nat) : Z :=
  Z.land (Z.shiftr x (4 * Z.of_nat k)) 15.

(** ['%032x' % x] for [0 <= x < 2 ^ 128] is [hex_digits 32 x]. *)
Fixpoint hex_digits (n : nat) (x : Z) : string :=
  match n with
  | O => EmptyString
  | S k => String (hex_char (nibble x k)) (hex_digits k x)
  end.

Definition uuid_str (int : Z) : string :=
  let hex := hex_digits 32 int in
  substring 0 8 hex ++ "-" ++ substring 8 4 hex ++ "-" ++ substring 12 4 hex
  ++ "-" ++ substring 16 4 hex ++ "-" ++ substring 20 12 hex.

(** ** The tables of [db.py] *)

Module User.
Record t := { id : Z; customer_oid : string; name : string }.
End User.

Module Asset.
Record t := { id : Z; customer_oid : string; asset_type : string;
              symbol : string; amount : float }.
End Asset.

Module Transaction.
Record t := { id : Z; customer_oid : string; date : string; type : string;
              asset : option string; amount : float }.
End Transaction.

Module Spending.
Record t := { id : Z; customer_oid : string; category : string;
              amount : float; month : string }.
End Spending.

Module Institution.
Record t := { id : Z; name : string; type : string;
              contact_info : option string; internal_code : string }.
End Institution.

Module BankAccount.
Record t := { id : Z; customer_oid : string; institution_id : Z;
              balance : float; currency : string; iban : option string }.
End BankAccount.

Module DerivativeTransaction.
Record t := { id : Z; customer_oid : string; type : string; side : string;
              asset : string; strike_price : float; premium : float;
              expiration_date : string; execution_date : string;
              strategy : option string; status : string;
              counterparty : option string }.
End DerivativeTransaction.

(** The database: one list of rows per table, in insertion order. *)
Record Store := {
  user_table : list User.t;
  asset_table : list Asset.t;
  transaction_table : list Transaction.t;
  spending_table : list Spending.t;
  institution_table : list Institution.t;
  bankaccount_table : list BankAccount.t;
  derivativetransaction_table : list DerivativeTransaction.t }.

Inductive TableName : Type :=
  | TUser | TAsset | TTransaction | TSpending | TInstitution | TBankAccount
  | TDerivativeTransaction.

(** What the table classes share: a primary key and a place in the store. *)
Class Table (T : Type) := {
  table_name : TableName;
  pk : T -> Z;
  rows : Store -> list T;
  set_rows : list T -> Store -> Store }.

(** The tables keyed by [customer_oid]. *)
Class CustomerTable (T : Type) `{Table T} := {
  oid_of : T -> string }.

#[global] Instance user_tbl : Table User.t := {|
  table_name := TUser; pk := User.id; rows := user_table;
  set_rows l st :=
    {| user_table := l; asset_table := asset_table st;
       transaction_table := transaction_table st;
       spending_table := spending_table st;
       institution_table := institution_table st;
       bankaccount_table := bankaccount_table st;
       derivativetransaction_table := derivativetransaction_table st |} |}.

#[global] Instance asset_tbl : Table Asset.t := {|
  table_name := TAsset; pk := Asset.id; rows := asset_table;
  set_rows l st :=
    {| user_table := user_table st; asset_table := l;
       transaction_table := transaction_table st;
       spending_table := spending_table st;
       institution_table := institution_table st;
       bankaccount_table := bankaccount_table st;
       derivativetransaction_table := derivativetransaction_table st |} |}.

#[global] Instance transaction_tbl : Table Transaction.t := {|
  table_name := TTransaction; pk := Transaction.id; rows := transaction_table;
  set_rows l st :=
    {| user_table := user_table st; asset_table := asset_table st;
       transaction_table := l;
       spending_table := spending_table st;
       institution_table := institution_table st;
       bankaccount_table := bankaccount_table st;
       derivativetransaction_table := derivativetransaction_table st |} |}.

#[global] Instance spending_tbl : Table Spending.t := {|
  table_name := TSpending; pk := Spending.id; rows := spending_table;
  set_rows l st :=
    {| user_table := user_table st; asset_table := asset_table st;
       transaction_table := transaction_table st;
       spending_table := l;
       institution_table := institution_table st;
       bankaccount_table := bankaccount_table st;
       derivativetransaction_table := derivativetransaction_table st |} |}.

#[global] Instance institution_tbl : Table Institution.t := {|
  table_name := TInstitution; pk := Institution.id; rows := institution_table;
  set_rows l st :=
    {| user_table := user_table st; asset_table := asset_table st;
       transaction_table := transaction_table st;
       spending_table := spending_table st;
       institution_table := l;
       bankaccount_table := bankaccount_table st;
       derivativetransaction_table := derivativetransaction_table st |} |}.

#[global] Instance bankaccount_tbl : Table BankAccount.t := {|
  table_name := TBankAccount; pk := BankAccount.id; rows := bankaccount_table;
  set_rows l st :=
    {| user_table := user_table st; asset_table := asset_table st;
       transaction_table := transaction_table st;
       spending_table := spending_table st;
       institution_table := institution_table st;
       bankaccount_table := l;
       derivativetransaction_table := derivativetransaction_table st |} |}.

#[global] Instance derivativetransaction_tbl : Table DerivativeTransaction.t := {|
  table_name := TDerivativeTransaction; pk := DerivativeTransaction.id;
  rows := derivativetransaction_table;
  set_rows l st :=
    {| user_table := user_table st; asset_table := asset_table st;
       transaction_table := transaction_table st;
       spending_table := spending_table st;
       institution_table := institution_table st;
       bankaccount_table := bankaccount_table st;
       derivativetransaction_table := l |} |}.

#[global] Instance user_ctbl : CustomerTable User.t :=
  {| oid_of := User.customer_oid |}.
#[global] Instance asset_ctbl : CustomerTable Asset.t :=
  {| oid_of := Asset.customer_oid |}.
#[global] Instance transaction_ctbl : CustomerTable Transaction.t :=
  {| oid_of := Transaction.customer_oid |}.
#[global] Instance spending_ctbl : CustomerTable Spending.t :=
  {| oid_of := Spending.customer_oid |}.
#[global] Instance bankaccount_ctbl : CustomerTable BankAccount.t :=
  {| oid_of := BankAccount.customer_oid |}.
#[global] Instance derivativetransaction_ctbl :
  CustomerTable DerivativeTransaction.t :=
  {| oid_of := DerivativeTransaction.customer_oid |}.

Definition empty_store : Store :=
  {| user_table := []; asset_table := []; transaction_table := [];
     spending_table := []; institution_table := []; bankaccount_table := [];
     derivativetransaction_table := [] |}.

(** ** The session

    A SQLModel [Session] runs one transaction over the database:
    [committed] is the database as other sessions see it, [working] is the
    view of the open transaction.  A statement takes effect in [working] at
    once (the unit of work flushes before every query, so no query of
    [main.py] can tell the difference) and reaches [committed] at
    [session.commit()].  [faults] says, statement by statement, whether the
    database raises; [log] records every statement sent and whether it went
    through. *)

Inductive StoreOp : Type :=
  | Select (t : TableName)
  | Insert (t : TableName)
  | Delete (t : TableName) (id : Z)
  | Refresh (t : TableName) (id : Z)
  | Commit.

Record Session := {
  committed : Store;
  working : Store;
  faults : list bool;
  log : list (StoreOp * bool) }.

Definition M (A : Type) : Type := Session -> Outcome A * Session.

Definition ret {A} (a : A) : M A := fun s => (Ok a, s).

Definition raise {A} (e : Exn) : M A := fun s => (Raise e, s).

Definition bind {A B} (m : M A) (f : A -> M B) : M B := fun s =>
  match m s with
  | (Ok a, s') => f a s'
  | (Raise e, s') => (Raise e, s')
  end.

Declare Scope session_scope.
Delimit Scope session_scope with session.
Notation "x <- m ;; k" := (bind m (fun x => k))
  (at level 100, m at next level, right associativity) : session_scope.
Notation "m ;;; k" := (bind m (fun _ => k))
  (at level 100, right associativity) : session_scope.
Local Open Scope session_scope.

Definition lift {A} (r : Outcome A) : M A := fun s => (r, s).

Definition database_error : string := "database error".

(** The session after statement [op] was sent, [ok] telling whether it went
    through. *)
Definition sent (op : StoreOp) (ok : bool) (s : Session) : Session :=
  {| committed := committed s; working := working s;
     faults := tail (faults s); log := log s ++ [(op, ok)] |}.

(** One statement sent to the database. *)
Definition store_op (op : StoreOp) : M unit := fun s =>
  match faults s with
  | true :: _ => (Raise (StoreError database_error), sent op false s)
  | _ => (Ok tt, sent op true s)
  end.

Definition get_working : M Store := fun s => (Ok (working s), s).

Definition with_working (st : Store) (s : Session) : Session :=
  {| committed := committed s; working := st; faults := faults s;
     log := log s |}.

Definition set_working (st : Store) : M unit := fun s =>
  (Ok tt, with_working st s).

Definition where_oid {T} `{CustomerTable T} (customer_oid : string)
    (l : list T) : list T :=
  List.filter (fun r => String.eqb (oid_of r) customer_oid) l.

(** [session.exec(select(T).where(T.customer_oid == customer_oid)).all()] *)
Definition exec_where (T : Type) `{CustomerTable T} (customer_oid : string)
    : M (list T) :=
  store_op (Select table_name);;;
  st <- get_working;;
  ret (where_oid customer_oid (rows st)).

(** [.first()] *)
Definition first {A} (l : list A) : option A := head l.

(** [session.exec(select(Institution).where(Institution.id.in_(ids))).all()] *)
Definition exec_institutions_in (ids : gset Z) : M (list Institution.t) :=
  store_op (Select TInstitution);;;
  st <- get_working;;
  ret (List.filter (fun i => bool_decide (Institution.id i ∈ ids))
         (institution_table st)).

Definition without_pk {T} `{Table T} (k : Z) (l : list T) : list T :=
  List.filter (fun r => negb (pk r =? k)) l.

(** [session.delete(obj)]: the row with the primary key of [obj] goes. *)
Definition session_delete {T} `{Table T} (obj : T) : M unit :=
  store_op (Delete table_name (pk obj));;;
  st <- get_working;;
  set_working (set_rows (without_pk (pk obj) (rows st)) st).

(** [for obj in objs: session.delete(obj)] *)
Fixpoint delete_each {T} `{Table T} (objs : list T) : M unit :=
  match objs with
  | [] => ret tt
  | obj :: rest => session_delete obj;;; delete_each rest
  end.

Definition next_id (l : list User.t) : Z :=
  1 + fold_right Z.max 0 (map User.id l).

Definition unique_violation : string := "UNIQUE constraint failed: user.customer_oid".

(** [session.add(User(customer_oid=..., name=...))]: the row gets the next
    primary key; [customer_oid] is declared [unique=True]. *)
Definition session_add_user (customer_oid name : string) : M User.t :=
  store_op (Insert TUser);;;
  st <- get_working;;
  match where_oid customer_oid (user_table st) with
  | _ :: _ => raise (StoreError unique_violation)
  | [] =>
      let u := {| User.id := next_id (user_table st);
                  User.customer_oid := customer_oid; User.name := name |} in
      set_working (set_rows (user_table st ++ [u]) st);;;
      ret u
  end.

Definition publish (s : Session) : Session :=
  {| committed := working s; working := working s; faults := faults s;
     log := log s |}.

(** [session.commit()] *)
Definition session_commit : M unit :=
  store_op Commit;;;
  fun s => (Ok tt, publish s).

(** [session.rollback()] *)
Definition session_rollback (s : Session) : Session :=
  {| committed := committed s; working := committed s; faults := faults s;
     log := log s |}.

(** [session.refresh(user)] reads the row back by primary key. *)
Definition session_refresh (u : User.t) : M User.t :=
  store_op (Refresh TUser (User.id u));;;
  st <- get_working;;
  match List.filter (fun r => User.id r =? User.id u) (user_table st) with
  | r :: _ => ret r
  | [] => raise (StoreError "Instance is not persistent within this Session")
  end.

(** The handlers of [register_customer] and [delete_customer]:
<<
    except HTTPException: raise
    except Exception as e:
        session.rollback()
        raise HTTPException(status_code=500, detail=f"...: {str(e)}")
>> *)
Definition try_except {A} (prefix : string) (body : M A) : M A := fun s =>
  match body s with
  | (Raise (StoreError msg), s') =>
      (Raise (HTTPException 500 (prefix ++ msg)), session_rollback s')
  | r => r
  end.

(** [get_db_session]: a session is opened on the database for one request
    and closed afterwards, whatever the outcome. *)
Definition open_session (db : Store) (plan : list bool) : Session :=
  {| committed := db; working := db; faults := plan; log := [] |}.

(** ** Responses *)

Inductive pynum : Type :=
  | PyInt (n : Z)
  | PyFloat (x : float).

(** [int] to [float], for [0 <= n < 2 ^ 63]. *)
Definition float_of_int (n : Z) : float := PrimFloat.of_uint63 (Uint63.of_Z n).

Definition py_add (acc : pynum) (x : float) : pynum :=
  match acc with
  | PyInt n => PyFloat (float_of_int n + x)%float
  | PyFloat y => PyFloat (y + x)%float
  end.

(** [sum(xs)] over floats: the start value is the integer 0 and the floats
    are added from left to right.  (CPython 3.12 and later compensate the
    rounding errors of the additions; where every addition is exact, as for
    the amounts below, the two agree.) *)
Definition py_sum (xs : list float) : pynum := fold_left py_add xs (PyInt 0).

Module AccountView.
Record t := { account : BankAccount.t; institution : option Institution.t }.
End AccountView.

Module HasData.
Record t := { assets : bool; accounts : bool; transactions : bool;
              spending : bool; derivatives : bool }.
End HasData.

Module Summary.
Record t := { customer_oid : string; total_cash_balance : pynum;
              total_spending : pynum; total_assets : Z; total_accounts : Z;
              total_transactions : Z; total_spending_categories : Z;
              total_derivative_positions : Z; has_data : HasData.t }.
End Summary.

Module Portfolio.
Record t := { customer_oid : string; user : string * string;
              assets : list Asset.t; bank_accounts : list AccountView.t;
              transactions : list Transaction.t;
              spending : list Spending.t;
              derivative_transactions : list DerivativeTransaction.t;
              portfolio_summary : Summary.t }.
End Portfolio.

Module Exists.
Record t := { customer_oid : string; exists_ : bool; name : option string }.
End Exists.

Module UserRegistrationRequest.
Record t := { name : string; customer_oid : option string }.
End UserRegistrationRequest.

Module UserRegistrationResponse.
Record t := { customer_oid : string; name : string; message : string }.
End UserRegistrationResponse.

Module Deleted.
Record t := { customer_oid : string; message : string }.
End Deleted.

Definition len_list {A} (l : list A) : Z := Z.of_nat (List.length l).

(** ** [get_user_portfolio] *)
Definition get_user_portfolio (customer_oid : string) : M Portfolio.t :=
  customer_oid <- lift (validate_customer_oid customer_oid);;
  users <- exec_where User.t customer_oid;;
  match first users with
  | None =>
      raise (HTTPException 404
               ("User with CustomerOID '" ++ customer_oid ++ "' not found"))
  | Some user =>
      assets <- exec_where Asset.t customer_oid;;
      transactions <- exec_where Transaction.t customer_oid;;
      spending <- exec_where Spending.t customer_oid;;
      bank_accounts <- exec_where BankAccount.t customer_oid;;
      derivative_transactions <- exec_where DerivativeTransaction.t customer_oid;;
      let institution_ids : gset Z :=
        list_to_set (map BankAccount.institution_id bank_accounts) in
      institutions <-
        (if bool_decide (institution_ids = ∅) then ret (∅ : gmap Z Institution.t)
         else
           inst_results <- exec_institutions_in institution_ids;;
           ret (fold_left (fun m inst => <[Institution.id inst := inst]> m)
                  inst_results (∅ : gmap Z Institution.t)));;
      let total_cash := py_sum (map BankAccount.balance bank_accounts) in
      let total_spending := py_sum (map Spending.amount spending) in
      ret {|
        Portfolio.customer_oid := customer_oid;
        Portfolio.user := (User.name user, User.customer_oid user);
        Portfolio.assets := assets;
        Portfolio.bank_accounts :=
          map (fun account =>
                 {| AccountView.account := account;
                    AccountView.institution :=
                      institutions !! BankAccount.institution_id account |})
              bank_accounts;
        Portfolio.transactions := transactions;
        Portfolio.spending := spending;
        Portfolio.derivative_transactions := derivative_transactions;
        Portfolio.portfolio_summary := {|
          Summary.customer_oid := customer_oid;
          Summary.total_cash_balance := total_cash;
          Summary.total_spending := total_spending;
          Summary.total_assets := len_list assets;
          Summary.total_accounts := len_list bank_accounts;
          Summary.total_transactions := len_list transactions;
          Summary.total_spending_categories :=
            Z.of_nat (size (list_to_set (map Spending.category spending)
                            : gset string));
          Summary.total_derivative_positions := len_list derivative_transactions;
          Summary.has_data := {|
            HasData.assets := 0 <? len_list assets;
            HasData.accounts := 0 <? len_list bank_accounts;
            HasData.transactions := 0 <? len_list transactions;
            HasData.spending := 0 <? len_list spending;
            HasData.derivatives := 0 <? len_list derivative_transactions |} |} |}
  end.

(** ** [check_customer_exists] *)
Definition check_customer_exists (customer_oid : string) : M Exists.t :=
  customer_oid <- lift (validate_customer_oid customer_oid);;
  users <- exec_where User.t customer_oid;;
  let user := first users in
  ret {| Exists.customer_oid := customer_oid;
         Exists.exists_ := bool_decide (is_Some user);
         Exists.name := User.name <$> user |}.

(** ** [register_customer] *)
Definition register_customer (user_data : UserRegistrationRequest.t)
    (entropy : Z) : M UserRegistrationResponse.t :=
  try_except "Failed to register customer: "
    (customer_oid <-
       match UserRegistrationRequest.customer_oid user_data with
       | Some oid =>
           if String.eqb oid "" then ret (uuid_str (uuid4 entropy))
           else lift (validate_customer_oid oid)
       | None => ret (uuid_str (uuid4 entropy))
       end;;
     existing <- exec_where User.t customer_oid;;
     match first existing with
     | Some _ =>
         raise (HTTPException 409
                  ("Customer with CustomerOID '" ++ customer_oid
                   ++ "' already exists"))
     | None =>
         let name := UserRegistrationRequest.name user_data in
         if String.eqb name "" || (len (ws_strip name) <? 2)
         then raise (HTTPException 400 "Name must be at least 2 characters long")
         else
           new_user <- session_add_user customer_oid (ws_strip name);;
           session_commit;;;
           new_user <- session_refresh new_user;;
           ret {| UserRegistrationResponse.customer_oid := customer_oid;
                  UserRegistrationResponse.name := User.name new_user;
                  UserRegistrationResponse.message :=
                    "Customer registered successfully" |}
     end).

(** ** [delete_customer] *)
Definition delete_customer (customer_oid : string) : M Deleted.t :=
  customer_oid <- lift (validate_customer_oid customer_oid);;
  try_except "Failed to delete customer: "
    (users <- exec_where User.t customer_oid;;
     match first users with
     | None =>
         raise (HTTPException 404
                  ("Customer with CustomerOID '" ++ customer_oid
                   ++ "' not found"))
     | Some user =>
         assets <- exec_where Asset.t customer_oid;;
         delete_each assets;;;
         transactions <- exec_where Transaction.t customer_oid;;
         delete_each transactions;;;
         spending <- exec_where Spending.t customer_oid;;
         delete_each spending;;;
         bank_accounts <- exec_where BankAccount.t customer_oid;;
         delete_each bank_accounts;;;
         derivatives <- exec_where DerivativeTransaction.t customer_oid;;
         delete_each derivatives;;;
         session_delete user;;;
         session_commit;;;
         ret {| Deleted.customer_oid := customer_oid;
                Deleted.message :=
                  "Customer and all associated data deleted successfully" |}
     end).

(** One request: the operation runs in a session of its own; what remains
    is the outcome, the database and the statements that were sent. *)
Definition request {A} (op : M A) (db : Store) (plan : list bool)
    : Outcome A * Store * list (StoreOp * bool) :=
  let '(r, s) := op (open_session db plan) in (r, committed s, log s).

(** ** Textual forms of an identifier *)

(** [take_hex n s]: [s] without its first [n] characters, when these are
    hexadecimal digits. *)
Fixpoint take_hex (n : nat) (s : string) : option string :=
  match n with
  | O => Some s
  | S k =>
      match s with
      | String c r => if is_hex c then take_hex k r else None
      | EmptyString => None
      end
  end.

(** Groups of hexadecimal digits of the given sizes, with one hyphen between
    two groups. *)
Fixpoint hex_groups (sizes : list nat) (s : string) : bool :=
  match sizes with
  | [] => false
  | n :: rest =>
      match take_hex n s, rest with
      | Some EmptyString, [] => true
      | Some (String c r), _ :: _ => Ascii.eqb c "-" && hex_groups rest r
      | _, _ => false
      end
  end.

(** The canonical 8-4-4-4-12 form, in either letter case. *)
Definition is_canonical_uuid (s : string) : bool :=
  hex_groups [8; 4; 4; 4; 12]%nat s.

(** The legacy form: 8 to 36 characters, each an uppercase letter, a digit
    or a hyphen. *)
Definition is_legacy_code (s : string) : bool :=
  (8 <=? len s) && (len s <=? 36) && all_chars legacy_class s.

Definition hexdash (c : ascii) : bool := is_hex c || Ascii.eqb c "-".

Definition is_not (a c : ascii) : bool := negb (Ascii.eqb c a).

Definition newline : ascii := "010".

(** The last character of [s] is [c]. *)
Fixpoint ends_with (c : ascii) (s : string) : bool :=
  match s with
  | EmptyString => false
  | String d EmptyString => Ascii.eqb d c
  | String _ r => ends_with c r
  end.


(** ** Vocabulary of the statements *)

(** No row of [l] belongs to [customer_oid]. *)
Definition no_rows_for {T} `{CustomerTable T} (customer_oid : string)
    (l : list T) : Prop :=
  forall r, In r l -> oid_of r <> customer_oid.

(** [customer_oid] is declared [unique=True] on [User]. *)
Definition unique_oids (l : list User.t) : Prop :=
  List.NoDup (map User.customer_oid l).

(** No statement of the log failed. *)
Definition no_fault (lg : list (StoreOp * bool)) : Prop :=
  forall op, ~ In (op, false) lg.

Definition name_too_short (name : string) : bool :=
  String.eqb name "" || (len (ws_strip name) <? 2).

Definition conflict_detail (customer_oid : string) : string :=
  "Customer with CustomerOID '" ++ customer_oid ++ "' already exists".

(** ** Sample data *)

Definition sample_oid : string := "11111111-1111-1111-1111-111111111111".

Definition global_bank : Institution.t :=
  {| Institution.id := 1; Institution.name := "Global Bank";
     Institution.type := "bank";
     Institution.contact_info := Some "contact@globalbank.com";
     Institution.internal_code := "GB001" |}.

Definition account_1 : BankAccount.t :=
  {| BankAccount.id := 1; BankAccount.customer_oid := sample_oid;
     BankAccount.institution_id := 1; BankAccount.balance := 50000%float;
     BankAccount.currency := "USD"; BankAccount.iban := Some "US1234567890123456" |}.

Definition account_2 : BankAccount.t :=
  {| BankAccount.id := 2; BankAccount.customer_oid := sample_oid;
     BankAccount.institution_id := 2; BankAccount.balance := 25000%float;
     BankAccount.currency := "EUR"; BankAccount.iban := None |}.

Definition john_doe : User.t :=
  {| User.id := 1; User.customer_oid := sample_oid; User.name := "John Doe" |}.

Definition apple_shares : Asset.t :=
  {| Asset.id := 1; Asset.customer_oid := sample_oid;
     Asset.asset_type := "stock"; Asset.symbol := "AAPL";
     Asset.amount := 50%float |}.

Definition groceries_january : Spending.t :=
  {| Spending.id := 1; Spending.customer_oid := sample_oid;
     Spending.category := "groceries"; Spending.amount := 100%float;
     Spending.month := "2025-01" |}.

Definition groceries_february : Spending.t :=
  {| Spending.id := 2; Spending.customer_oid := sample_oid;
     Spending.category := "groceries"; Spending.amount := 50%float;
     Spending.month := "2025-02" |}.

(** One identity, one holding, one institution, two accounts and two
    spending records. *)
Definition seeded_with (identity : User.t) (holding : Asset.t)
    (bank : Institution.t) (first_account second_account : BankAccount.t)
    (first_spending second_spending : Spending.t) : Store :=
  {| user_table := [identity]; asset_table := [holding];
     transaction_table := [];
     spending_table := [first_spending; second_spending];
     institution_table := [bank];
     bankaccount_table := [first_account; second_account];
     derivativetransaction_table := [] |}.

(** The accounts are at institutions 1 and 2, of which only 1 exists; the
    spending records are of one category. *)
Definition seeded : Store :=
  seeded_with john_doe apple_shares global_bank account_1 account_2
    groceries_january groceries_february.

(** A database whose only identity carries the identifier that [uuid4]
    makes of sixteen zero bytes. *)
Definition zero_uuid : string := "00000000-0000-4000-8000-000000000000".

Definition taken : Store :=
  {| user_table :=
       [ {| User.id := 1; User.customer_oid := zero_uuid;
            User.name := "Jane Smith" |} ];
     asset_table := []; transaction_table := []; spending_table := [];
     institution_table := []; bankaccount_table := [];
     derivativetransaction_table := [] |}.

Definition line_feed_code : string := "ABCDEFGH" ++ String newline "".
Definition long_line_feed_code : string :=
  "ABCDEFGHIJKLMNOPQRSTUVWXYZ0123456789" ++ String newline "".
Definition bare_hex : string := "550e8400e29b41d4a716446655440000".
Definition urn_form : string := "urn:uuid:550e8400-e29b-41d4-a716-446655440000".

(** ** Reasoning about sessions *)

(** [wp m Q E s]: run from [s], [m] ends in a state that satisfies [Q] with
    its result, or raises in a state that satisfies [E] with the exception. *)
Definition wp {A} (m : M A) (Q : A -> Session -> Prop)
    (E : Exn -> Session -> Prop) (s : Session) : Prop :=
  match m s with
  | (Ok a, s') => Q a s'
  | (Raise e, s') => E e s'
  end.

(** The laws of a table's place in the store. *)
Class TableLaws (T : Type) `{Table T} : Prop := {
  rows_set : forall l st, rows (set_rows l st) = l;
  set_set : forall l1 l2 st, set_rows l2 (set_rows l1 st) = set_rows l2 st;
  set_rows_id : forall st, set_rows (rows st) st = st }.

(** The store once every row of [objs] has been deleted from its table. *)
Definition delete_all {T} `{Table T} (objs : list T) (st : Store) : Store :=
  set_rows (fold_left (fun l obj => without_pk (pk obj) l) objs (rows st)) st.

(** The store that [delete_customer] commits, [user] being the identity
    found for [customer_oid]. *)
Definition purge (customer_oid : string) (user : User.t) (db : Store) : Store :=
  let db := delete_all (where_oid customer_oid (asset_table db)) db in
  let db := delete_all (where_oid customer_oid (transaction_table db)) db in
  let db := delete_all (where_oid customer_oid (spending_table db)) db in
  let db := delete_all (where_oid customer_oid (bankaccount_table db)) db in
  let db :=
    delete_all (where_oid customer_oid (derivativetransaction_table db)) db in
  delete_all [user] db.

(** A step that commits nothing and adds no failed statement. *)
Definition calm (s s' : Session) : Prop :=
  committed s' = committed s /\ (no_fault (log s) -> no_fault (log s')).

Definition name_detail : string := "Name must be at least 2 characters long".

Definition registered (customer_oid name : string) : UserRegistrationResponse.t :=
  {| UserRegistrationResponse.customer_oid := customer_oid;
     UserRegistrationResponse.name := name;
     UserRegistrationResponse.message := "Customer registered successfully" |}.

Definition omitted (name : string) : UserRegistrationRequest.t :=
  {| UserRegistrationRequest.name := name;
     UserRegistrationRequest.customer_oid := None |}.

Definition supplied (name customer_oid : string) : UserRegistrationRequest.t :=
  {| UserRegistrationRequest.name := name;
     UserRegistrationRequest.customer_oid := Some customer_oid |}.

(** The identity that registration inserts. *)
Definition new_identity (db : Store) (customer_oid name : string) : User.t :=
  {| User.id := next_id (user_table db); User.customer_oid := customer_oid;
     User.name := ws_strip name |}.

(** The identifier registration settles on: the one supplied, validated, or
    a generated one when none or an empty one is supplied. *)
Definition settles_on (user_data : UserRegistrationRequest.t) (entropy : Z)
    (r : Outcome string) : Prop :=
  match UserRegistrationRequest.customer_oid user_data with
  | Some given =>
      if String.eqb given "" then r = Ok (uuid_str (uuid4 entropy))
      else r = validate_customer_oid given
  | None => r = Ok (uuid_str (uuid4 entropy))
  end.

Definition register_failure : string :=
  "Failed to register customer: " ++ database_error.

(** The answer of a registration that stops at the existence check. *)
Definition early_answer (db : Store) (customer_oid : string) : Exn :=
  match where_oid customer_oid (user_table db) with
  | _ :: _ => HTTPException 409 (conflict_detail customer_oid)
  | [] => HTTPException 400 name_detail
  end.

(** ** Answers and logs used in the statements *)

Definition all_selects : list (StoreOp * bool) :=
  [(Select TUser, true); (Select TAsset, true); (Select TTransaction, true);
   (Select TSpending, true); (Select TBankAccount, true);
   (Select TDerivativeTransaction, true)].

Definition no_data : HasData.t :=
  {| HasData.assets := false; HasData.accounts := false;
     HasData.transactions := false; HasData.spending := false;
     HasData.derivatives := false |}.

Definition deleted_response (customer_oid : string) : Deleted.t :=
  {| Deleted.customer_oid := customer_oid;
     Deleted.message := "Customer and all associated data deleted successfully" |}.

Definition absent (customer_oid : string) : Exists.t :=
  {| Exists.customer_oid := customer_oid; Exists.exists_ := false;
     Exists.name := None |}.

Definition after_deletion : Store :=
  {| user_table := []; asset_table := []; transaction_table := [];
     spending_table := []; institution_table := [ global_bank ];
     bankaccount_table := []; derivativetransaction_table := [] |}.

Definition third_statement_fails : list bool := [false; false; false; true].


(** * The rest of the code *)

(** ** More vocabulary for identifiers *)

Fixpoint count_chars (p : ascii -> bool) (s : string) : nat :=
  match s with
  | EmptyString => O
  | String c r => (if p c then 1 else 0) + count_chars p r
  end.

(** [n] hyphens. *)
Fixpoint hyphens (n : nat) : string :=
  match n with
  | O => EmptyString
  | S k => String "-" (hyphens k)
  end.

(** ** [validate_customer_oid] of [test_validation.py]

    The copy prints one line and returns the identifier or [None]. *)



(** ** [list_customers] *)

Module CustomerEntry.
Record t := { customer_oid : string; name : string }.
End CustomerEntry.

(** [session.exec(select(User)).all()] *)
Definition exec_all_users : M (list User.t) :=
  store_op (Select TUser);;;
  st <- get_working;;
  ret (user_table st).

Definition list_customers : M (list CustomerEntry.t) :=
  users <- exec_all_users;;
  ret (map (fun user =>
              {| CustomerEntry.customer_oid := User.customer_oid user;
                 CustomerEntry.name := User.name user |})
           users).

(** ** Vocabulary of the further statements *)

Definition is_select (op : StoreOp) : bool :=
  match op with
  | Select _ => true
  | _ => false
  end.

(** A log of at most [n] statements, all of them queries. *)
Definition queries_only (n : nat) (lg : list (StoreOp * bool)) : Prop :=
  (List.length lg <= n)%nat /\ Forall (fun e => is_select (fst e) = true) lg.

(** Primary keys are unique in every table, identifiers on [User]. *)
Definition unique_pks {T} `{Table T} (l : list T) : Prop :=
  List.NoDup (map pk l).

Record well_keyed (db : Store) : Prop := {
  users_keyed : unique_pks (user_table db);
  users_oids : unique_oids (user_table db);
  assets_keyed : unique_pks (asset_table db);
  transactions_keyed : unique_pks (transaction_table db);
  spending_keyed : unique_pks (spending_table db);
  institutions_keyed : unique_pks (institution_table db);
  accounts_keyed : unique_pks (bankaccount_table db);
  derivatives_keyed : unique_pks (derivativetransaction_table db) }.

(** The rows of the other customers. *)
Definition others {T} `{CustomerTable T} (customer_oid : string)
    (l : list T) : list T :=
  List.filter (fun r => negb (String.eqb (oid_of r) customer_oid)) l.

(** The institutions [get_user_portfolio] maps by id for the accounts it
    found. *)
Definition institutions_for (db : Store) (bank_accounts : list BankAccount.t)
    : gmap Z Institution.t :=
  let institution_ids : gset Z :=
    list_to_set (map BankAccount.institution_id bank_accounts) in
  if bool_decide (institution_ids = ∅) then ∅
  else
    fold_left (fun m inst => <[Institution.id inst := inst]> m)
      (List.filter (fun i => bool_decide (Institution.id i ∈ institution_ids))
         (institution_table db))
      (∅ : gmap Z Institution.t).

(** The answer of [get_user_portfolio] for the identity [user]. *)
Definition portfolio_view (db : Store) (customer_oid : string) (user : User.t)
    : Portfolio.t :=
  let assets := where_oid customer_oid (asset_table db) in
  let transactions := where_oid customer_oid (transaction_table db) in
  let spending := where_oid customer_oid (spending_table db) in
  let bank_accounts := where_oid customer_oid (bankaccount_table db) in
  let derivative_transactions :=
    where_oid customer_oid (derivativetransaction_table db) in
  let institutions := institutions_for db bank_accounts in
  {| Portfolio.customer_oid := customer_oid;
     Portfolio.user := (User.name user, User.customer_oid user);
     Portfolio.assets := assets;
     Portfolio.bank_accounts :=
       map (fun account =>
              {| AccountView.account := account;
                 AccountView.institution :=
                   institutions !! BankAccount.institution_id account |})
           bank_accounts;
     Portfolio.transactions := transactions;
     Portfolio.spending := spending;
     Portfolio.derivative_transactions := derivative_transactions;
     Portfolio.portfolio_summary :=
       {| Summary.customer_oid := customer_oid;
          Summary.total_cash_balance :=
            py_sum (map BankAccount.balance bank_accounts);
          Summary.total_spending := py_sum (map Spending.amount spending);
          Summary.total_assets := len_list assets;
          Summary.total_accounts := len_list bank_accounts;
          Summary.total_transactions := len_list transactions;
          Summary.total_spending_categories :=
            Z.of_nat (size (list_to_set (map Spending.category spending)
                            : gset string));
          Summary.total_derivative_positions := len_list derivative_transactions;
          Summary.has_data :=
            {| HasData.assets := 0 <? len_list assets;
               HasData.accounts := 0 <? len_list bank_accounts;
               HasData.transactions := 0 <? len_list transactions;
               HasData.spending := 0 <? len_list spending;
               HasData.derivatives := 0 <? len_list derivative_transactions |} |} |}.

(** The outcome of the first step of [register_customer]. *)
Definition settled (user_data : UserRegistrationRequest.t) (entropy : Z)
    : Outcome string :=
  match UserRegistrationRequest.customer_oid user_data with
  | Some given =>
      if String.eqb given "" then Ok (uuid_str (uuid4 entropy))
      else validate_customer_oid given
  | None => Ok (uuid_str (uuid4 entropy))
  end.

(** The database with the identity that registration adds. *)
Definition with_identity (db : Store) (customer_oid name : string) : Store :=
  set_rows (user_table db ++ [new_identity db customer_oid name]) db.

Definition entry_of (user : User.t) : CustomerEntry.t :=
  {| CustomerEntry.customer_oid := User.customer_oid user;
     CustomerEntry.name := User.name user |}.

Definition present (customer_oid name : string) : Exists.t :=
  {| Exists.customer_oid := customer_oid; Exists.exists_ := true;
     Exists.name := Some name |}.

Definition delete_not_found (customer_oid : string) : Exn :=
  HTTPException 404
    ("Customer with CustomerOID '" ++ customer_oid ++ "' not found").

(** ** [db.py]: sample data

    A row made by its class, before the database gives it a primary key. *)

Definition new_institution (name type : string) (contact_info : option string)
    (internal_code : string) : Institution.t :=
  {| Institution.id := 0; Institution.name := name; Institution.type := type;
     Institution.contact_info := contact_info;
     Institution.internal_code := internal_code |}.

Definition new_bank_account (customer_oid : string) (institution_id : Z)
    (balance : float) (currency : string) (iban : option string)
    : BankAccount.t :=
  {| BankAccount.id := 0; BankAccount.customer_oid := customer_oid;
     BankAccount.institution_id := institution_id;
     BankAccount.balance := balance; BankAccount.currency := currency;
     BankAccount.iban := iban |}.

Definition new_asset (customer_oid asset_type symbol : string) (amount : float)
    : Asset.t :=
  {| Asset.id := 0; Asset.customer_oid := customer_oid;
     Asset.asset_type := asset_type; Asset.symbol := symbol;
     Asset.amount := amount |}.

Definition new_transaction (customer_oid date type : string)
    (asset : option string) (amount : float) : Transaction.t :=
  {| Transaction.id := 0; Transaction.customer_oid := customer_oid;
     Transaction.date := date; Transaction.type := type;
     Transaction.asset := asset; Transaction.amount := amount |}.

Definition new_spending (customer_oid category : string) (amount : float)
    (month : string) : Spending.t :=
  {| Spending.id := 0; Spending.customer_oid := customer_oid;
     Spending.category := category; Spending.amount := amount;
     Spending.month := month |}.

Definition new_derivative (customer_oid type side asset : string)
    (strike_price premium : float) (expiration_date execution_date : string)
    (strategy : option string) (status : string) (counterparty : option string)
    : DerivativeTransaction.t :=
  {| DerivativeTransaction.id := 0;
     DerivativeTransaction.customer_oid := customer_oid;
     DerivativeTransaction.type := type; DerivativeTransaction.side := side;
     DerivativeTransaction.asset := asset;
     DerivativeTransaction.strike_price := strike_price;
     DerivativeTransaction.premium := premium;
     DerivativeTransaction.expiration_date := expiration_date;
     DerivativeTransaction.execution_date := execution_date;
     DerivativeTransaction.strategy := strategy;
     DerivativeTransaction.status := status;
     DerivativeTransaction.counterparty := counterparty |}.

Definition sample_users : list (string * string) :=
  [ ("550e8400-e29b-41d4-a716-446655440001", "John Doe");
    ("550e8400-e29b-41d4-a716-446655440002", "Jane Smith");
    ("550e8400-e29b-41d4-a716-446655440003", "Robert Johnson");
    ("550e8400-e29b-41d4-a716-446655440004", "ABC Corporation");
    ("550e8400-e29b-41d4-a716-446655440005", "Michael Chen") ].

Definition sample_institutions : list Institution.t :=
  [ new_institution "Global Bank" "bank" (Some "contact@globalbank.com") "GB001";
    new_institution "Investment Corp" "broker" (Some "support@investcorp.com") "IC001";
    new_institution "Crypto Exchange" "exchange" (Some "help@cryptoex.com") "CE001" ].

Definition sample_bank_accounts : list BankAccount.t :=
  [ new_bank_account "550e8400-e29b-41d4-a716-446655440001" 1 50000.0%float "USD" (Some "US1234567890123456");
    new_bank_account "550e8400-e29b-41d4-a716-446655440001" 1 25000.0%float "EUR" (Some "DE9876543210987654");
    new_bank_account "550e8400-e29b-41d4-a716-446655440002" 1 75000.0%float "USD" (Some "US2345678901234567");
    new_bank_account "550e8400-e29b-41d4-a716-446655440002" 2 100000.0%float "USD" (Some "US3456789012345678");
    new_bank_account "550e8400-e29b-41d4-a716-446655440003" 1 30000.0%float "USD" (Some "US4567890123456789");
    new_bank_account "550e8400-e29b-41d4-a716-446655440004" 2 500000.0%float "USD" (Some "US5678901234567890");
    new_bank_account "550e8400-e29b-41d4-a716-446655440005" 3 85000.0%float "USD" (Some "US6789012345678901") ].

Definition sample_assets : list Asset.t :=
  [ new_asset "550e8400-e29b-41d4-a716-446655440001" "stock" "AAPL" 100%float;
    new_asset "550e8400-e29b-41d4-a716-446655440001" "stock" "GOOGL" 50%float;
    new_asset "550e8400-e29b-41d4-a716-446655440001" "bond" "US10Y" 10000%float;
    new_asset "550e8400-e29b-41d4-a716-446655440001" "crypto" "BTC" 2.5%float;
    new_asset "550e8400-e29b-41d4-a716-446655440001" "etf" "SPY" 200%float;
    new_asset "550e8400-e29b-41d4-a716-446655440002" "stock" "TSLA" 150%float;
    new_asset "550e8400-e29b-41d4-a716-446655440002" "stock" "NVDA" 75%float;
    new_asset "550e8400-e29b-41d4-a716-446655440002" "crypto" "BTC" 5.0%float;
    new_asset "550e8400-e29b-41d4-a716-446655440002" "crypto" "ETH" 20.0%float;
    new_asset "550e8400-e29b-41d4-a716-446655440002" "stock" "MSFT" 80%float;
    new_asset "550e8400-e29b-41d4-a716-446655440003" "bond" "US10Y" 20000%float;
    new_asset "550e8400-e29b-41d4-a716-446655440003" "bond" "CORP_BONDS" 15000%float;
    new_asset "550e8400-e29b-41d4-a716-446655440003" "etf" "SPY" 100%float;
    new_asset "550e8400-e29b-41d4-a716-446655440003" "stock" "JNJ" 60%float;
    new_asset "550e8400-e29b-41d4-a716-446655440004" "stock" "AAPL" 1000%float;
    new_asset "550e8400-e29b-41d4-a716-446655440004" "stock" "MSFT" 800%float;
    new_asset "550e8400-e29b-41d4-a716-446655440004" "bond" "CORP_BONDS" 100000%float;
    new_asset "550e8400-e29b-41d4-a716-446655440004" "etf" "QQQ" 500%float;
    new_asset "550e8400-e29b-41d4-a716-446655440005" "stock" "AMZN" 25%float;
    new_asset "550e8400-e29b-41d4-a716-446655440005" "crypto" "ETH" 10.0%float;
    new_asset "550e8400-e29b-41d4-a716-446655440005" "etf" "VTI" 300%float ].

Definition sample_transactions : list Transaction.t :=
  [ new_transaction "550e8400-e29b-41d4-a716-446655440001" "2025-01-15" "buy" (Some "AAPL") (-15000)%float;
    new_transaction "550e8400-e29b-41d4-a716-446655440001" "2025-02-20" "buy" (Some "GOOGL") (-8500)%float;
    new_transaction "550e8400-e29b-41d4-a716-446655440001" "2025-03-10" "deposit" (Some "USD") 25000%float;
    new_transaction "550e8400-e29b-41d4-a716-446655440001" "2025-04-05" "buy" (Some "BTC") (-12000)%float;
    new_transaction "550e8400-e29b-41d4-a716-446655440001" "2025-05-15" "sell" (Some "AAPL") 3000%float;
    new_transaction "550e8400-e29b-41d4-a716-446655440001" "2025-06-01" "dividend" (Some "SPY") 250%float;
    new_transaction "550e8400-e29b-41d4-a716-446655440002" "2025-01-20" "buy" (Some "TSLA") (-25000)%float;
    new_transaction "550e8400-e29b-41d4-a716-446655440002" "2025-02-15" "buy" (Some "NVDA") (-18000)%float;
    new_transaction "550e8400-e29b-41d4-a716-446655440002" "2025-03-05" "buy" (Some "BTC") (-20000)%float;
    new_transaction "550e8400-e29b-41d4-a716-446655440002" "2025-04-10" "buy" (Some "ETH") (-15000)%float;
    new_transaction "550e8400-e29b-41d4-a716-446655440002" "2025-05-20" "sell" (Some "TSLA") 8000%float;
    new_transaction "550e8400-e29b-41d4-a716-446655440003" "2025-01-10" "buy" (Some "US10Y") (-20000)%float;
    new_transaction "550e8400-e29b-41d4-a716-446655440003" "2025-02-25" "buy" (Some "CORP_BONDS") (-15000)%float;
    new_transaction "550e8400-e29b-41d4-a716-446655440003" "2025-03-15" "buy" (Some "SPY") (-5000)%float;
    new_transaction "550e8400-e29b-41d4-a716-446655440003" "2025-04-20" "dividend" (Some "JNJ") 180%float;
    new_transaction "550e8400-e29b-41d4-a716-446655440004" "2025-01-05" "buy" (Some "AAPL") (-150000)%float;
    new_transaction "550e8400-e29b-41d4-a716-446655440004" "2025-02-10" "buy" (Some "MSFT") (-120000)%float;
    new_transaction "550e8400-e29b-41d4-a716-446655440004" "2025-03-01" "deposit" (Some "USD") 200000%float;
    new_transaction "550e8400-e29b-41d4-a716-446655440004" "2025-04-15" "dividend" (Some "AAPL") 2500%float;
    new_transaction "550e8400-e29b-41d4-a716-446655440005" "2025-01-25" "buy" (Some "AMZN") (-35000)%float;
    new_transaction "550e8400-e29b-41d4-a716-446655440005" "2025-03-20" "buy" (Some "ETH") (-25000)%float;
    new_transaction "550e8400-e29b-41d4-a716-446655440005" "2025-05-10" "buy" (Some "VTI") (-15000)%float ].

Definition sample_spending : list Spending.t :=
  [ new_spending "550e8400-e29b-41d4-a716-446655440001" "groceries" 800%float "2025-01";
    new_spending "550e8400-e29b-41d4-a716-446655440001" "utilities" 300%float "2025-01";
    new_spending "550e8400-e29b-41d4-a716-446655440001" "entertainment" 500%float "2025-01";
    new_spending "550e8400-e29b-41d4-a716-446655440001" "transport" 400%float "2025-01";
    new_spending "550e8400-e29b-41d4-a716-446655440001" "groceries" 750%float "2025-02";
    new_spending "550e8400-e29b-41d4-a716-446655440001" "utilities" 280%float "2025-02";
    new_spending "550e8400-e29b-41d4-a716-446655440001" "healthcare" 250%float "2025-02";
    new_spending "550e8400-e29b-41d4-a716-446655440002" "groceries" 1200%float "2025-01";
    new_spending "550e8400-e29b-41d4-a716-446655440002" "dining" 800%float "2025-01";
    new_spending "550e8400-e29b-41d4-a716-446655440002" "travel" 2500%float "2025-01";
    new_spending "550e8400-e29b-41d4-a716-446655440002" "entertainment" 1000%float "2025-01";
    new_spending "550e8400-e29b-41d4-a716-446655440002" "shopping" 1500%float "2025-02";
    new_spending "550e8400-e29b-41d4-a716-446655440002" "utilities" 400%float "2025-02";
    new_spending "550e8400-e29b-41d4-a716-446655440003" "groceries" 600%float "2025-01";
    new_spending "550e8400-e29b-41d4-a716-446655440003" "utilities" 250%float "2025-01";
    new_spending "550e8400-e29b-41d4-a716-446655440003" "healthcare" 300%float "2025-01";
    new_spending "550e8400-e29b-41d4-a716-446655440003" "groceries" 580%float "2025-02";
    new_spending "550e8400-e29b-41d4-a716-446655440003" "utilities" 240%float "2025-02";
    new_spending "550e8400-e29b-41d4-a716-446655440004" "office_supplies" 5000%float "2025-01";
    new_spending "550e8400-e29b-41d4-a716-446655440004" "utilities" 8000%float "2025-01";
    new_spending "550e8400-e29b-41d4-a716-446655440004" "marketing" 15000%float "2025-01";
    new_spending "550e8400-e29b-41d4-a716-446655440004" "office_supplies" 4500%float "2025-02";
    new_spending "550e8400-e29b-41d4-a716-446655440004" "utilities" 7500%float "2025-02";
    new_spending "550e8400-e29b-41d4-a716-446655440005" "groceries" 900%float "2025-01";
    new_spending "550e8400-e29b-41d4-a716-446655440005" "entertainment" 600%float "2025-01";
    new_spending "550e8400-e29b-41d4-a716-446655440005" "travel" 1200%float "2025-01";
    new_spending "550e8400-e29b-41d4-a716-446655440005" "groceries" 850%float "2025-02";
    new_spending "550e8400-e29b-41d4-a716-446655440005" "utilities" 350%float "2025-02" ].

Definition sample_derivatives : list DerivativeTransaction.t :=
  [ new_derivative "550e8400-e29b-41d4-a716-446655440001" "option" "buy" "AAPL"
      150.0%float 500.0%float "2025-12-15" "2025-07-15"
      (Some "covered_call") "open" (Some "BANK");
    new_derivative "550e8400-e29b-41d4-a716-446655440001" "option" "sell" "SPY"
      420.0%float 300.0%float "2025-09-15" "2025-06-15"
      (Some "cash_secured_put") "open" (Some "BROKER");
    new_derivative "550e8400-e29b-41d4-a716-446655440002" "option" "buy" "TSLA"
      200.0%float 1500.0%float "2025-11-15" "2025-05-15"
      (Some "long_call") "open" (Some "EXCHANGE");
    new_derivative "550e8400-e29b-41d4-a716-446655440002" "future" "buy" "GOLD"
      2100.0%float 2000.0%float "2025-10-15" "2025-04-15"
      (Some "hedge") "open" (Some "EXCHANGE") ].

(** The tables whose rows get their primary key on insertion. *)
Class Insertable (T : Type) `{Table T} := {
  with_pk : Z -> T -> T }.

#[global] Instance institution_ins : Insertable Institution.t := {|
  with_pk k r :=
    {| Institution.id := k; Institution.name := Institution.name r;
       Institution.type := Institution.type r;
       Institution.contact_info := Institution.contact_info r;
       Institution.internal_code := Institution.internal_code r |} |}.

#[global] Instance bankaccount_ins : Insertable BankAccount.t := {|
  with_pk k r :=
    {| BankAccount.id := k; BankAccount.customer_oid := BankAccount.customer_oid r;
       BankAccount.institution_id := BankAccount.institution_id r;
       BankAccount.balance := BankAccount.balance r;
       BankAccount.currency := BankAccount.currency r;
       BankAccount.iban := BankAccount.iban r |} |}.

#[global] Instance asset_ins : Insertable Asset.t := {|
  with_pk k r :=
    {| Asset.id := k; Asset.customer_oid := Asset.customer_oid r;
       Asset.asset_type := Asset.asset_type r; Asset.symbol := Asset.symbol r;
       Asset.amount := Asset.amount r |} |}.

#[global] Instance transaction_ins : Insertable Transaction.t := {|
  with_pk k r :=
    {| Transaction.id := k; Transaction.customer_oid := Transaction.customer_oid r;
       Transaction.date := Transaction.date r;
       Transaction.type := Transaction.type r;
       Transaction.asset := Transaction.asset r;
       Transaction.amount := Transaction.amount r |} |}.

#[global] Instance spending_ins : Insertable Spending.t := {|
  with_pk k r :=
    {| Spending.id := k; Spending.customer_oid := Spending.customer_oid r;
       Spending.category := Spending.category r;
       Spending.amount := Spending.amount r; Spending.month := Spending.month r |} |}.

#[global] Instance derivativetransaction_ins : Insertable DerivativeTransaction.t := {|
  with_pk k r :=
    {| DerivativeTransaction.id := k;
       DerivativeTransaction.customer_oid := DerivativeTransaction.customer_oid r;
       DerivativeTransaction.type := DerivativeTransaction.type r;
       DerivativeTransaction.side := DerivativeTransaction.side r;
       DerivativeTransaction.asset := DerivativeTransaction.asset r;
       DerivativeTransaction.strike_price := DerivativeTransaction.strike_price r;
       DerivativeTransaction.premium := DerivativeTransaction.premium r;
       DerivativeTransaction.expiration_date :=
         DerivativeTransaction.expiration_date r;
       DerivativeTransaction.execution_date :=
         DerivativeTransaction.execution_date r;
       DerivativeTransaction.strategy := DerivativeTransaction.strategy r;
       DerivativeTransaction.status := DerivativeTransaction.status r;
       DerivativeTransaction.counterparty :=
         DerivativeTransaction.counterparty r |} |}.

Definition next_pk {T} `{Table T} (l : list T) : Z :=
  1 + fold_right Z.max 0 (map pk l).

(** [session.add(obj)] on a table without unique columns: the row goes to
    the end of its table under the next primary key. *)
Definition session_add {T} `{Insertable T} (obj : T) : M unit :=
  store_op (Insert table_name);;;
  st <- get_working;;
  set_working (set_rows (rows st ++ [with_pk (next_pk (rows st)) obj]) st).

(** [for obj in objs: session.add(obj)] *)
Fixpoint add_each {T} `{Insertable T} (objs : list T) : M unit :=
  match objs with
  | [] => ret tt
  | obj :: rest => session_add obj;;; add_each rest
  end.

(** [for user in users: session.add(user)] *)
Fixpoint add_users (users : list (string * string)) : M unit :=
  match users with
  | [] => ret tt
  | (customer_oid, name) :: rest =>
      session_add_user customer_oid name;;; add_users rest
  end.

(** What [create_sample_data] prints last. *)
Inductive SeedReport : Type :=
  | SampleDataCreated
  | ErrorCreating (e : Exn).

(** [create_sample_data]: two commits, and a handler that rolls back and
    prints the error. *)
Definition create_sample_data : M SeedReport := fun s =>
  match
    (add_users sample_users;;;
     add_each sample_institutions;;;
     session_commit;;;
     add_each sample_bank_accounts;;;
     add_each sample_assets;;;
     add_each sample_transactions;;;
     add_each sample_spending;;;
     add_each sample_derivatives;;;
     session_commit) s
  with
  | (Ok _, s') => (Ok SampleDataCreated, s')
  | (Raise e, s') => (Ok (ErrorCreating e), session_rollback s')
  end.

(** [reset_database]: every table is dropped and created again. *)
Definition reset_database (db : Store) : Store := empty_store.

(** [reset_and_seed_database] *)
Definition reset_and_seed_database (db : Store) (plan : list bool)
    : Outcome SeedReport * Store * list (StoreOp * bool) :=
  request create_sample_data (reset_database db) plan.

(** The database that seeding an empty one commits. *)
Definition sample_database : Store :=
  Eval vm_compute in snd (fst (request create_sample_data empty_store [])).

Definition sample_oids : list string := map fst sample_users.

(** [l'] is [l] followed by further rows. *)
Definition continues {A} (l l' : list A) : Prop :=
  exists more, l' = (l ++ more)%list.

(** Every table of [st] is the table of [db] followed by further rows. *)
Record grows (db st : Store) : Prop := {
  users_grow : continues (user_table db) (user_table st);
  assets_grow : continues (asset_table db) (asset_table st);
  transactions_grow : continues (transaction_table db) (transaction_table st);
  spending_grows : continues (spending_table db) (spending_table st);
  institutions_grow : continues (institution_table db) (institution_table st);
  accounts_grow : continues (bankaccount_table db) (bankaccount_table st);
  derivatives_grow :
    continues (derivativetransaction_table db) (derivativetransaction_table st) }.

(** Appending to one table leaves the others as they are. *)
Class Appends (T : Type) `{Table T} : Prop := {
  appended : forall st l, grows st (set_rows (rows st ++ l) st) }.

(** A session on a database that has only grown since [db]. *)
Definition grown (db : Store) (s : Session) : Prop :=
  grows db (committed s) /\ grows db (working s).

(** * Properties *)

(** ** Characters and strings *)

Ltac by_cases_on_char c :=
  destruct c as [[|] [|] [|] [|] [|] [|] [|] [|]];
  vm_compute; intuition congruence.

Lemma hex_not_brace c : is_hex c = true -> mem_char c "{}" = false.
Proof. by_cases_on_char c. Qed.

Lemma hex_is_not a c :
  is_hex a = false -> is_hex c = true -> is_not a c = true.
Proof.
  intros Ha Hc. unfold is_not.
  destruct (Ascii.eqb_spec c a) as [->|]; [congruence | reflexivity].
Qed.

Lemma hex_not_space c : is_hex c = true -> Py_ISSPACE c = false.
Proof. by_cases_on_char c. Qed.

Lemma hex_is_ascii c : is_hex c = true -> (code c <? 127) = true.
Proof. by_cases_on_char c. Qed.

Lemma hex_digit_value c : is_hex c = true -> 0 <= digit_value c < 16.
Proof. by_cases_on_char c. Qed.

Lemma hexdash_not_brace c : hexdash c = true -> mem_char c "{}" = false.
Proof. by_cases_on_char c. Qed.

Lemma hexdash_is_not a c :
  hexdash a = false -> hexdash c = true -> is_not a c = true.
Proof.
  intros Ha Hc. unfold is_not.
  destruct (Ascii.eqb_spec c a) as [->|]; [congruence | reflexivity].
Qed.

Lemma all_chars_impl (p q : ascii -> bool) s :
  (forall c, p c = true -> q c = true) ->
  all_chars p s = true -> all_chars q s = true.
Proof.
  intros Hpq. induction s as [|c r IH]; simpl; [reflexivity|].
  rewrite !andb_true_iff. intros [Hc Hr]. split; auto.
Qed.

Lemma all_chars_app p a b :
  all_chars p (a ++ b) = all_chars p a && all_chars p b.
Proof.
  induction a as [|c r IH]; simpl; [reflexivity|].
  now rewrite IH, andb_assoc.
Qed.

Lemma length_app (a b : string) :
  String.length (a ++ b) = (String.length a + String.length b)%nat.
Proof. induction a as [|c r IH]; simpl; [reflexivity | now rewrite IH]. Qed.

Lemma string_app_assoc (a b c : string) : (a ++ b) ++ c = a ++ (b ++ c).
Proof. induction a as [|d r IH]; simpl; [reflexivity | now rewrite IH]. Qed.

(** A string in which the first character of [old] does not occur is left
    alone by [replace]. *)
Lemma replace_absent a old' new s :
  all_chars (is_not a) s = true ->
  str_replace (String a old') new s = s.
Proof.
  unfold str_replace. induction s as [|c r IH]; simpl; [reflexivity|].
  rewrite andb_true_iff. intros [Hc Hr]. unfold is_not in Hc.
  destruct (ascii_dec a c) as [->|_].
  - rewrite Ascii.eqb_refl in Hc. discriminate.
  - now rewrite (IH Hr).
Qed.

(** Replacing a single character works piece by piece. *)
Lemma replace_char_app a new s t :
  str_replace (String a "") new (s ++ t)
  = str_replace (String a "") new s ++ str_replace (String a "") new t.
Proof.
  unfold str_replace. induction s as [|c r IH]; simpl; [reflexivity|].
  destruct (ascii_dec a c) as [->|_].
  - assert (Hp : forall u, String.prefix "" u = true) by (now intros [|]).
    now rewrite !Hp, IH, string_app_assoc.
  - now rewrite IH.
Qed.

Lemma rstrip_absent chars s :
  all_chars (fun c => negb (mem_char c chars)) s = true ->
  str_rstrip chars s = s.
Proof.
  induction s as [|c r IH]; simpl; [reflexivity|].
  rewrite andb_true_iff. intros [Hc Hr]. rewrite (IH Hr).
  destruct r; [|reflexivity].
  now destruct (mem_char c chars).
Qed.

Lemma strip_absent chars s :
  all_chars (fun c => negb (mem_char c chars)) s = true ->
  str_strip chars s = s.
Proof.
  intros H. unfold str_strip.
  assert (Hl : str_lstrip chars s = s).
  { destruct s as [|c r]; simpl in *; [reflexivity|].
    apply andb_true_iff in H as [Hc _].
    now destruct (mem_char c chars). }
  rewrite Hl. now apply rstrip_absent.
Qed.

Lemma hex_neq a c : is_hex a = false -> is_hex c = true -> Ascii.eqb c a = false.
Proof.
  intros Ha Hc. destruct (Ascii.eqb_spec c a) as [->|]; [congruence | reflexivity].
Qed.

(** ** The canonical form is parsed by [uuid.UUID] *)

Lemma take_hex_split n : forall s r,
  take_hex n s = Some r ->
  exists g, s = g ++ r /\ all_chars is_hex g = true /\ String.length g = n.
Proof.
  induction n as [|k IH]; simpl; intros s r H.
  - exists "". now inversion H.
  - destruct s as [|c s']; [discriminate|].
    destruct (is_hex c) eqn:Hc; [|discriminate].
    destruct (IH _ _ H) as (g & -> & Hg & Hl).
    exists (String c g). simpl. now rewrite Hc, Hg, Hl.
Qed.

Lemma hex_only_no_dash g :
  all_chars is_hex g = true -> str_replace "-" "" g = g.
Proof.
  intros H. apply replace_absent.
  revert H. apply all_chars_impl. intros c Hc. now apply hex_is_not.
Qed.

Lemma replace_dash_head r :
  str_replace "-" "" (String "-" r) = str_replace "-" "" r.
Proof. unfold str_replace. now destruct r. Qed.

Lemma hex_groups_shape sizes : forall s,
  hex_groups sizes s = true ->
  all_chars hexdash s = true
  /\ all_chars is_hex (str_replace "-" "" s) = true
  /\ String.length (str_replace "-" "" s) = list_sum sizes.
Proof.
  induction sizes as [|n rest IH]; simpl; intros s H; [discriminate|].
  destruct (take_hex n s) as [t|] eqn:E; [|discriminate].
  destruct (take_hex_split _ _ _ E) as (g & -> & Hg & Hl).
  assert (Hgd : all_chars hexdash g = true).
  { revert Hg. apply all_chars_impl. intros c Hc. unfold hexdash. now rewrite Hc. }
  destruct t as [|c r], rest as [|m rest']; try discriminate.
  - rewrite replace_char_app, all_chars_app, length_app, hex_only_no_dash by assumption.
    rewrite all_chars_app, Hg, Hgd, Hl. simpl. auto.
  - apply andb_true_iff in H as [Hc H].
    apply Ascii.eqb_eq in Hc as ->.
    destruct (IH _ H) as (Hd & Hh & Hn).
    rewrite replace_char_app, !all_chars_app, length_app, hex_only_no_dash by assumption.
    rewrite replace_dash_head, Hg, Hgd, Hl, Hh, Hn.
    simpl all_chars. rewrite Hd. auto.
Qed.

Definition not_underscore (p : option ascii) : Prop :=
  match p with
  | Some c => Ascii.eqb c "_" = false
  | None => True
  end.

Lemma digits_only h : forall prev acc,
  all_chars is_hex h = true -> not_underscore prev -> 0 <= acc ->
  exists p v,
    long_from_binary_base 16 prev acc h = Some (p, v, "")
    /\ (p = None -> h = "")
    /\ acc * 16 ^ len h <= v < (acc + 1) * 16 ^ len h.
Proof.
  unfold len. induction h as [|c r IH]; intros prev acc Hh Hp Hacc.
  - exists prev, acc. simpl.
    split; [|split; [auto | lia]].
    destruct prev as [p|]; [|reflexivity]. simpl in Hp. now rewrite Hp.
  - simpl in Hh. apply andb_true_iff in Hh as [Hc Hr].
    pose proof (hex_digit_value c Hc) as Hd.
    assert (Hu : Ascii.eqb c "_" = false) by (now apply hex_neq).
    destruct (IH (Some c) (acc * 16 + digit_value c) Hr Hu ltac:(lia))
      as (p & v & E & Hn & Hv).
    exists p, v. simpl long_from_binary_base. rewrite Hu.
    assert (Hlt : (digit_value c <? 16) = true) by (apply Z.ltb_lt; lia).
    rewrite Hlt, E. split; [reflexivity|]. split.
    + intros ->. rewrite (Hn eq_refl) in E. simpl in E. rewrite Hu in E.
      discriminate.
    + simpl String.length. rewrite Nat2Z.inj_succ, Z.pow_succ_r by lia.
      assert (0 < 16 ^ Z.of_nat (String.length r)) by (apply Z.pow_pos_nonneg; lia).
      nia.
Qed.

Lemma transform_hex h :
  all_chars is_hex h = true -> transform_decimal_and_space h = h.
Proof.
  induction h as [|c r IH]; simpl; [reflexivity|].
  rewrite andb_true_iff. intros [Hc Hr].
  now rewrite (hex_is_ascii c Hc), (IH Hr).
Qed.

(** [int(h, 16)] reads a non-empty string of hexadecimal digits whole. *)
Lemma int16_hex h :
  all_chars is_hex h = true -> h <> "" ->
  exists v, int16 h = Some v /\ 0 <= v < 16 ^ len h.
Proof.
  intros Hh Hne. unfold int16. rewrite (transform_hex h Hh).
  destruct h as [|c r]; [congruence|].
  pose proof Hh as Hall. simpl in Hh. apply andb_true_iff in Hh as [Hc Hr].
  unfold PyLong_FromString16.
  assert (E1 : skip_spaces (String c r) = String c r).
  { simpl. now rewrite (hex_not_space c Hc). }
  assert (E2 : skip_sign (String c r) = (1, String c r)).
  { simpl. now rewrite !(hex_neq _ c) by (reflexivity || assumption). }
  assert (E3 : skip_hex_prefix (String c r) = String c r).
  { destruct r as [|c1 r1]; [reflexivity|]. simpl.
    simpl in Hr. apply andb_true_iff in Hr as [Hc1 _].
    rewrite !(hex_neq _ c1) by (reflexivity || assumption).
    now rewrite andb_false_r. }
  rewrite E1, E2, E3.
  assert (E4 : starts_with_underscore (String c r) = false).
  { simpl. now apply hex_neq. }
  rewrite E4.
  destruct (digits_only (String c r) None 0 Hall I ltac:(lia))
    as (p & v & E & Hn & Hv).
  rewrite E. destruct p as [p|]; [|now specialize (Hn eq_refl)].
  exists v. simpl skip_spaces. split; [f_equal; lia | lia].
Qed.

Lemma canonical_parses s :
  is_canonical_uuid s = true -> exists i, UUID s = Some i.
Proof.
  intros H. destruct (hex_groups_shape _ _ H) as (Hd & Hh & Hn).
  unfold UUID.
  assert (Hu : forall a, hexdash a = false -> all_chars (is_not a) s = true).
  { intros a Ha. revert Hd. apply all_chars_impl. intros c. now apply hexdash_is_not. }
  rewrite (replace_absent "u" "rn:" "" s), (replace_absent "u" "uid:" "" s)
    by now apply Hu.
  rewrite strip_absent.
  2:{ revert Hd. apply all_chars_impl. intros c Hc.
      now rewrite (hexdash_not_brace c Hc). }
  set (h := str_replace "-" "" s) in *.
  unfold len. rewrite Hn. simpl negb.
  destruct (int16_hex h Hh) as (v & -> & Hv).
  { intros ->. discriminate. }
  unfold len in Hv. rewrite Hn in Hv. simpl in Hv.
  exists v.
  assert (Hb : (0 <=? v) && (v <? 2 ^ 128) = true).
  { apply andb_true_iff. split; [apply Z.leb_le | apply Z.ltb_lt]; lia. }
  now rewrite Hb.
Qed.

Lemma canonical_not_empty s : is_canonical_uuid s = true -> s <> "".
Proof. intros H ->. discriminate. Qed.

Lemma canonical_accepted s :
  is_canonical_uuid s = true -> validate_customer_oid s = Ok s.
Proof.
  intros H. unfold validate_customer_oid.
  destruct (String.eqb_spec s "") as [E|_].
  - now apply canonical_not_empty in H.
  - now destruct (canonical_parses s H) as (i & ->).
Qed.

Lemma validate_returns_input s t : validate_customer_oid s = Ok t -> t = s.
Proof.
  unfold validate_customer_oid.
  destruct (String.eqb s ""); [discriminate|].
  destruct (UUID s); [congruence|].
  destruct (re_match_legacy s); simpl; congruence.
Qed.

Lemma validate_rejects_with_400 s e :
  validate_customer_oid s = Raise e -> exists detail, e = HTTPException 400 detail.
Proof.
  unfold validate_customer_oid.
  destruct (String.eqb s ""); [intros [= <-]; eauto|].
  destruct (UUID s); [discriminate|].
  destruct (re_match_legacy s); simpl; [discriminate | intros [= <-]; eauto].
Qed.

(** ** The legacy pattern *)

Lemma string_app_empty_r (s : string) : s ++ "" = s.
Proof. induction s as [|c r IH]; simpl; [reflexivity | now rewrite IH]. Qed.

Lemma re_repeat_matches cls k s : forall lo hi,
  re_repeat cls lo hi k s = true <->
  exists pre t, s = pre ++ t /\ all_chars cls pre = true
    /\ (lo <= String.length pre <= hi)%nat /\ k t = true.
Proof.
  induction s as [|c r IH]; intros lo hi; simpl.
  - rewrite andb_true_iff, Nat.eqb_eq. split.
    + intros [-> Hk]. exists "", "". simpl. repeat split; auto with arith.
    + intros (pre & t & E & _ & Hl & Hk).
      destruct pre; [|discriminate]. simpl in *. subst t. split; [lia | exact Hk].
  - rewrite orb_true_iff. split.
    + intros [H|H].
      * destruct hi as [|hi']; [discriminate|].
        apply andb_true_iff in H as [Hc H]. apply IH in H as (pre & t & -> & Hp & Hl & Hk).
        exists (String c pre), t. simpl. rewrite Hc, Hp. repeat split; auto; lia.
      * apply andb_true_iff in H as [Hlo Hk]. apply Nat.eqb_eq in Hlo as ->.
        exists "", (String c r). simpl. repeat split; auto with arith.
    + intros (pre & t & E & Hp & Hl & Hk). destruct pre as [|d pre'].
      * right. simpl in *. subst t. rewrite Hk. simpl in Hl.
        replace lo with 0%nat by lia. reflexivity.
      * left. simpl in E, Hp, Hl. injection E as <- ->.
        apply andb_true_iff in Hp as [Hc Hp].
        destruct hi as [|hi']; [lia|]. rewrite Hc. simpl.
        apply IH. exists pre', t. repeat split; auto; lia.
Qed.

(** What [re.match] lets through: the legacy codes, and the legacy codes
    followed by one line feed. *)
Lemma re_match_legacy_spec s :
  re_match_legacy s = true <->
  is_legacy_code s = true
  \/ exists t, s = t ++ String newline "" /\ is_legacy_code t = true.
Proof.
  unfold re_match_legacy, is_legacy_code, len. rewrite re_repeat_matches. split.
  - intros (pre & t & -> & Hp & Hl & Hk).
    assert (Hcode : (8 <=? Z.of_nat (String.length pre))
                    && (Z.of_nat (String.length pre) <=? 36)
                    && all_chars legacy_class pre = true).
    { rewrite Hp, andb_true_r. apply andb_true_iff.
      split; [apply Z.leb_le | apply Z.leb_le]; lia. }
    destruct t as [|c [|d u]]; try discriminate.
    + left. now rewrite string_app_empty_r.
    + right. simpl in Hk. apply Ascii.eqb_eq in Hk as ->. now exists pre.
  - intros [H | (t & -> & H)];
      apply andb_true_iff in H as [H Hp]; apply andb_true_iff in H as [H8 H36];
      apply Z.leb_le in H8, H36.
    + exists s, "". rewrite string_app_empty_r. repeat split; auto; lia.
    + exists t, (String newline ""). repeat split; auto; lia.
Qed.

Lemma ends_with_app c t : ends_with c (t ++ String c "") = true.
Proof.
  induction t as [|d t IH]; simpl; [apply Ascii.eqb_refl|].
  destruct (t ++ String c "") eqn:E; [|exact IH].
  destruct t; discriminate.
Qed.

(** Rules 3 and 4 on the strings that end in no line feed. *)
Lemma legacy_rule s :
  UUID s = None ->
  ends_with newline s = false ->
  validate_customer_oid s =
    if is_legacy_code s then Ok s
    else Raise (HTTPException 400
                  (if String.eqb s "" then empty_detail else format_detail)).
Proof.
  intros Hu Hn. unfold validate_customer_oid. rewrite Hu.
  destruct (String.eqb_spec s "") as [->|_]; [reflexivity|].
  destruct (is_legacy_code s) eqn:Hl.
  - assert (Hm : re_match_legacy s = true) by (apply re_match_legacy_spec; auto).
    now rewrite Hm.
  - destruct (re_match_legacy s) eqn:Hm; [|reflexivity].
    apply re_match_legacy_spec in Hm as [Hm | (t & -> & _)]; [congruence|].
    now rewrite ends_with_app in Hn.
Qed.

(** ** The validator *)

(** C1, as the code has it: a string that [uuid.UUID] does not parse and
    that ends in no line feed is accepted, and returned unchanged, exactly
    when it has 8 to 36 characters, each an uppercase letter, a digit or a
    hyphen; otherwise, the empty string included, it is rejected with 400. *)
Theorem C1_legacy_rule (s : string) :
  UUID s = None ->
  ends_with newline s = false ->
  (is_legacy_code s = true -> validate_customer_oid s = Ok s)
  /\ (is_legacy_code s = false ->
      exists detail, validate_customer_oid s = Raise (HTTPException 400 detail)).
Proof.
  intros Hu Hn. rewrite (legacy_rule s Hu Hn).
  split; intros ->; [reflexivity | eauto].
Qed.

Lemma C1_legacy_rule_witness :
  validate_customer_oid "CUST-0001" = Ok "CUST-0001"
  /\ (exists detail,
        validate_customer_oid "cust-0001" = Raise (HTTPException 400 detail))
  /\ (exists detail,
        validate_customer_oid "CUST001" = Raise (HTTPException 400 detail))
  /\ (exists detail, validate_customer_oid "" = Raise (HTTPException 400 detail)).
Proof.
  split; [|split; [|split]].
  - now apply (C1_legacy_rule "CUST-0001").
  - now apply (C1_legacy_rule "cust-0001").
  - now apply (C1_legacy_rule "CUST001").
  - now apply (C1_legacy_rule "").
Defined.

(** C1 as stated fails twice.  Thirty-two lowercase hexadecimal digits are
    not in the canonical hyphenated form and hold lowercase letters, yet
    [uuid.UUID] parses them and they are accepted.  The string ABCDEFGH
    followed by a line feed is no UUID and holds a character outside the
    class, and thirty-six letters and digits followed by a line feed are
    thirty-seven characters; the pattern matches both, its [$] standing
    before a final line feed too, and they are accepted. *)
Lemma C1_accepted_outside_both_forms :
  (is_canonical_uuid bare_hex = false
   /\ all_chars legacy_class bare_hex = false
   /\ validate_customer_oid bare_hex = Ok bare_hex)
  /\ (UUID line_feed_code = None
      /\ all_chars legacy_class line_feed_code = false
      /\ validate_customer_oid line_feed_code = Ok line_feed_code)
  /\ (UUID long_line_feed_code = None
      /\ len long_line_feed_code = 37
      /\ validate_customer_oid long_line_feed_code = Ok long_line_feed_code).
Proof. vm_compute. repeat split; reflexivity. Qed.

(** C2: every string in the canonical hyphenated 8-4-4-4-12 form, in either
    letter case, is accepted and returned as it was given. *)
Theorem C2_canonical_uuid_accepted_unchanged (s : string) :
  is_canonical_uuid s = true -> validate_customer_oid s = Ok s.
Proof. apply canonical_accepted. Qed.

Lemma C2_canonical_uuid_witness :
  is_canonical_uuid "550E8400-e29b-41D4-a716-446655440000" = true
  /\ validate_customer_oid "550E8400-e29b-41D4-a716-446655440000"
     = Ok "550E8400-e29b-41D4-a716-446655440000".
Proof.
  split; [reflexivity|].
  apply (C2_canonical_uuid_accepted_unchanged "550E8400-e29b-41D4-a716-446655440000").
  reflexivity.
Defined.

(** C10: strings that are neither in the canonical hyphenated form nor
    legacy codes are accepted unchanged, because [uuid.UUID] decides: thirty
    two hexadecimal digits without hyphens, in lower case too, and the
    urn:uuid: form. *)
Theorem C10_other_uuid_spellings_accepted :
  (is_canonical_uuid bare_hex = false
   /\ is_legacy_code bare_hex = false
   /\ validate_customer_oid bare_hex = Ok bare_hex)
  /\ (is_canonical_uuid urn_form = false
      /\ is_legacy_code urn_form = false
      /\ validate_customer_oid urn_form = Ok urn_form)
  /\ exists s, is_canonical_uuid s = false /\ is_legacy_code s = false
               /\ validate_customer_oid s = Ok s.
Proof.
  split; [|split]; [| |exists bare_hex]; vm_compute; repeat split; reflexivity.
Qed.

(** ** Rows and tables *)

Section Rows.
Context {T : Type} `{CustomerTable T}.

Lemma where_oid_In customer_oid (l : list T) r :
  In r (where_oid customer_oid l) <-> In r l /\ oid_of r = customer_oid.
Proof.
  unfold where_oid. rewrite filter_In.
  now rewrite String.eqb_eq.
Qed.

Lemma where_oid_nil customer_oid (l : list T) :
  no_rows_for customer_oid l <-> where_oid customer_oid l = [].
Proof.
  split.
  - intros Hn. destruct (where_oid customer_oid l) as [|r rest] eqn:E; [reflexivity|].
    assert (Hr : In r (where_oid customer_oid l)) by (rewrite E; now left).
    apply where_oid_In in Hr as [Hr Ho]. now destruct (Hn r Hr).
  - intros E r Hr Ho.
    assert (Hin : In r (where_oid customer_oid l)) by (now apply where_oid_In).
    now rewrite E in Hin.
Qed.

Lemma first_where_oid customer_oid (l : list T) r :
  first (where_oid customer_oid l) = Some r -> In r l /\ oid_of r = customer_oid.
Proof.
  intros E. apply where_oid_In.
  destruct (where_oid customer_oid l); [discriminate|].
  injection E as ->. now left.
Qed.

Lemma without_pk_In k (l : list T) r :
  In r (without_pk k l) <-> In r l /\ pk r <> k.
Proof.
  unfold without_pk. rewrite filter_In, negb_true_iff, Z.eqb_neq. reflexivity.
Qed.

Lemma deleted_rows_In (objs l : list T) r :
  In r (fold_left (fun l obj => without_pk (pk obj) l) objs l) ->
  In r l /\ forall obj, In obj objs -> pk r <> pk obj.
Proof.
  revert l. induction objs as [|o rest IH]; simpl; intros l Hr.
  - split; [assumption | tauto].
  - apply IH in Hr as [Hr Hrest]. apply without_pk_In in Hr as [Hr Ho].
    split; [assumption|]. intros obj [<-|Hobj]; auto.
Qed.

(** Deleting what was selected for an identifier leaves none of its rows. *)
Lemma selected_rows_gone customer_oid (l : list T) :
  no_rows_for customer_oid
    (fold_left (fun l obj => without_pk (pk obj) l) (where_oid customer_oid l) l).
Proof.
  intros r Hr Ho. apply deleted_rows_In in Hr as [Hr Hpk].
  apply (Hpk r); [|reflexivity]. now apply where_oid_In.
Qed.
End Rows.

Lemma unique_oid_same_row (l : list User.t) u v :
  unique_oids l -> In u l -> In v l ->
  User.customer_oid u = User.customer_oid v -> u = v.
Proof.
  unfold unique_oids. induction l as [|w l IH]; simpl; [tauto|].
  intros Hd Hu Hv E. inversion Hd as [|? ? Hw Hd']; subst.
  destruct Hu as [->|Hu], Hv as [->|Hv]; auto.
  - destruct Hw. rewrite E. now apply in_map.
  - destruct Hw. rewrite <- E. now apply in_map.
Qed.

(** With unique identifiers, deleting the identity that was found leaves no
    identity for the identifier. *)
Lemma identity_gone customer_oid (l : list User.t) u :
  unique_oids l ->
  first (where_oid customer_oid l) = Some u ->
  no_rows_for customer_oid (without_pk (pk u) l).
Proof.
  intros Hd Hu r Hr Ho. apply first_where_oid in Hu as [Hu Hou].
  apply without_pk_In in Hr as [Hr Hpk]. apply Hpk.
  simpl in Ho, Hou.
  now rewrite (unique_oid_same_row l r u Hd Hr Hu) by congruence.
Qed.

#[global] Instance user_laws : TableLaws User.t.
Proof. split; intros; destruct st; reflexivity. Qed.
#[global] Instance asset_laws : TableLaws Asset.t.
Proof. split; intros; destruct st; reflexivity. Qed.
#[global] Instance transaction_laws : TableLaws Transaction.t.
Proof. split; intros; destruct st; reflexivity. Qed.
#[global] Instance spending_laws : TableLaws Spending.t.
Proof. split; intros; destruct st; reflexivity. Qed.
#[global] Instance institution_laws : TableLaws Institution.t.
Proof. split; intros; destruct st; reflexivity. Qed.
#[global] Instance bankaccount_laws : TableLaws BankAccount.t.
Proof. split; intros; destruct st; reflexivity. Qed.
#[global] Instance derivativetransaction_laws : TableLaws DerivativeTransaction.t.
Proof. split; intros; destruct st; reflexivity. Qed.

(** ** Aggregation *)

Lemma no_fault_nil : no_fault [].
Proof. intros op []. Qed.

(** C3: for every database, aggregating an identifier that passes validation
    and matches no identity fails with 404 Not Found, the identifier in the
    message; aggregating an identifier that fails validation fails with 400
    before any statement is sent to the database. *)
Theorem C3_unknown_or_malformed_identifier (db : Store) (customer_oid : string) :
  (validate_customer_oid customer_oid = Ok customer_oid ->
   no_rows_for customer_oid (user_table db) ->
   request (get_user_portfolio customer_oid) db [] =
     (Raise (HTTPException 404
               ("User with CustomerOID '" ++ customer_oid ++ "' not found")),
      db, [(Select TUser, true)]))
  /\ (forall e plan,
        validate_customer_oid customer_oid = Raise e ->
        (exists detail, e = HTTPException 400 detail)
        /\ request (get_user_portfolio customer_oid) db plan = (Raise e, db, [])).
Proof.
  split.
  - intros Hv Hn. apply where_oid_nil in Hn.
    unfold request, get_user_portfolio, bind, lift. rewrite Hv.
    unfold exec_where, bind. simpl. unfold rows. simpl. now rewrite Hn.
  - intros e plan Hv. split; [now apply validate_rejects_with_400 in Hv|].
    unfold request, get_user_portfolio, bind, lift. now rewrite Hv.
Qed.

Lemma C3_unknown_or_malformed_witness :
  request (get_user_portfolio "CUST-0001") seeded [] =
    (Raise (HTTPException 404 "User with CustomerOID 'CUST-0001' not found"),
     seeded, [(Select TUser, true)])
  /\ request (get_user_portfolio "invalid-oid") seeded [true] =
       (Raise (HTTPException 400 format_detail), seeded, []).
Proof.
  split.
  - apply (proj1 (C3_unknown_or_malformed_identifier seeded "CUST-0001")).
    + reflexivity.
    + intros r [<-|[]]. discriminate.
  - apply (proj2 (C3_unknown_or_malformed_identifier seeded "invalid-oid")).
    reflexivity.
Defined.

Lemma identity_found customer_oid (l : list User.t) :
  (exists u, In u l /\ User.customer_oid u = customer_oid) ->
  exists u rest, where_oid customer_oid l = u :: rest.
Proof.
  intros (u & Hu & Ho).
  destruct (where_oid customer_oid l) as [|v rest] eqn:E; [|eauto].
  apply where_oid_nil in E. now destruct (E u Hu).
Qed.

(** C5: for a validated identifier with an identity and no row in any of the
    five dependent tables, aggregation succeeds: every has-data flag is
    false, every count is zero and both totals are 0. *)
Theorem C5_empty_portfolio (db : Store) (customer_oid : string) :
  validate_customer_oid customer_oid = Ok customer_oid ->
  (exists u, In u (user_table db) /\ User.customer_oid u = customer_oid) ->
  no_rows_for customer_oid (asset_table db) ->
  no_rows_for customer_oid (transaction_table db) ->
  no_rows_for customer_oid (spending_table db) ->
  no_rows_for customer_oid (bankaccount_table db) ->
  no_rows_for customer_oid (derivativetransaction_table db) ->
  exists p,
    request (get_user_portfolio customer_oid) db [] = (Ok p, db, all_selects)
    /\ Summary.has_data (Portfolio.portfolio_summary p) = no_data
    /\ Summary.total_assets (Portfolio.portfolio_summary p) = 0
    /\ Summary.total_accounts (Portfolio.portfolio_summary p) = 0
    /\ Summary.total_transactions (Portfolio.portfolio_summary p) = 0
    /\ Summary.total_spending_categories (Portfolio.portfolio_summary p) = 0
    /\ Summary.total_derivative_positions (Portfolio.portfolio_summary p) = 0
    /\ Summary.total_cash_balance (Portfolio.portfolio_summary p) = PyInt 0
    /\ Summary.total_spending (Portfolio.portfolio_summary p) = PyInt 0
    /\ Portfolio.assets p = [] /\ Portfolio.bank_accounts p = []
    /\ Portfolio.transactions p = [] /\ Portfolio.spending p = []
    /\ Portfolio.derivative_transactions p = [].
Proof.
  intros Hv Hu Ha Ht Hs Hb Hd.
  apply identity_found in Hu as (u & rest & Hu).
  apply where_oid_nil in Ha, Ht, Hs, Hb, Hd.
  unfold request, get_user_portfolio, bind, lift. rewrite Hv.
  unfold exec_where, bind. simpl. unfold rows. simpl.
  rewrite Hu. simpl. rewrite Ha. simpl. rewrite Ht. simpl. rewrite Hs. simpl.
  rewrite Hb. simpl. rewrite Hd. simpl.
  eexists. split; [reflexivity|]. simpl. repeat split; reflexivity.
Qed.

Lemma C5_empty_portfolio_witness :
  exists p,
    request (get_user_portfolio zero_uuid) taken [] = (Ok p, taken, all_selects)
    /\ Summary.has_data (Portfolio.portfolio_summary p) = no_data
    /\ Summary.total_assets (Portfolio.portfolio_summary p) = 0
    /\ Summary.total_accounts (Portfolio.portfolio_summary p) = 0
    /\ Summary.total_transactions (Portfolio.portfolio_summary p) = 0
    /\ Summary.total_spending_categories (Portfolio.portfolio_summary p) = 0
    /\ Summary.total_derivative_positions (Portfolio.portfolio_summary p) = 0
    /\ Summary.total_cash_balance (Portfolio.portfolio_summary p) = PyInt 0
    /\ Summary.total_spending (Portfolio.portfolio_summary p) = PyInt 0
    /\ Portfolio.assets p = [] /\ Portfolio.bank_accounts p = []
    /\ Portfolio.transactions p = [] /\ Portfolio.spending p = []
    /\ Portfolio.derivative_transactions p = [].
Proof.
  apply (C5_empty_portfolio taken zero_uuid).
  - reflexivity.
  - eexists. split; [left; reflexivity | reflexivity].
  - intros r [].
  - intros r [].
  - intros r [].
  - intros r [].
  - intros r [].
Defined.

(** C4: on a database seeded with an identity for
    11111111-1111-1111-1111-111111111111, two accounts at institutions 1 and
    2 of which only 1 exists, one holding, and spending records of 100 and
    50 in one category, aggregation succeeds with total_spending 150, one
    spending category, the first account carrying the institution record and
    the second carrying none. *)
Theorem C4_seeded_portfolio (identity : User.t) (holding : Asset.t)
    (bank : Institution.t) (first_account second_account : BankAccount.t)
    (first_spending second_spending : Spending.t) :
  User.customer_oid identity = sample_oid ->
  Asset.customer_oid holding = sample_oid ->
  Institution.id bank = 1 ->
  BankAccount.customer_oid first_account = sample_oid ->
  BankAccount.institution_id first_account = 1 ->
  BankAccount.customer_oid second_account = sample_oid ->
  BankAccount.institution_id second_account = 2 ->
  Spending.customer_oid first_spending = sample_oid ->
  Spending.customer_oid second_spending = sample_oid ->
  Spending.amount first_spending = 100%float ->
  Spending.amount second_spending = 50%float ->
  Spending.category first_spending = Spending.category second_spending ->
  let db := seeded_with identity holding bank first_account second_account
              first_spending second_spending in
  exists p,
    request (get_user_portfolio sample_oid) db [] =
      (Ok p, db, (all_selects ++ [(Select TInstitution, true)])%list)
    /\ Summary.total_spending (Portfolio.portfolio_summary p) = PyFloat 150
    /\ Summary.total_spending_categories (Portfolio.portfolio_summary p) = 1
    /\ Portfolio.bank_accounts p =
         [ {| AccountView.account := first_account;
              AccountView.institution := Some bank |};
           {| AccountView.account := second_account;
              AccountView.institution := None |} ].
Proof.
  intros identity_oid holding_oid bank_id first_account_oid first_account_at
    second_account_oid second_account_at first_spending_oid second_spending_oid
    first_amount second_amount same_category db.
  assert (Hv : validate_customer_oid sample_oid = Ok sample_oid) by reflexivity.
  unfold request, get_user_portfolio, bind, lift. rewrite Hv.
  unfold exec_where, exec_institutions_in, bind, where_oid. simpl.
  unfold rows, oid_of. simpl.
  repeat (progress
            (rewrite ?identity_oid, ?holding_oid, ?first_account_oid,
               ?second_account_oid, ?first_spending_oid, ?second_spending_oid,
               ?first_account_at, ?second_account_at, ?bank_id, ?first_amount,
               ?second_amount, ?String.eqb_refl;
             cbn -[list_to_set bool_decide size insert lookup PrimFloat.add])).
  assert (Hids : bool_decide ((list_to_set [1; 2] : gset Z) = ∅) = false)
    by reflexivity.
  assert (Hin : bool_decide (1 ∈ (list_to_set [1; 2] : gset Z)) = true)
    by reflexivity.
  rewrite Hids. unfold bind.
  cbn -[list_to_set bool_decide size insert lookup PrimFloat.add].
  rewrite bank_id, Hin.
  cbn -[list_to_set bool_decide size insert lookup PrimFloat.add].
  rewrite bank_id.
  eexists. split; [reflexivity|].
  cbn -[list_to_set bool_decide size insert lookup PrimFloat.add].
  split; [reflexivity|]. split.
  - rewrite same_category.
    change (list_to_set [Spending.category second_spending;
                         Spending.category second_spending] : gset string)
      with ({[Spending.category second_spending]}
            ∪ ({[Spending.category second_spending]} ∪ ∅) : gset string).
    now rewrite union_empty_r_L, union_idemp_L, size_singleton.
  - rewrite lookup_insert_eq, lookup_insert_ne, lookup_empty by discriminate.
    reflexivity.
Qed.

Lemma C4_seeded_witness :
  exists p,
    request (get_user_portfolio sample_oid) seeded [] =
      (Ok p, seeded, (all_selects ++ [(Select TInstitution, true)])%list)
    /\ Summary.total_spending (Portfolio.portfolio_summary p) = PyFloat 150
    /\ Summary.total_spending_categories (Portfolio.portfolio_summary p) = 1
    /\ Portfolio.bank_accounts p =
         [ {| AccountView.account := account_1;
              AccountView.institution := Some global_bank |};
           {| AccountView.account := account_2;
              AccountView.institution := None |} ].
Proof.
  apply (C4_seeded_portfolio john_doe apple_shares global_bank account_1
           account_2 groceries_january groceries_february); reflexivity.
Defined.

(** ** Rules for sessions *)

Section Rules.
Context {A : Type} (Q : A -> Session -> Prop) (E : Exn -> Session -> Prop).

Lemma wp_ret a s : Q a s -> wp (ret a) Q E s.
Proof. exact (fun H => H). Qed.

Lemma wp_raise e s : E e s -> wp (raise e) Q E s.
Proof. exact (fun H => H). Qed.

Lemma wp_lift r s :
  match r with Ok a => Q a s | Raise e => E e s end -> wp (lift r) Q E s.
Proof. unfold wp, lift. now destruct r. Qed.

Lemma wp_bind {B} (m : M B) (f : B -> M A) s :
  wp m (fun b s' => wp (f b) Q E s') E s -> wp (bind m f) Q E s.
Proof. unfold wp, bind. now destruct (m s) as [[b|e] s']. Qed.

(** The handler turns a database error into a 500 after a rollback and
    lets every other exception through. *)
Lemma wp_try_except prefix (body : M A) s :
  wp body Q
     (fun e s' =>
        match e with
        | StoreError msg =>
            E (HTTPException 500 (prefix ++ msg)) (session_rollback s')
        | _ => E e s'
        end) s ->
  wp (try_except prefix body) Q E s.
Proof.
  unfold wp, try_except. now destruct (body s) as [[a|[code detail|msg]] s'].
Qed.
End Rules.

Lemma no_fault_sent op lg : no_fault lg -> no_fault (lg ++ [(op, true)]).
Proof.
  intros H o Hin. apply in_app_or in Hin as [Hin|[Hin|[]]].
  - exact (H o Hin).
  - discriminate.
Qed.

Lemma calm_refl s : calm s s.
Proof. split; auto. Qed.

Lemma calm_trans s1 s2 s3 : calm s1 s2 -> calm s2 s3 -> calm s1 s3.
Proof. intros [E1 F1] [E2 F2]. split; [congruence | auto]. Qed.

Section Statements.
Context {A : Type} (Q : A -> Session -> Prop) (E : Exn -> Session -> Prop).

Lemma wp_store_op op (Q' : unit -> Session -> Prop) s :
  Q' tt (sent op true s) ->
  E (StoreError database_error) (sent op false s) ->
  wp (store_op op) Q' E s.
Proof. unfold wp, store_op. now destruct (faults s) as [|[|] fs]. Qed.

(** A query returns the rows of the transaction's view, or fails; either
    way nothing is committed. *)
Lemma wp_exec_where {T} `{CustomerTable T} customer_oid
    (Q' : list T -> Session -> Prop) s :
  (forall s', calm s s' -> working s' = working s ->
              Q' (where_oid customer_oid (rows (working s))) s') ->
  (forall s', committed s' = committed s -> E (StoreError database_error) s') ->
  wp (exec_where T customer_oid) Q' E s.
Proof.
  intros HQ HE. unfold exec_where.
  apply wp_bind, wp_store_op; [|now apply HE].
  apply wp_bind. unfold wp, get_working, ret.
  apply HQ; [|reflexivity]. split; [reflexivity|]. apply no_fault_sent.
Qed.

Lemma wp_session_delete {T} `{Table T} (obj : T)
    (Q' : unit -> Session -> Prop) s :
  (forall s', calm s s' -> working s' = delete_all [obj] (working s) ->
              Q' tt s') ->
  (forall s', committed s' = committed s -> E (StoreError database_error) s') ->
  wp (session_delete obj) Q' E s.
Proof.
  intros HQ HE. unfold session_delete.
  apply wp_bind, wp_store_op; [|now apply HE].
  apply wp_bind. unfold wp, get_working, set_working.
  apply HQ; [|reflexivity]. split; [reflexivity|]. apply no_fault_sent.
Qed.

Lemma wp_delete_each {T} `{TableLaws T} (objs : list T)
    (Q' : unit -> Session -> Prop) : forall s,
  (forall s', calm s s' -> working s' = delete_all objs (working s) ->
              Q' tt s') ->
  (forall s', committed s' = committed s -> E (StoreError database_error) s') ->
  wp (delete_each objs) Q' E s.
Proof.
  induction objs as [|obj rest IH]; intros s HQ HE; simpl.
  - apply HQ; [apply calm_refl|]. unfold delete_all. simpl.
    now rewrite set_rows_id.
  - apply wp_bind, wp_session_delete; [|exact HE].
    intros s1 Hc1 Hw1. apply IH.
    + intros s2 Hc2 Hw2. apply HQ; [now apply (calm_trans s s1 s2)|].
      rewrite Hw2, Hw1. unfold delete_all. simpl.
      now rewrite rows_set, set_set.
    + intros s2 Hc2. apply HE. destruct Hc1 as [Hc1 _]. congruence.
Qed.

(** A commit publishes the transaction's view, or fails and publishes
    nothing. *)
Lemma wp_session_commit (Q' : unit -> Session -> Prop) s :
  (forall s', committed s' = working s -> working s' = working s ->
              (no_fault (log s) -> no_fault (log s')) -> Q' tt s') ->
  (forall s', committed s' = committed s -> E (StoreError database_error) s') ->
  wp session_commit Q' E s.
Proof.
  intros HQ HE. unfold session_commit.
  apply wp_bind, wp_store_op; [|now apply HE].
  unfold wp. apply HQ; try reflexivity. apply no_fault_sent.
Qed.
End Statements.

(** ** Deletion *)

(** After a statement that went through: nothing committed, no failure
    logged, and the transaction's view known. *)
Ltac went_through Hc Hn Hw :=
  let s := fresh "s" in
  let C := fresh "C" in
  let N := fresh "N" in
  let W := fresh "W" in
  intros s [C N] W;
  rewrite Hc in C; specialize (N Hn); rewrite Hw in W; rewrite ?Hw.

(** After a statement that failed: the handler rolls back and answers 500. *)
Ltac went_wrong Hc :=
  let s := fresh "s" in
  let C := fresh "C" in
  intros s C; simpl; rewrite Hc in C; split; [exact C | left; eauto].

Lemma delete_customer_spec (db : Store) (plan : list bool) (customer_oid : string) :
  wp (delete_customer customer_oid)
     (fun resp s' =>
        no_fault (log s')
        /\ validate_customer_oid customer_oid = Ok customer_oid
        /\ resp = deleted_response customer_oid
        /\ exists user,
             first (where_oid customer_oid (user_table db)) = Some user
             /\ committed s' = purge customer_oid user db)
     (fun e s' =>
        committed s' = db
        /\ ((exists detail, e = HTTPException 500 detail) \/ no_fault (log s')))
     (open_session db plan).
Proof.
  unfold delete_customer. apply wp_bind, wp_lift.
  destruct (validate_customer_oid customer_oid) as [oid|e] eqn:Hv.
  2:{ split; [reflexivity | right; apply no_fault_nil]. }
  apply validate_returns_input in Hv as Hoid. subst oid.
  assert (Hc0 : committed (open_session db plan) = db) by reflexivity.
  assert (Hn0 : no_fault (log (open_session db plan))) by apply no_fault_nil.
  assert (Hw0 : working (open_session db plan) = db) by reflexivity.
  apply wp_try_except.
  apply wp_bind, wp_exec_where; [went_through Hc0 Hn0 Hw0 | went_wrong Hc0].
  destruct (first (where_oid customer_oid (rows db))) as [user|] eqn:Hu.
  2:{ apply wp_raise. split; [assumption | now right]. }
  apply wp_bind, wp_exec_where; [went_through C N W | went_wrong C].
  apply wp_bind, wp_delete_each; [typeclasses eauto | went_through C0 N0 W0 | went_wrong C0].
  apply wp_bind, wp_exec_where; [went_through C1 N1 W1 | went_wrong C1].
  apply wp_bind, wp_delete_each; [typeclasses eauto | went_through C2 N2 W2 | went_wrong C2].
  apply wp_bind, wp_exec_where; [went_through C3 N3 W3 | went_wrong C3].
  apply wp_bind, wp_delete_each; [typeclasses eauto | went_through C4 N4 W4 | went_wrong C4].
  apply wp_bind, wp_exec_where; [went_through C5 N5 W5 | went_wrong C5].
  apply wp_bind, wp_delete_each; [typeclasses eauto | went_through C6 N6 W6 | went_wrong C6].
  apply wp_bind, wp_exec_where; [went_through C7 N7 W7 | went_wrong C7].
  apply wp_bind, wp_delete_each; [typeclasses eauto | went_through C8 N8 W8 | went_wrong C8].
  apply wp_bind, wp_session_delete; [went_through C9 N9 W9 | went_wrong C9].
  apply wp_bind, wp_session_commit; [|went_wrong C10].
  intros s' Hc' Hw' Hn'. apply wp_ret.
  split; [now apply Hn'|]. split; [reflexivity|]. split; [reflexivity|].
  exists user. split; [exact Hu|].
  rewrite Hc', W10. reflexivity.
Qed.

Lemma request_wp {A} (op : M A) Q E db plan r db' lg :
  wp op Q E (open_session db plan) ->
  request op db plan = (r, db', lg) ->
  exists s', db' = committed s' /\ lg = log s'
             /\ match r with Ok a => Q a s' | Raise e => E e s' end.
Proof.
  unfold wp, request. destruct (op (open_session db plan)) as [r0 s'].
  intros H [= <- <- <-]. exists s'. now destruct r0.
Qed.

Section Purge.
Variables (customer_oid : string) (user : User.t) (db : Store).

Let deleted {T} `{CustomerTable T} (l : list T) : list T :=
  fold_left (fun l obj => without_pk (pk obj) l) (where_oid customer_oid l) l.

Lemma purge_users :
  user_table (purge customer_oid user db) = without_pk (pk user) (user_table db).
Proof. now destruct db. Qed.

Lemma purge_assets :
  asset_table (purge customer_oid user db) = deleted (asset_table db).
Proof. now destruct db. Qed.

Lemma purge_transactions :
  transaction_table (purge customer_oid user db) = deleted (transaction_table db).
Proof. now destruct db. Qed.

Lemma purge_spending :
  spending_table (purge customer_oid user db) = deleted (spending_table db).
Proof. now destruct db. Qed.

Lemma purge_accounts :
  bankaccount_table (purge customer_oid user db) = deleted (bankaccount_table db).
Proof. now destruct db. Qed.

Lemma purge_derivatives :
  derivativetransaction_table (purge customer_oid user db)
  = deleted (derivativetransaction_table db).
Proof. now destruct db. Qed.

Lemma purge_institutions :
  institution_table (purge customer_oid user db) = institution_table db.
Proof. now destruct db. Qed.
End Purge.

Lemma exists_check_absent db customer_oid :
  validate_customer_oid customer_oid = Ok customer_oid ->
  no_rows_for customer_oid (user_table db) ->
  request (check_customer_exists customer_oid) db [] =
    (Ok (absent customer_oid), db, [(Select TUser, true)]).
Proof.
  intros Hv Hn. apply where_oid_nil in Hn.
  unfold request, check_customer_exists, bind, lift. rewrite Hv.
  unfold exec_where, bind. simpl. unfold rows. simpl. now rewrite Hn.
Qed.

(** C7: a successful deletion leaves no row of the customer in any of the
    five dependent tables and no identity for the identifier (identifiers
    being unique on [User], as [db.py] declares), leaves the institutions as
    they were, and the existence check that follows answers false. *)
Theorem C7_deletion_removes_customer (db : Store) (plan : list bool)
    (customer_oid : string) (resp : Deleted.t) (db' : Store)
    (lg : list (StoreOp * bool)) :
  unique_oids (user_table db) ->
  request (delete_customer customer_oid) db plan = (Ok resp, db', lg) ->
  (exists u, In u (user_table db) /\ User.customer_oid u = customer_oid)
  /\ no_rows_for customer_oid (asset_table db')
  /\ no_rows_for customer_oid (transaction_table db')
  /\ no_rows_for customer_oid (spending_table db')
  /\ no_rows_for customer_oid (bankaccount_table db')
  /\ no_rows_for customer_oid (derivativetransaction_table db')
  /\ no_rows_for customer_oid (user_table db')
  /\ institution_table db' = institution_table db
  /\ request (check_customer_exists customer_oid) db' [] =
       (Ok (absent customer_oid), db', [(Select TUser, true)]).
Proof.
  intros Hd Hr.
  destruct (request_wp _ _ _ _ _ _ _ _ (delete_customer_spec db plan customer_oid) Hr)
    as (s' & -> & _ & _ & Hv & _ & user & Hu & ->).
  assert (Hgone : no_rows_for customer_oid
                    (user_table (purge customer_oid user db))).
  { rewrite purge_users. now apply identity_gone. }
  split; [exists user; now apply first_where_oid in Hu|].
  rewrite purge_assets, purge_transactions, purge_spending, purge_accounts,
    purge_derivatives, purge_institutions.
  repeat split; try apply selected_rows_gone; try assumption.
  now apply exists_check_absent.
Qed.

Lemma C7_deletion_witness :
  no_rows_for sample_oid (asset_table after_deletion)
  /\ no_rows_for sample_oid (user_table after_deletion)
  /\ institution_table after_deletion = institution_table seeded
  /\ request (check_customer_exists sample_oid) after_deletion [] =
       (Ok (absent sample_oid), after_deletion, [(Select TUser, true)]).
Proof.
  assert (Hd : unique_oids (user_table seeded)).
  { repeat constructor. intros []. }
  destruct (C7_deletion_removes_customer seeded [] sample_oid
              (deleted_response sample_oid) after_deletion
              [(Select TUser, true); (Select TAsset, true);
               (Delete TAsset 1, true); (Select TTransaction, true);
               (Select TSpending, true); (Delete TSpending 1, true);
               (Delete TSpending 2, true); (Select TBankAccount, true);
               (Delete TBankAccount 1, true); (Delete TBankAccount 2, true);
               (Select TDerivativeTransaction, true); (Delete TUser 1, true);
               (Commit, true)] Hd eq_refl)
    as (_ & Ha & _ & _ & _ & _ & Hu & Hi & He).
  repeat split; assumption.
Defined.

(** C8: whenever a statement of a deletion fails, the deletion fails as a
    whole, with 500, and the database is the one it started from. *)
Theorem C8_failed_deletion_commits_nothing (db : Store) (plan : list bool)
    (customer_oid : string) (r : Outcome Deleted.t) (db' : Store)
    (lg : list (StoreOp * bool)) :
  request (delete_customer customer_oid) db plan = (r, db', lg) ->
  (exists op, In (op, false) lg) ->
  (exists detail, r = Raise (HTTPException 500 detail)) /\ db' = db.
Proof.
  intros Hr (op & Hop).
  destruct (request_wp _ _ _ _ _ _ _ _ (delete_customer_spec db plan customer_oid) Hr)
    as (s' & -> & -> & H).
  destruct r as [resp|e].
  - destruct H as (Hn & _). now destruct (Hn op).
  - destruct H as (Hc & [He|Hn]).
    + destruct He as (detail & ->). split; [now exists detail | exact Hc].
    + now destruct (Hn op).
Qed.

(** Every deletion that does not succeed leaves the database as it was. *)
Lemma unsuccessful_deletion_commits_nothing db plan customer_oid e db' lg :
  request (delete_customer customer_oid) db plan = (Raise e, db', lg) -> db' = db.
Proof.
  intros Hr.
  destruct (request_wp _ _ _ _ _ _ _ _ (delete_customer_spec db plan customer_oid) Hr)
    as (s' & -> & _ & H & _).
  exact H.
Qed.

Lemma C8_failed_deletion_witness :
  exists r lg,
    request (delete_customer sample_oid) seeded third_statement_fails
    = (r, seeded, lg)
    /\ In (Select TTransaction, false) lg
    /\ exists detail, r = Raise (HTTPException 500 detail).
Proof.
  destruct (request (delete_customer sample_oid) seeded third_statement_fails)
    as [[r db'] lg] eqn:Hr.
  assert (Hf : In (Select TTransaction, false) lg).
  { vm_compute in Hr. injection Hr as <- <- <-. simpl. tauto. }
  destruct (C8_failed_deletion_commits_nothing seeded third_statement_fails
              sample_oid r db' lg Hr
              (ex_intro (fun op => In (op, false) lg) (Select TTransaction) Hf))
    as [He ->].
  exists r, lg. auto.
Defined.

(** ** Registration *)

Lemma hex_char_is_hex d : is_hex (hex_char d) = true.
Proof.
  unfold hex_char. generalize (Z.to_nat d). intros n.
  do 17 (destruct n as [|n]; [reflexivity|]). reflexivity.
Qed.

(** [str(uuid.uuid4())] is in the canonical form, whatever the entropy. *)
Lemma generated_is_canonical x : is_canonical_uuid (uuid_str x) = true.
Proof.
  unfold uuid_str, is_canonical_uuid.
  cbn -[hex_char nibble is_hex].
  repeat (rewrite hex_char_is_hex; cbn -[hex_char nibble is_hex]).
  reflexivity.
Qed.

Lemma generated_is_accepted x :
  validate_customer_oid (uuid_str (uuid4 x)) = Ok (uuid_str (uuid4 x)).
Proof. apply canonical_accepted, generated_is_canonical. Qed.

Lemma ids_below_next (l : list User.t) r : In r l -> User.id r < next_id l.
Proof.
  unfold next_id. induction l as [|u l IH]; cbn [map fold_right In]; [tauto|].
  intros [->|Hr]; [lia|]. specialize (IH Hr). lia.
Qed.

Lemma refresh_finds_new (l : list User.t) u :
  User.id u = next_id l ->
  List.filter (fun r => User.id r =? User.id u) (l ++ [u]) = [u].
Proof.
  intros Hu. rewrite List.filter_app. simpl. rewrite Z.eqb_refl.
  replace (List.filter (fun r => User.id r =? User.id u) l) with (@nil User.t);
    [reflexivity|].
  symmetry. rewrite Hu. clear Hu.
  assert (H : forall r, In r l -> User.id r < next_id l) by apply ids_below_next.
  revert H. generalize (next_id l). intros k.
  induction l as [|r l IH]; simpl; intros H; [reflexivity|].
  assert (Hr : (User.id r =? k) = false) by (apply Z.eqb_neq; specialize (H r (or_introl eq_refl)); lia).
  rewrite Hr. apply IH. auto.
Qed.

Lemma settled_step user_data entropy r s :
  settles_on user_data entropy r ->
  (match UserRegistrationRequest.customer_oid user_data with
   | Some given => if String.eqb given "" then ret (uuid_str (uuid4 entropy))
                   else lift (validate_customer_oid given)
   | None => ret (uuid_str (uuid4 entropy))
   end) s = (r, s).
Proof.
  unfold settles_on.
  destruct (UserRegistrationRequest.customer_oid user_data) as [given|].
  - destruct (String.eqb given ""); intros ->; reflexivity.
  - intros ->; reflexivity.
Qed.

(** A registration whose identifier fails validation sends nothing. *)
Lemma register_rejected db plan user_data entropy e :
  settles_on user_data entropy (Raise e) ->
  request (register_customer user_data entropy) db plan = (Raise e, db, []).
Proof.
  intros Hs.
  pose proof (settled_step _ _ _ (open_session db plan) Hs) as Hfirst.
  assert (He : exists detail, e = HTTPException 400 detail).
  { unfold settles_on in Hs.
    destruct (UserRegistrationRequest.customer_oid user_data) as [given|];
      [destruct (String.eqb given "")|]; try discriminate.
    symmetry in Hs. now apply validate_rejects_with_400 in Hs. }
  destruct He as (detail & ->).
  unfold request, register_customer, try_except, bind at 1.
  now rewrite Hfirst.
Qed.

(** What registration does once the identifier is settled and the database
    answers every statement. *)
Lemma register_with_identifier db (user_data : UserRegistrationRequest.t) entropy oid :
  settles_on user_data entropy (Ok oid) ->
  let name := UserRegistrationRequest.name user_data in
  request (register_customer user_data entropy) db [] =
    match where_oid oid (user_table db) with
    | _ :: _ =>
        (Raise (HTTPException 409 (conflict_detail oid)), db, [(Select TUser, true)])
    | [] =>
        if name_too_short name
        then (Raise (HTTPException 400 name_detail), db, [(Select TUser, true)])
        else
          (Ok (registered oid (ws_strip name)),
           set_rows (user_table db ++ [new_identity db oid name]) db,
           [(Select TUser, true); (Insert TUser, true); (Commit, true);
            (Refresh TUser (next_id (user_table db)), true)])
    end.
Proof.
  intros Hs name.
  pose proof (settled_step _ _ _ (open_session db []) Hs) as Hfirst.
  unfold request, register_customer, try_except, bind at 1.
  rewrite Hfirst. unfold exec_where, bind. simpl. unfold rows. simpl.
  destruct (where_oid oid (user_table db)) as [|u rest] eqn:Hw; simpl; [|reflexivity].
  fold name. fold (name_too_short name).
  destruct (name_too_short name); simpl; [reflexivity|].
  unfold session_add_user, bind. simpl. rewrite Hw. simpl.
  unfold session_refresh, bind. simpl.
  pose proof (refresh_finds_new (user_table db) (new_identity db oid name) eq_refl)
    as Hf.
  unfold new_identity in Hf. simpl in Hf. fold name in Hf. rewrite Hf.
  reflexivity.
Qed.

(** A registration that finds the identifier taken, or the name too short,
    sends the existence query and nothing else, whatever the database does. *)
Lemma register_stops_early db plan (user_data : UserRegistrationRequest.t) entropy oid :
  settles_on user_data entropy (Ok oid) ->
  where_oid oid (user_table db) <> []
  \/ name_too_short (UserRegistrationRequest.name user_data) = true ->
  request (register_customer user_data entropy) db plan =
    match plan with
    | true :: _ =>
        (Raise (HTTPException 500 register_failure), db, [(Select TUser, false)])
    | _ => (Raise (early_answer db oid), db, [(Select TUser, true)])
    end.
Proof.
  intros Hs Hearly.
  pose proof (settled_step _ _ _ (open_session db plan) Hs) as Hfirst.
  unfold request, register_customer, try_except, bind at 1.
  rewrite Hfirst. unfold exec_where, bind, early_answer.
  assert (Hstop :
    forall s : Session, working s = db ->
    match
      (match first (where_oid oid (user_table db)) with
       | Some _ => raise (HTTPException 409 (conflict_detail oid))
       | None =>
           if name_too_short (UserRegistrationRequest.name user_data)
           then raise (HTTPException 400 name_detail)
           else
             new_user <- session_add_user oid
                           (ws_strip (UserRegistrationRequest.name user_data));;
             session_commit;;;
             new_user <- session_refresh new_user;;
             ret (registered oid (User.name new_user))
       end) s
    with
    | (r, s') =>
        r = Raise (match where_oid oid (user_table db) with
                   | _ :: _ => HTTPException 409 (conflict_detail oid)
                   | [] => HTTPException 400 name_detail
                   end) /\ s' = s
    end).
  { intros s _. destruct (where_oid oid (user_table db)) as [|u rest]; simpl.
    - destruct Hearly as [Hne|Hshort]; [congruence|]. rewrite Hshort. now split.
    - now split. }
  destruct plan as [|[|] plan']; simpl; unfold rows; simpl.
  - specialize (Hstop (sent (Select TUser) true (open_session db [])) eq_refl).
    unfold name_too_short, registered, conflict_detail, name_detail in Hstop.
    simpl in Hstop.
    destruct (_ (sent (Select TUser) true (open_session db []))) as [r s'].
    destruct Hstop as [-> ->].
    now destruct (where_oid oid (user_table db)).
  - reflexivity.
  - specialize (Hstop (sent (Select TUser) true (open_session db (false :: plan')))
                  eq_refl).
    unfold name_too_short, registered, conflict_detail, name_detail in Hstop.
    simpl in Hstop.
    destruct (_ (sent (Select TUser) true (open_session db (false :: plan'))))
      as [r s'].
    destruct Hstop as [-> ->].
    now destruct (where_oid oid (user_table db)).
Qed.

Lemma rows_found {T} `{CustomerTable T} customer_oid (l : list T) :
  (exists r, In r l /\ oid_of r = customer_oid) -> where_oid customer_oid l <> [].
Proof.
  intros (r & Hr & Ho) E. apply where_oid_nil in E. now destruct (E r Hr).
Qed.

(** C6, as the code has it: registration without an identifier generates a
    canonical UUID that the validator accepts; with a valid name it is
    registered and returned when no stored identity carries it, so that the
    identifier returned is distinct from every stored one, and it is refused
    with 409 Conflict when one does.  Registering a validated identifier
    that an identity already carries fails with 409 Conflict, and whatever
    the database does the stored records stay as they were. *)
Theorem C6_registration_fresh_or_conflict (db : Store) (name : string)
    (entropy : Z) :
  name_too_short name = false ->
  let generated := uuid_str (uuid4 entropy) in
  is_canonical_uuid generated = true
  /\ validate_customer_oid generated = Ok generated
  /\ (no_rows_for generated (user_table db) ->
      request (register_customer (omitted name) entropy) db [] =
        (Ok (registered generated (ws_strip name)),
         set_rows (user_table db ++ [new_identity db generated name]) db,
         [(Select TUser, true); (Insert TUser, true); (Commit, true);
          (Refresh TUser (next_id (user_table db)), true)]))
  /\ ((exists u, In u (user_table db) /\ User.customer_oid u = generated) ->
      request (register_customer (omitted name) entropy) db [] =
        (Raise (HTTPException 409 (conflict_detail generated)), db,
         [(Select TUser, true)]))
  /\ (forall customer_oid any_name,
        validate_customer_oid customer_oid = Ok customer_oid ->
        (exists u, In u (user_table db) /\ User.customer_oid u = customer_oid) ->
        request (register_customer (supplied any_name customer_oid) entropy) db [] =
          (Raise (HTTPException 409 (conflict_detail customer_oid)), db,
           [(Select TUser, true)])
        /\ forall plan r db' lg,
             request (register_customer (supplied any_name customer_oid) entropy)
               db plan = (r, db', lg) ->
             db' = db /\ forall resp, r <> Ok resp).
Proof.
  intros Hname generated.
  assert (Hgen : settles_on (omitted name) entropy (Ok generated)) by reflexivity.
  split; [apply generated_is_canonical|].
  split; [apply generated_is_accepted|].
  split; [|split].
  - intros Hfree. apply where_oid_nil in Hfree.
    rewrite (register_with_identifier db (omitted name) entropy generated Hgen).
    simpl. now rewrite Hfree, Hname.
  - intros Htaken.
    assert (Hne : where_oid generated (user_table db) <> [])
      by (apply rows_found; exact Htaken).
    rewrite (register_with_identifier db (omitted name) entropy generated Hgen).
    now destruct (where_oid generated (user_table db)).
  - intros customer_oid any_name Hv Hu.
    assert (Htaken : where_oid customer_oid (user_table db) <> [])
      by (apply rows_found; exact Hu).
    assert (Hs : settles_on (supplied any_name customer_oid) entropy (Ok customer_oid)).
    { unfold settles_on. simpl.
      destruct (String.eqb_spec customer_oid "") as [->|_]; [discriminate|].
      now rewrite Hv. }
    split.
    + rewrite (register_with_identifier db _ entropy customer_oid Hs).
      now destruct (where_oid customer_oid (user_table db)).
    + intros plan r db' lg.
      rewrite (register_stops_early db plan _ entropy customer_oid Hs (or_introl Htaken)).
      destruct plan as [|[|] plan']; intros [= <- <- <-]; split; congruence.
Qed.

Lemma C6_registration_witness :
  validate_customer_oid zero_uuid = Ok zero_uuid
  /\ request (register_customer (omitted "Alice Johnson") 0) seeded [] =
       (Ok (registered zero_uuid "Alice Johnson"),
        set_rows (user_table seeded ++ [new_identity seeded zero_uuid "Alice Johnson"])
          seeded,
        [(Select TUser, true); (Insert TUser, true); (Commit, true);
         (Refresh TUser 2, true)]).
Proof.
  destruct (C6_registration_fresh_or_conflict seeded "Alice Johnson" 0 eq_refl)
    as (_ & Hv & Hfresh & _).
  split; [exact Hv|]. apply Hfresh.
  intros r [<-|[]]. discriminate.
Defined.

(** C6 as stated fails where the generated identifier is taken: sixteen zero
    bytes of entropy give the identifier of the only stored identity, and
    registration with a valid name and no identifier ends in 409 Conflict
    instead of producing an identifier. *)
Lemma C6_generated_identifier_taken :
  name_too_short "Alice Johnson" = false
  /\ uuid_str (uuid4 0) = zero_uuid
  /\ request (register_customer (omitted "Alice Johnson") 0) taken [] =
       (Raise (HTTPException 409 (conflict_detail zero_uuid)), taken,
        [(Select TUser, true)])
  /\ ~ exists resp db' lg,
         request (register_customer (omitted "Alice Johnson") 0) taken [] =
           (Ok resp, db', lg).
Proof.
  split; [reflexivity|]. split; [reflexivity|]. split; [reflexivity|].
  intros (resp & db' & lg & H). vm_compute in H. discriminate.
Qed.

(** ** Validation and the store *)

(** C9, as the code has it: an identifier that fails validation makes
    aggregation, the existence check, deletion and registration (of a
    supplied, non-empty identifier) fail with 400 before any statement is
    sent.  A name that is too short is found only after the existence query:
    registration then sends that one query and no write, leaves the database
    as it was, and answers 400 when no identity carries the identifier and
    409 when one does. *)
Theorem C9_validation_and_the_store (db : Store) (plan : list bool) :
  (forall customer_oid e,
     validate_customer_oid customer_oid = Raise e ->
     (exists detail, e = HTTPException 400 detail)
     /\ request (get_user_portfolio customer_oid) db plan = (Raise e, db, [])
     /\ request (check_customer_exists customer_oid) db plan = (Raise e, db, [])
     /\ request (delete_customer customer_oid) db plan = (Raise e, db, [])
     /\ (customer_oid <> "" ->
         forall name entropy,
           request (register_customer (supplied name customer_oid) entropy) db plan
           = (Raise e, db, [])))
  /\ (forall user_data entropy customer_oid,
        name_too_short (UserRegistrationRequest.name user_data) = true ->
        settles_on user_data entropy (Ok customer_oid) ->
        request (register_customer user_data entropy) db plan =
          match plan with
          | true :: _ =>
              (Raise (HTTPException 500 register_failure), db,
               [(Select TUser, false)])
          | _ =>
              (Raise (match where_oid customer_oid (user_table db) with
                      | _ :: _ => HTTPException 409 (conflict_detail customer_oid)
                      | [] => HTTPException 400 name_detail
                      end), db, [(Select TUser, true)])
          end).
Proof.
  split.
  - intros customer_oid e Hv.
    split; [now apply validate_rejects_with_400 in Hv|].
    split; [|split; [|split]].
    + unfold request, get_user_portfolio, bind, lift. now rewrite Hv.
    + unfold request, check_customer_exists, bind, lift. now rewrite Hv.
    + unfold request, delete_customer, bind, lift. now rewrite Hv.
    + intros Hne name entropy. apply register_rejected.
      unfold settles_on. simpl.
      destruct (String.eqb_spec customer_oid "") as [->|_]; [congruence|].
      now rewrite Hv.
  - intros user_data entropy customer_oid Hshort Hs.
    now rewrite (register_stops_early db plan user_data entropy customer_oid Hs
                   (or_intror Hshort)).
Qed.

Lemma C9_validation_witness :
  request (delete_customer "invalid-oid") seeded [true] =
    (Raise (HTTPException 400 format_detail), seeded, [])
  /\ request (register_customer (omitted "A") 0) seeded [] =
       (Raise (HTTPException 400 name_detail), seeded, [(Select TUser, true)]).
Proof.
  destruct (C9_validation_and_the_store seeded [true]) as [Hbad _].
  destruct (C9_validation_and_the_store seeded []) as [_ Hshort].
  split.
  - now destruct (Hbad "invalid-oid" (HTTPException 400 format_detail) eq_refl)
      as (_ & _ & _ & Hdel & _).
  - exact (Hshort (omitted "A") 0 zero_uuid eq_refl eq_refl).
Defined.

(** C9 as stated fails for registration: a name of one character is refused
    only after the existence query was sent; with an identifier already
    stored the answer is 409 Conflict, not 400; and an empty identifier,
    which the validator rejects, counts as none and the registration goes
    through. *)
Lemma C9_short_name_reaches_store :
  name_too_short "A" = true
  /\ request (register_customer (omitted "A") 0) seeded [] =
       (Raise (HTTPException 400 name_detail), seeded, [(Select TUser, true)])
  /\ request (register_customer (supplied "A" sample_oid) 0) seeded [] =
       (Raise (HTTPException 409 (conflict_detail sample_oid)), seeded,
        [(Select TUser, true)])
  /\ validate_customer_oid "" = Raise (HTTPException 400 empty_detail)
  /\ exists db' lg,
       request (register_customer (supplied "Alice Johnson" "") 0) seeded [] =
         (Ok (registered zero_uuid "Alice Johnson"), db', lg)
       /\ lg <> [].
Proof.
  repeat (split; [reflexivity|]).
  eexists _, _. split; [vm_compute; reflexivity | discriminate].
Qed.

(** * Further properties *)

(** ** What the validator accepts *)

Lemma replace_shrinks old s : forall skip,
  (String.length (replace_from old "" skip s) <= String.length s)%nat.
Proof.
  induction s as [|c r IH]; intros skip; simpl; [lia|].
  destruct skip as [|k].
  - match goal with |- context [if ?b then _ else _] => destruct b end; simpl.
    + specialize (IH (Nat.pred (String.length old))). lia.
    + specialize (IH O). lia.
  - specialize (IH k). lia.
Qed.

Lemma lstrip_shrinks chars s :
  (String.length (str_lstrip chars s) <= String.length s)%nat.
Proof.
  induction s as [|c r IH]; simpl; [lia|].
  destruct (mem_char c chars); simpl; lia.
Qed.

Lemma rstrip_shrinks chars s :
  (String.length (str_rstrip chars s) <= String.length s)%nat.
Proof.
  induction s as [|c r IH]; simpl; [lia|].
  destruct (str_rstrip chars r); [destruct (mem_char c chars)|]; simpl in *; lia.
Qed.

(** What [uuid.UUID] parses holds at least its 32 digits. *)
Lemma parsed_is_long s i : UUID s = Some i -> (32 <= String.length s)%nat.
Proof.
  unfold UUID, str_replace, str_strip, len.
  set (a := replace_from "urn:" "" 0 s).
  set (b := replace_from "uuid:" "" 0 a).
  set (c := str_lstrip "{}" b).
  set (d := str_rstrip "{}" c).
  set (h := replace_from "-" "" 0 d).
  destruct (Z.eqb_spec (Z.of_nat (String.length h)) 32) as [E|]; [|discriminate].
  intros _.
  pose proof (replace_shrinks "urn:" s O). pose proof (replace_shrinks "uuid:" a O).
  pose proof (lstrip_shrinks "{}" b). pose proof (rstrip_shrinks "{}" c).
  pose proof (replace_shrinks "-" d O).
  fold a in H. fold b in H0. fold c in H1. fold d in H2. fold h in H3. lia.
Qed.

Lemma legacy_is_medium s :
  is_legacy_code s = true -> (8 <= String.length s <= 36)%nat.
Proof.
  unfold is_legacy_code, len. rewrite !andb_true_iff, !Z.leb_le. lia.
Qed.

Lemma accepted_is_long s t :
  validate_customer_oid s = Ok t -> (8 <= String.length s)%nat.
Proof.
  unfold validate_customer_oid.
  destruct (String.eqb s ""); [discriminate|].
  destruct (UUID s) as [i|] eqn:Hu.
  - intros _. apply parsed_is_long in Hu. lia.
  - destruct (re_match_legacy s) eqn:Hm; [|discriminate]. intros _.
    apply re_match_legacy_spec in Hm as [Hl | (u & -> & Hl)];
      apply legacy_is_medium in Hl; [lia|].
    rewrite length_app. lia.
Qed.

(** X1: an identifier of fewer than 8 characters is rejected with 400,
    whatever its characters. *)
Theorem X1_short_identifier_rejected (s : string) :
  (String.length s < 8)%nat ->
  exists detail, validate_customer_oid s = Raise (HTTPException 400 detail).
Proof.
  intros Hs. destruct (validate_customer_oid s) as [t|e] eqn:Hv.
  - apply accepted_is_long in Hv. lia.
  - apply validate_rejects_with_400 in Hv as (detail & ->). eauto.
Qed.

Lemma X1_short_identifier_witness :
  exists detail,
    validate_customer_oid "CUST001" = Raise (HTTPException 400 detail).
Proof. apply (X1_short_identifier_rejected "CUST001"). simpl. lia. Defined.

(** X2: a string that [uuid.UUID] does not parse is accepted exactly when
    it is a legacy code, or a legacy code followed by one line feed. *)
Theorem X2_fallback_accepts (s : string) :
  UUID s = None ->
  (validate_customer_oid s = Ok s
   <-> is_legacy_code s = true
       \/ exists t, s = t ++ String newline "" /\ is_legacy_code t = true).
Proof.
  intros Hu. rewrite <- re_match_legacy_spec.
  unfold validate_customer_oid. rewrite Hu.
  destruct (String.eqb_spec s "") as [->|_]; [split; discriminate|].
  destruct (re_match_legacy s); simpl; split; congruence.
Qed.

Lemma X2_fallback_witness :
  validate_customer_oid line_feed_code = Ok line_feed_code
  /\ validate_customer_oid "CUST-0001" = Ok "CUST-0001".
Proof.
  split.
  - apply (X2_fallback_accepts line_feed_code); [reflexivity|].
    right. exists "ABCDEFGH". split; reflexivity.
  - apply (X2_fallback_accepts "CUST-0001"); [reflexivity|]. now left.
Defined.

Lemma hexdash_digits s :
  all_chars hexdash s = true ->
  all_chars is_hex (str_replace "-" "" s) = true
  /\ String.length (str_replace "-" "" s) = count_chars is_hex s.
Proof.
  induction s as [|c r IH]; [now split|].
  simpl all_chars. rewrite andb_true_iff. intros [Hc Hr].
  destruct (IH Hr) as [Hh Hn]. unfold hexdash in Hc.
  destruct (is_hex c) eqn:Hx.
  - change (String c r) with (String c "" ++ r).
    rewrite replace_char_app, hex_only_no_dash by (simpl; now rewrite Hx).
    simpl. now rewrite Hx, Hh, Hn.
  - simpl in Hc. apply Ascii.eqb_eq in Hc as ->.
    rewrite replace_dash_head. simpl. now split.
Qed.

(** The last three steps of [uuid.UUID] on a string of hexadecimal digits
    and hyphens that holds 32 digits. *)
Lemma digits_and_hyphens_parse s :
  all_chars hexdash s = true -> count_chars is_hex s = 32%nat ->
  exists i,
    (let hex := str_replace "-" "" (str_strip "{}" s) in
     if negb (len hex =? 32) then None
     else match int16 hex with
          | None => None
          | Some i => if (0 <=? i) && (i <? 2 ^ 128) then Some i else None
          end) = Some i.
Proof.
  intros Hd Hc. destruct (hexdash_digits s Hd) as [Hh Hn].
  rewrite strip_absent.
  2:{ revert Hd. apply all_chars_impl. intros c Hx.
      now rewrite (hexdash_not_brace c Hx). }
  cbv zeta. set (h := str_replace "-" "" s) in *.
  unfold len. rewrite Hn, Hc. simpl negb.
  destruct (int16_hex h Hh) as (v & -> & Hv).
  { intros E. rewrite E in Hn. simpl in Hn. lia. }
  unfold len in Hv. rewrite Hn, Hc in Hv. simpl in Hv.
  exists v.
  assert (Hb : (0 <=? v) && (v <? 2 ^ 128) = true).
  { apply andb_true_iff. split; [apply Z.leb_le | apply Z.ltb_lt]; lia. }
  now rewrite Hb.
Qed.

Lemma hexdash_avoids a s :
  hexdash a = false -> all_chars hexdash s = true -> all_chars (is_not a) s = true.
Proof.
  intros Ha. apply all_chars_impl. intros c. now apply hexdash_is_not.
Qed.

Lemma digits_and_hyphens_parsed s :
  all_chars hexdash s = true -> count_chars is_hex s = 32%nat ->
  exists i, UUID s = Some i.
Proof.
  intros Hd Hc. unfold UUID.
  rewrite (replace_absent "u" "rn:" "" s), (replace_absent "u" "uid:" "" s)
    by now apply hexdash_avoids.
  now apply digits_and_hyphens_parse.
Qed.

Lemma parsed_is_accepted s i : UUID s = Some i -> validate_customer_oid s = Ok s.
Proof.
  intros Hu. unfold validate_customer_oid. rewrite Hu.
  destruct (String.eqb_spec s "") as [->|_]; [discriminate | reflexivity].
Qed.

(** X3: a string of hexadecimal digits and hyphens that holds exactly 32
    digits is accepted and returned unchanged, wherever its hyphens stand
    and however many there are. *)
Theorem X3_hyphens_anywhere (s : string) :
  all_chars hexdash s = true -> count_chars is_hex s = 32%nat ->
  validate_customer_oid s = Ok s.
Proof.
  intros Hd Hc. destruct (digits_and_hyphens_parsed s Hd Hc) as (i & Hu).
  now apply parsed_is_accepted in Hu.
Qed.

Lemma X3_hyphens_anywhere_witness :
  validate_customer_oid "-550e-8400e29b41d4a7164466554400--00-"
  = Ok "-550e-8400e29b41d4a7164466554400--00-".
Proof.
  apply (X3_hyphens_anywhere "-550e-8400e29b41d4a7164466554400--00-");
    reflexivity.
Defined.

Lemma hyphens_are_hexdash n : all_chars hexdash (hyphens n) = true.
Proof. induction n; simpl; auto. Qed.

Lemma hyphens_hold_no_digit n : count_chars is_hex (hyphens n) = O.
Proof. induction n; simpl; auto. Qed.

Lemma hyphens_length n : String.length (hyphens n) = n.
Proof. induction n; simpl; auto. Qed.

Lemma count_chars_app p a b :
  count_chars p (a ++ b) = (count_chars p a + count_chars p b)%nat.
Proof. induction a as [|c r IH]; simpl; [reflexivity | rewrite IH; lia]. Qed.

(** X4: accepted identifiers have no greatest length: for every length from
    32 on there is an identifier of that length that the validator accepts,
    far beyond the 36 characters of the legacy codes. *)
Theorem X4_no_length_bound (n : nat) :
  exists s, String.length s = (n + 32)%nat /\ validate_customer_oid s = Ok s.
Proof.
  exists (hyphens n ++ bare_hex). split.
  - now rewrite length_app, hyphens_length.
  - destruct (digits_and_hyphens_parsed (hyphens n ++ bare_hex)) as (i & Hi).
    + now rewrite all_chars_app, hyphens_are_hexdash.
    + now rewrite count_chars_app, hyphens_hold_no_digit.
    + now apply parsed_is_accepted in Hi.
Qed.

Lemma prefix_empty s : String.prefix "" s = true.
Proof. now destruct s. Qed.

Lemma rstrip_all chars t :
  all_chars (fun c => mem_char c chars) t = true -> str_rstrip chars t = "".
Proof.
  induction t as [|c r IH]; simpl; [reflexivity|].
  rewrite andb_true_iff. intros [Hc Hr]. now rewrite (IH Hr), Hc.
Qed.

Lemma rstrip_app chars s t :
  all_chars (fun c => mem_char c chars) t = true ->
  str_rstrip chars (s ++ t) = str_rstrip chars s.
Proof.
  intros Ht. induction s as [|c r IH]; simpl; [now apply rstrip_all|].
  now rewrite IH.
Qed.

(** X5: the canonical form, and every other arrangement of 32 hexadecimal
    digits and hyphens, is also accepted inside braces and behind the prefix
    urn:uuid:, and is returned with the braces or the prefix still on. *)
Theorem X5_braces_and_urn (s : string) :
  all_chars hexdash s = true -> count_chars is_hex s = 32%nat ->
  validate_customer_oid ("{" ++ s ++ "}") = Ok ("{" ++ s ++ "}")
  /\ validate_customer_oid ("urn:uuid:" ++ s) = Ok ("urn:uuid:" ++ s).
Proof.
  intros Hd Hc.
  destruct (digits_and_hyphens_parse s Hd Hc) as (i & Hi).
  assert (Hbrace : all_chars (fun c => negb (mem_char c "{}")) s = true).
  { revert Hd. apply all_chars_impl. intros c Hx.
    now rewrite (hexdash_not_brace c Hx). }
  rewrite (strip_absent "{}" s Hbrace) in Hi.
  destruct s as [|c r]; [discriminate|].
  split; apply parsed_is_accepted with (i := i); unfold UUID.
  - assert (Hu : forall a, hexdash a = false -> a <> "{"%char -> a <> "}"%char ->
                 all_chars (is_not a) ("{" ++ String c r ++ "}") = true).
    { intros a Ha H1 H2.
      assert (P1 : is_not a "{" = true).
      { unfold is_not. destruct (Ascii.eqb_spec "{" a); [congruence | reflexivity]. }
      assert (P2 : all_chars (is_not a) (String c r) = true)
        by now apply hexdash_avoids.
      assert (P3 : all_chars (is_not a) "}" = true).
      { simpl. unfold is_not.
        destruct (Ascii.eqb_spec "}" a); [congruence | reflexivity]. }
      change (is_not a "{" && all_chars (is_not a) (String c r ++ "}") = true).
      now rewrite all_chars_app, P1, P2, P3. }
    rewrite (replace_absent "u" "rn:" ""), (replace_absent "u" "uid:" "")
      by (apply Hu; [reflexivity | discriminate | discriminate]).
    assert (Hs : str_strip "{}" ("{" ++ String c r ++ "}") = String c r).
    { unfold str_strip. change ("{" ++ String c r ++ "}")
        with (String "{" (String c (r ++ "}"))).
      simpl in Hbrace. apply andb_true_iff in Hbrace as [Hbc Hbr].
      apply negb_true_iff in Hbc.
      cbn [str_lstrip mem_char Ascii.eqb Bool.eqb orb]. rewrite Hbc.
      change (String c (r ++ "}")) with (String c r ++ "}").
      rewrite rstrip_app by reflexivity.
      apply rstrip_absent. simpl. now rewrite Hbc, Hbr. }
    rewrite Hs. exact Hi.
  - assert (Hself : str_replace "urn:" "" (String c r) = String c r
                    /\ str_replace "uuid:" "" (String c r) = String c r).
    { split; apply replace_absent; now apply hexdash_avoids. }
    destruct Hself as [H1 H2].
    assert (E1 : str_replace "urn:" "" ("urn:uuid:" ++ String c r)
                 = "uuid:" ++ String c r).
    { unfold str_replace in *. simpl. simpl in H1. now rewrite H1. }
    rewrite E1.
    assert (E2 : str_replace "uuid:" "" ("uuid:" ++ String c r) = String c r).
    { unfold str_replace in *. simpl. simpl in H2. now rewrite H2. }
    rewrite E2, (strip_absent "{}" _ Hbrace). exact Hi.
Qed.

Lemma X5_braces_and_urn_witness :
  validate_customer_oid "{550e8400-e29b-41d4-a716-446655440000}"
  = Ok "{550e8400-e29b-41d4-a716-446655440000}"
  /\ validate_customer_oid urn_form = Ok urn_form.
Proof.
  apply (X5_braces_and_urn "550e8400-e29b-41d4-a716-446655440000"); reflexivity.
Defined.

(** ** The copy in [test_validation.py] *)


(** ** Reading operations *)

Lemma wp_exec_where_sent {T} `{CustomerTable T} customer_oid
    (Q : list T -> Session -> Prop) (E : Exn -> Session -> Prop) s :
  Q (where_oid customer_oid (rows (working s))) (sent (Select table_name) true s) ->
  E (StoreError database_error) (sent (Select table_name) false s) ->
  wp (exec_where T customer_oid) Q E s.
Proof.
  intros HQ HE. unfold exec_where.
  apply wp_bind, wp_store_op; [|exact HE].
  apply wp_bind. exact HQ.
Qed.

Ltac queries :=
  split; [reflexivity | split; [simpl; lia | repeat constructor]].

(** What aggregation does, whatever the database answers. *)
Lemma get_user_portfolio_spec db plan customer_oid :
  wp (get_user_portfolio customer_oid)
     (fun p s' =>
        (committed s' = db /\ queries_only 7 (log s'))
        /\ validate_customer_oid customer_oid = Ok customer_oid
        /\ exists user,
             first (where_oid customer_oid (user_table db)) = Some user
             /\ p = portfolio_view db customer_oid user)
     (fun e s' =>
        (committed s' = db /\ queries_only 7 (log s'))
        /\ ((exists detail, e = HTTPException 400 detail)
            \/ e = HTTPException 404
                     ("User with CustomerOID '" ++ customer_oid ++ "' not found")
            \/ e = StoreError database_error))
     (open_session db plan).
Proof.
  unfold get_user_portfolio. apply wp_bind, wp_lift.
  destruct (validate_customer_oid customer_oid) as [oid|e] eqn:Hv.
  2:{ split; [queries|]. left. now apply validate_rejects_with_400 in Hv. }
  apply validate_returns_input in Hv as Hoid. subst oid.
  apply wp_bind, wp_exec_where_sent; [|split; [queries | auto]].
  simpl working. unfold rows at 1. simpl.
  destruct (first (where_oid customer_oid (user_table db))) as [user|] eqn:Hu.
  2:{ apply wp_raise. split; [queries | auto]. }
  apply wp_bind, wp_exec_where_sent; [|split; [queries | auto]].
  apply wp_bind, wp_exec_where_sent; [|split; [queries | auto]].
  apply wp_bind, wp_exec_where_sent; [|split; [queries | auto]].
  apply wp_bind, wp_exec_where_sent; [|split; [queries | auto]].
  apply wp_bind, wp_exec_where_sent; [|split; [queries | auto]].
  simpl working. unfold rows. simpl.
  apply wp_bind.
  unfold portfolio_view, institutions_for.
  destruct (bool_decide
              (list_to_set (map BankAccount.institution_id
                              (where_oid customer_oid (bankaccount_table db)))
               = (∅ : gset Z))).
  - apply wp_ret, wp_ret. split; [queries|]. split; [reflexivity|].
    exists user. split; reflexivity.
  - unfold exec_institutions_in.
    apply wp_bind, wp_bind, wp_store_op; [|split; [queries | auto]].
    apply wp_bind. unfold wp, get_working, ret. simpl.
    split; [queries|]. split; [reflexivity|].
    exists user. split; reflexivity.
Qed.

Lemma check_customer_exists_spec db plan customer_oid :
  wp (check_customer_exists customer_oid)
     (fun a s' =>
        (committed s' = db /\ queries_only 1 (log s'))
        /\ validate_customer_oid customer_oid = Ok customer_oid
        /\ a = {| Exists.customer_oid := customer_oid;
                  Exists.exists_ :=
                    bool_decide
                      (is_Some (first (where_oid customer_oid (user_table db))));
                  Exists.name :=
                    User.name <$> first (where_oid customer_oid (user_table db)) |})
     (fun e s' =>
        (committed s' = db /\ queries_only 1 (log s'))
        /\ ((exists detail, e = HTTPException 400 detail)
            \/ e = StoreError database_error))
     (open_session db plan).
Proof.
  unfold check_customer_exists. apply wp_bind, wp_lift.
  destruct (validate_customer_oid customer_oid) as [oid|e] eqn:Hv.
  2:{ split; [queries|]. left. now apply validate_rejects_with_400 in Hv. }
  apply validate_returns_input in Hv as Hoid. subst oid.
  apply wp_bind, wp_exec_where_sent; [|split; [queries | auto]].
  apply wp_ret. split; [queries|]. split; reflexivity.
Qed.

Lemma list_customers_spec db plan :
  wp list_customers
     (fun l s' =>
        (committed s' = db /\ queries_only 1 (log s'))
        /\ l = map (fun user =>
                      {| CustomerEntry.customer_oid := User.customer_oid user;
                         CustomerEntry.name := User.name user |})
                   (user_table db))
     (fun e s' =>
        (committed s' = db /\ queries_only 1 (log s'))
        /\ e = StoreError database_error)
     (open_session db plan).
Proof.
  unfold list_customers, exec_all_users.
  apply wp_bind, wp_bind, wp_store_op; [|split; [queries | auto]].
  apply wp_bind. unfold wp, get_working, ret. simpl.
  split; [queries | reflexivity].
Qed.

Lemma request_inv {A} (op : M A) (Q : A -> Session -> Prop)
    (E : Exn -> Session -> Prop) (I : Session -> Prop) db plan r db' lg :
  wp op (fun a s' => I s' /\ Q a s') (fun e s' => I s' /\ E e s')
     (open_session db plan) ->
  request op db plan = (r, db', lg) ->
  exists s', db' = committed s' /\ lg = log s' /\ I s'.
Proof.
  intros Hwp Hr.
  destruct (request_wp _ _ _ _ _ _ _ _ Hwp Hr) as (s' & -> & -> & H).
  exists s'. destruct r; tauto.
Qed.

(** X7: aggregation, the existence check and the customer list only read:
    whatever the identifier and whatever the database answers, the database
    is left as it was and nothing but queries is sent, at most seven for an
    aggregation (one per table, however many accounts there are) and one for
    the other two. *)
Theorem X7_reads_change_nothing (db : Store) (plan : list bool)
    (customer_oid : string) :
  (forall r db' lg,
     request (get_user_portfolio customer_oid) db plan = (r, db', lg) ->
     db' = db /\ queries_only 7 lg)
  /\ (forall r db' lg,
        request (check_customer_exists customer_oid) db plan = (r, db', lg) ->
        db' = db /\ queries_only 1 lg)
  /\ (forall r db' lg,
        request list_customers db plan = (r, db', lg) ->
        db' = db /\ queries_only 1 lg).
Proof.
  split; [|split]; intros r db' lg Hr.
  - destruct (request_inv _ _ _ _ _ _ _ _ _
                (get_user_portfolio_spec db plan customer_oid) Hr)
      as (s' & -> & -> & H). exact H.
  - destruct (request_inv _ _ _ _ _ _ _ _ _
                (check_customer_exists_spec db plan customer_oid) Hr)
      as (s' & -> & -> & H). exact H.
  - destruct (request_inv _ _ _ _ _ _ _ _ _ (list_customers_spec db plan) Hr)
      as (s' & -> & -> & H). exact H.
Qed.

Lemma X7_reads_witness :
  queries_only 7
    (all_selects ++ [(Select TInstitution, true)])%list
  /\ queries_only 1 [(Select TUser, false)].
Proof.
  destruct (X7_reads_change_nothing seeded [] sample_oid) as (Hp & _ & _).
  destruct (X7_reads_change_nothing seeded [true] sample_oid) as (_ & He & _).
  split.
  - refine (proj2 (Hp _ _ _ _)). vm_compute. reflexivity.
  - refine (proj2 (He _ _ _ _)). vm_compute. reflexivity.
Defined.

Lemma aggregated db plan customer_oid p db' lg :
  request (get_user_portfolio customer_oid) db plan = (Ok p, db', lg) ->
  validate_customer_oid customer_oid = Ok customer_oid
  /\ exists user,
       first (where_oid customer_oid (user_table db)) = Some user
       /\ p = portfolio_view db customer_oid user.
Proof.
  intros Hr.
  destruct (request_wp _ _ _ _ _ _ _ _
              (get_user_portfolio_spec db plan customer_oid) Hr)
    as (s' & _ & _ & _ & H). exact H.
Qed.

(** X8: a successful aggregation returns the customer's rows and nobody
    else's: each collection is the table's rows that carry the identifier,
    in table order, the accounts likewise under their institution, and the
    user block is the first identity of that identifier. *)
Theorem X8_portfolio_rows (db : Store) (plan : list bool) (customer_oid : string)
    (p : Portfolio.t) (db' : Store) (lg : list (StoreOp * bool)) :
  request (get_user_portfolio customer_oid) db plan = (Ok p, db', lg) ->
  Portfolio.customer_oid p = customer_oid
  /\ (exists user,
        first (where_oid customer_oid (user_table db)) = Some user
        /\ Portfolio.user p = (User.name user, customer_oid))
  /\ Portfolio.assets p = where_oid customer_oid (asset_table db)
  /\ Portfolio.transactions p = where_oid customer_oid (transaction_table db)
  /\ Portfolio.spending p = where_oid customer_oid (spending_table db)
  /\ map AccountView.account (Portfolio.bank_accounts p)
     = where_oid customer_oid (bankaccount_table db)
  /\ Portfolio.derivative_transactions p
     = where_oid customer_oid (derivativetransaction_table db).
Proof.
  intros Hr. apply aggregated in Hr as (_ & user & Hu & ->).
  split; [reflexivity|]. split.
  - exists user. split; [exact Hu|]. simpl.
    apply first_where_oid in Hu as [_ Ho]. simpl in Ho. now rewrite Ho.
  - repeat split. simpl. rewrite map_map. simpl. apply map_id.
Qed.

Lemma X8_portfolio_rows_witness :
  exists p,
    Portfolio.assets p = where_oid sample_oid (asset_table seeded)
    /\ map AccountView.account (Portfolio.bank_accounts p)
       = [account_1; account_2].
Proof.
  destruct (request (get_user_portfolio sample_oid) seeded []) as [[[p|e] db'] lg]
    eqn:Hr; [|vm_compute in Hr; discriminate].
  exists p.
  destruct (X8_portfolio_rows seeded [] sample_oid p db' lg Hr)
    as (_ & _ & Ha & _ & _ & Hb & _).
  split; [exact Ha | exact Hb].
Defined.

(** ** Institutions of the accounts *)

Definition by_id (l : list Institution.t) (m : gmap Z Institution.t)
    : gmap Z Institution.t :=
  fold_left (fun m inst => <[Institution.id inst := inst]> m) l m.

Lemma by_id_keeps l : forall m k, is_Some (m !! k) -> is_Some (by_id l m !! k).
Proof.
  induction l as [|x l IH]; intros m k Hk; simpl; [exact Hk|].
  apply IH. destruct (decide (Institution.id x = k)) as [<-|Hne].
  - rewrite lookup_insert_eq. eauto.
  - now rewrite lookup_insert_ne.
Qed.

Lemma by_id_finds l : forall m k i,
  In i l -> Institution.id i = k -> is_Some (by_id l m !! k).
Proof.
  induction l as [|x l IH]; intros m k i Hi Hk; simpl; [destruct Hi|].
  destruct Hi as [->|Hi]; [|now apply (IH _ k i)].
  apply by_id_keeps. subst k. rewrite lookup_insert_eq. eauto.
Qed.

Lemma by_id_found l : forall m k i,
  by_id l m !! k = Some i ->
  (In i l /\ Institution.id i = k) \/ m !! k = Some i.
Proof.
  induction l as [|x l IH]; intros m k i H; simpl in H; [now right|].
  apply IH in H as [[Hi Hk]|H]; [left; split; [now right | exact Hk]|].
  destruct (decide (Institution.id x = k)) as [<-|Hne].
  - rewrite lookup_insert_eq in H. injection H as <-. left. split; [now left | reflexivity].
  - rewrite lookup_insert_ne in H by exact Hne. now right.
Qed.

Lemma institution_resolved db (accounts : list BankAccount.t) a :
  In a accounts ->
  match institutions_for db accounts !! BankAccount.institution_id a with
  | Some i =>
      In i (institution_table db)
      /\ Institution.id i = BankAccount.institution_id a
  | None =>
      forall i, In i (institution_table db) ->
                Institution.id i <> BankAccount.institution_id a
  end.
Proof.
  intros Ha. unfold institutions_for.
  set (ids := list_to_set (map BankAccount.institution_id accounts) : gset Z).
  assert (Hk : BankAccount.institution_id a ∈ ids).
  { apply elem_of_list_to_set, list_elem_of_In, in_map, Ha. }
  case_bool_decide as Hempty; [rewrite Hempty in Hk; set_solver|].
  fold (by_id (List.filter (fun i => bool_decide (Institution.id i ∈ ids))
                 (institution_table db)) ∅).
  destruct (by_id _ ∅ !! BankAccount.institution_id a) as [i|] eqn:E.
  - apply by_id_found in E as [[Hi Hid]|E]; [|now rewrite lookup_empty in E].
    apply filter_In in Hi as [Hi _]. now split.
  - intros i Hi Hid.
    assert (Hin : In i (List.filter (fun i => bool_decide (Institution.id i ∈ ids))
                          (institution_table db))).
    { apply filter_In. split; [exact Hi|]. apply bool_decide_eq_true.
      now rewrite Hid. }
    destruct (by_id_finds _ ∅ _ i Hin Hid) as [j Hj]. congruence.
Qed.

(** X9: in a successful aggregation every account carries an institution
    exactly when some institution row has the id the account refers to; the
    institution carried is a row of the table with that id, and an account
    that refers to no row carries none, without any error. *)
Theorem X9_institutions_resolved (db : Store) (plan : list bool)
    (customer_oid : string) (p : Portfolio.t) (db' : Store)
    (lg : list (StoreOp * bool)) (view : AccountView.t) :
  request (get_user_portfolio customer_oid) db plan = (Ok p, db', lg) ->
  In view (Portfolio.bank_accounts p) ->
  match AccountView.institution view with
  | Some i =>
      In i (institution_table db)
      /\ Institution.id i = BankAccount.institution_id (AccountView.account view)
  | None =>
      forall i, In i (institution_table db) ->
                Institution.id i
                <> BankAccount.institution_id (AccountView.account view)
  end.
Proof.
  intros Hr Hv. apply aggregated in Hr as (_ & user & _ & ->).
  simpl in Hv. apply in_map_iff in Hv as (a & <- & Ha). simpl.
  now apply institution_resolved.
Qed.

Lemma X9_institutions_witness :
  In global_bank (institution_table seeded)
  /\ Institution.id global_bank = BankAccount.institution_id account_1.
Proof.
  destruct (request (get_user_portfolio sample_oid) seeded []) as [[[p|e] db'] lg]
    eqn:Hr; [|vm_compute in Hr; discriminate].
  refine (X9_institutions_resolved seeded [] sample_oid p db' lg
            {| AccountView.account := account_1;
               AccountView.institution := Some global_bank |}
            Hr _).
  vm_compute in Hr. injection Hr as <- _ _. simpl. tauto.
Defined.

(** ** The summary block *)






(** ** The existence check *)



(** ** Registration, whatever the database answers *)

Lemma settled_settles user_data entropy :
  settles_on user_data entropy (settled user_data entropy).
Proof.
  unfold settles_on, settled.
  destruct (UserRegistrationRequest.customer_oid user_data) as [given|];
    [destruct (String.eqb given "")|]; reflexivity.
Qed.

Lemma settled_is_accepted user_data entropy oid :
  settled user_data entropy = Ok oid -> validate_customer_oid oid = Ok oid.
Proof.
  unfold settled.
  destruct (UserRegistrationRequest.customer_oid user_data) as [given|];
    [destruct (String.eqb given "")|].
  - intros [= <-]. apply generated_is_accepted.
  - intros H. pose proof (validate_returns_input _ _ H) as ->. exact H.
  - intros [= <-]. apply generated_is_accepted.
Qed.

Lemma register_customer_spec db plan (user_data : UserRegistrationRequest.t) entropy :
  let name := UserRegistrationRequest.name user_data in
  wp (register_customer user_data entropy)
     (fun resp s' =>
        exists oid,
          settled user_data entropy = Ok oid
          /\ where_oid oid (user_table db) = []
          /\ name_too_short name = false
          /\ resp = registered oid (ws_strip name)
          /\ committed s' = with_identity db oid name)
     (fun e s' =>
        committed s' = db
        \/ exists oid,
             settled user_data entropy = Ok oid
             /\ where_oid oid (user_table db) = []
             /\ name_too_short name = false
             /\ e = HTTPException 500 register_failure
             /\ committed s' = with_identity db oid name)
     (open_session db plan).
Proof.
  intros name. unfold register_customer.
  apply wp_try_except, wp_bind.
  unfold wp at 1.
  rewrite (settled_step _ _ _ (open_session db plan) (settled_settles user_data entropy)).
  destruct (settled user_data entropy) as [oid|e] eqn:Hs.
  2:{ destruct e; now left. }
  apply wp_bind, wp_exec_where_sent; [|now left].
  simpl working. unfold rows at 1. simpl.
  destruct (where_oid oid (user_table db)) as [|u rest] eqn:Hw; simpl.
  2:{ now left. }
  fold name. fold (name_too_short name).
  destruct (name_too_short name) eqn:Hn.
  { now left. }
  apply wp_bind. unfold session_add_user.
  apply wp_bind, wp_store_op; [|now left].
  apply wp_bind. unfold wp at 1, get_working. simpl. rewrite Hw.
  apply wp_bind. unfold wp at 1, set_working.
  unfold wp at 1, ret.
  apply wp_bind. unfold session_commit.
  apply wp_bind, wp_store_op; [|now left].
  unfold wp at 1.
  apply wp_bind. unfold session_refresh.
  apply wp_bind, wp_store_op.
  2:{ right. exists oid. repeat split; try assumption; reflexivity. }
  apply wp_bind. unfold wp at 1, get_working. simpl.
  pose proof (refresh_finds_new (user_table db) (new_identity db oid name) eq_refl)
    as Hf.
  unfold new_identity in Hf. simpl in Hf. rewrite Hf.
  unfold wp, ret. exists oid. repeat split; try assumption; reflexivity.
Qed.

Lemma ws_rstrip_starts c r :
  Py_UNICODE_ISSPACE c = false -> exists r', ws_rstrip (String c r) = String c r'.
Proof.
  intros Hc. simpl. destruct (ws_rstrip r); [rewrite Hc|]; eauto.
Qed.

Lemma ws_rstrip_again s : ws_rstrip (ws_rstrip s) = ws_rstrip s.
Proof.
  induction s as [|c r IH]; simpl; [reflexivity|].
  destruct (ws_rstrip r) as [|d t] eqn:E.
  - destruct (Py_UNICODE_ISSPACE c) eqn:Hc; simpl; [reflexivity | now rewrite Hc].
  - simpl. simpl in IH. now rewrite IH.
Qed.

Lemma ws_lstrip_starts s :
  ws_lstrip s = ""
  \/ exists c r, ws_lstrip s = String c r /\ Py_UNICODE_ISSPACE c = false.
Proof.
  induction s as [|c r IH]; simpl; [now left|].
  destruct (Py_UNICODE_ISSPACE c) eqn:Hc; [exact IH | right; eauto].
Qed.

(** A stripped name carries no whitespace at either end. *)
Lemma ws_strip_again s : ws_strip (ws_strip s) = ws_strip s.
Proof.
  unfold ws_strip. destruct (ws_lstrip_starts s) as [->|(c & r & -> & Hc)];
    [reflexivity|].
  destruct (ws_rstrip_starts c r Hc) as (r' & E). rewrite E.
  assert (Hl : ws_lstrip (String c r') = String c r') by (simpl; now rewrite Hc).
  rewrite Hl, <- E. apply ws_rstrip_again.
Qed.

Lemma long_enough name : name_too_short name = false -> 2 <= len (ws_strip name).
Proof.
  unfold name_too_short. rewrite orb_false_iff, Z.ltb_ge. tauto.
Qed.

(** X12: whatever it answers and whatever the database does, a registration
    leaves the six other tables alone and every stored identity in place:
    the identities are afterwards those of before, or those of before
    followed by one new identity.  The new identity has an identifier the
    validator accepts and no stored identity carried, a primary key above
    all others, and the trimmed name, of at least 2 characters with no
    whitespace at either end; an answer other than an error means the
    identity is stored. *)
Theorem X12_registration_adds_one_identity (db : Store) (plan : list bool)
    (user_data : UserRegistrationRequest.t) (entropy : Z)
    (r : Outcome UserRegistrationResponse.t) (db' : Store)
    (lg : list (StoreOp * bool)) :
  request (register_customer user_data entropy) db plan = (r, db', lg) ->
  asset_table db' = asset_table db
  /\ transaction_table db' = transaction_table db
  /\ spending_table db' = spending_table db
  /\ institution_table db' = institution_table db
  /\ bankaccount_table db' = bankaccount_table db
  /\ derivativetransaction_table db' = derivativetransaction_table db
  /\ ((user_table db' = user_table db /\ forall resp, r <> Ok resp)
      \/ exists u,
           user_table db' = (user_table db ++ [u])%list
           /\ validate_customer_oid (User.customer_oid u) = Ok (User.customer_oid u)
           /\ no_rows_for (User.customer_oid u) (user_table db)
           /\ (forall v, In v (user_table db) -> User.id v < User.id u)
           /\ User.name u = ws_strip (UserRegistrationRequest.name user_data)
           /\ 2 <= len (User.name u)
           /\ ws_strip (User.name u) = User.name u
           /\ forall resp, r = Ok resp ->
                resp = registered (User.customer_oid u) (User.name u)).
Proof.
  intros Hr.
  destruct (request_wp _ _ _ _ _ _ _ _
              (register_customer_spec db plan user_data entropy) Hr)
    as (s' & -> & _ & H).
  assert (Hnew : forall oid,
            settled user_data entropy = Ok oid ->
            where_oid oid (user_table db) = [] ->
            name_too_short (UserRegistrationRequest.name user_data) = false ->
            committed s' = with_identity db oid (UserRegistrationRequest.name user_data) ->
            (forall resp, r = Ok resp ->
               resp = registered oid (ws_strip (UserRegistrationRequest.name user_data))) ->
            asset_table (committed s') = asset_table db
            /\ transaction_table (committed s') = transaction_table db
            /\ spending_table (committed s') = spending_table db
            /\ institution_table (committed s') = institution_table db
            /\ bankaccount_table (committed s') = bankaccount_table db
            /\ derivativetransaction_table (committed s')
               = derivativetransaction_table db
            /\ exists u,
                 user_table (committed s') = (user_table db ++ [u])%list
                 /\ validate_customer_oid (User.customer_oid u)
                    = Ok (User.customer_oid u)
                 /\ no_rows_for (User.customer_oid u) (user_table db)
                 /\ (forall v, In v (user_table db) -> User.id v < User.id u)
                 /\ User.name u = ws_strip (UserRegistrationRequest.name user_data)
                 /\ 2 <= len (User.name u)
                 /\ ws_strip (User.name u) = User.name u
                 /\ forall resp, r = Ok resp ->
                      resp = registered (User.customer_oid u) (User.name u)).
  { intros oid Hs Hw Hn -> Hresp. repeat (split; [reflexivity|]).
    exists (new_identity db oid (UserRegistrationRequest.name user_data)).
    split; [reflexivity|]. simpl.
    split; [now apply settled_is_accepted in Hs|].
    split; [now apply where_oid_nil|].
    split; [apply ids_below_next|].
    split; [reflexivity|].
    split; [now apply long_enough|].
    split; [apply ws_strip_again | exact Hresp]. }
  destruct r as [resp|e].
  - destruct H as (oid & Hs & Hw & Hn & -> & Hc).
    destruct (Hnew oid Hs Hw Hn Hc) as (? & ? & ? & ? & ? & ? & ?);
      [now intros ? [= <-]|].
    repeat (split; [assumption|]). now right.
  - destruct H as [->|(oid & Hs & Hw & Hn & _ & Hc)].
    + repeat (split; [reflexivity|]). left. split; [reflexivity | discriminate].
    + destruct (Hnew oid Hs Hw Hn Hc) as (? & ? & ? & ? & ? & ? & ?);
        [discriminate|].
      repeat (split; [assumption|]). now right.
Qed.

Lemma X12_registration_witness :
  user_table
    (with_identity seeded zero_uuid "  Alice Johnson ")
  = (user_table seeded
     ++ [ {| User.id := 2; User.customer_oid := zero_uuid;
             User.name := "Alice Johnson" |} ])%list
  /\ asset_table (with_identity seeded zero_uuid "  Alice Johnson ")
     = asset_table seeded.
Proof.
  destruct (request (register_customer (omitted "  Alice Johnson ") 0) seeded [])
    as [[r db'] lg] eqn:Hr.
  destruct (X12_registration_adds_one_identity seeded [] _ 0 r db' lg Hr)
    as (Ha & _).
  vm_compute in Hr. injection Hr as _ <- _.
  split; [reflexivity | exact Ha].
Defined.

(** ** Deletion when the database answers *)

Section Answering.
Context {A : Type} (Q : A -> Session -> Prop) (E : Exn -> Session -> Prop).

Lemma wp_store_op_answering op (Q' : unit -> Session -> Prop) s :
  faults s = [] -> Q' tt (sent op true s) -> wp (store_op op) Q' E s.
Proof. intros Hf HQ. unfold wp, store_op. now rewrite Hf. Qed.

Lemma faults_sent op ok s : faults s = [] -> faults (sent op ok s) = [].
Proof. intros Hf. simpl. now rewrite Hf. Qed.

Lemma wp_exec_where_answering {T} `{CustomerTable T} customer_oid
    (Q' : list T -> Session -> Prop) s :
  faults s = [] ->
  (forall s', faults s' = [] -> committed s' = committed s ->
              working s' = working s ->
              Q' (where_oid customer_oid (rows (working s))) s') ->
  wp (exec_where T customer_oid) Q' E s.
Proof.
  intros Hf HQ. unfold exec_where.
  apply wp_bind, wp_store_op_answering; [exact Hf|].
  apply wp_bind. unfold wp, get_working, ret.
  apply HQ; [now apply faults_sent | reflexivity | reflexivity].
Qed.

Lemma wp_session_delete_answering {T} `{Table T} (obj : T)
    (Q' : unit -> Session -> Prop) s :
  faults s = [] ->
  (forall s', faults s' = [] -> committed s' = committed s ->
              working s' = delete_all [obj] (working s) -> Q' tt s') ->
  wp (session_delete obj) Q' E s.
Proof.
  intros Hf HQ. unfold session_delete.
  apply wp_bind, wp_store_op_answering; [exact Hf|].
  apply wp_bind. unfold wp, get_working, set_working.
  apply HQ; [now apply faults_sent | reflexivity | reflexivity].
Qed.

Lemma wp_delete_each_answering {T} `{TableLaws T} (objs : list T)
    (Q' : unit -> Session -> Prop) : forall s,
  faults s = [] ->
  (forall s', faults s' = [] -> committed s' = committed s ->
              working s' = delete_all objs (working s) -> Q' tt s') ->
  wp (delete_each objs) Q' E s.
Proof.
  induction objs as [|obj rest IH]; intros s Hf HQ; simpl.
  - apply HQ; [exact Hf | reflexivity|]. unfold delete_all. simpl.
    now rewrite set_rows_id.
  - apply wp_bind, wp_session_delete_answering; [exact Hf|].
    intros s1 Hf1 Hc1 Hw1. apply IH; [exact Hf1|].
    intros s2 Hf2 Hc2 Hw2. apply HQ; [exact Hf2 | congruence|].
    rewrite Hw2, Hw1. unfold delete_all. simpl.
    now rewrite rows_set, set_set.
Qed.

Lemma wp_session_commit_answering (Q' : unit -> Session -> Prop) s :
  faults s = [] ->
  (forall s', faults s' = [] -> committed s' = working s ->
              working s' = working s -> Q' tt s') ->
  wp session_commit Q' E s.
Proof.
  intros Hf HQ. unfold session_commit.
  apply wp_bind, wp_store_op_answering; [exact Hf|].
  unfold wp. apply HQ; [now apply faults_sent | reflexivity | reflexivity].
Qed.
End Answering.

Ltac answered Hf Hc Hw :=
  let s := fresh "s" in
  let F := fresh "F" in
  let C := fresh "C" in
  let W := fresh "W" in
  intros s F C W; rewrite Hc in C; rewrite Hw in W; rewrite ?Hw.

(** With every statement answered, an accepted identifier and an identity
    for it, deletion succeeds and commits the purged database. *)
Lemma delete_succeeds db customer_oid user :
  validate_customer_oid customer_oid = Ok customer_oid ->
  first (where_oid customer_oid (user_table db)) = Some user ->
  exists lg,
    request (delete_customer customer_oid) db [] =
      (Ok (deleted_response customer_oid), purge customer_oid user db, lg).
Proof.
  intros Hv Hu.
  assert (Hwp :
    wp (delete_customer customer_oid)
       (fun resp s' =>
          resp = deleted_response customer_oid
          /\ committed s' = purge customer_oid user db)
       (fun _ _ => False) (open_session db [])).
  { unfold delete_customer. apply wp_bind, wp_lift. rewrite Hv.
    assert (Hf0 : faults (open_session db []) = []) by reflexivity.
    assert (Hc0 : committed (open_session db []) = db) by reflexivity.
    assert (Hw0 : working (open_session db []) = db) by reflexivity.
    apply wp_try_except.
    apply wp_bind, wp_exec_where_answering; [exact Hf0 | answered Hf0 Hc0 Hw0].
    unfold rows at 1. simpl. rewrite Hu.
    apply wp_bind, wp_exec_where_answering; [exact F | answered F C W].
    apply wp_bind, wp_delete_each_answering;
      [typeclasses eauto | exact F0 | answered F0 C0 W0].
    apply wp_bind, wp_exec_where_answering; [exact F1 | answered F1 C1 W1].
    apply wp_bind, wp_delete_each_answering;
      [typeclasses eauto | exact F2 | answered F2 C2 W2].
    apply wp_bind, wp_exec_where_answering; [exact F3 | answered F3 C3 W3].
    apply wp_bind, wp_delete_each_answering;
      [typeclasses eauto | exact F4 | answered F4 C4 W4].
    apply wp_bind, wp_exec_where_answering; [exact F5 | answered F5 C5 W5].
    apply wp_bind, wp_delete_each_answering;
      [typeclasses eauto | exact F6 | answered F6 C6 W6].
    apply wp_bind, wp_exec_where_answering; [exact F7 | answered F7 C7 W7].
    apply wp_bind, wp_delete_each_answering;
      [typeclasses eauto | exact F8 | answered F8 C8 W8].
    apply wp_bind, wp_session_delete_answering; [exact F9 | answered F9 C9 W9].
    apply wp_bind, wp_session_commit_answering; [exact F10|].
    intros s' _ Hc' _. apply wp_ret. split; [reflexivity|].
    rewrite Hc', W10. reflexivity. }
  unfold wp in Hwp. unfold request.
  destruct (delete_customer customer_oid (open_session db [])) as [[resp|e] s'];
    [|destruct Hwp].
  destruct Hwp as [-> ->]. eauto.
Qed.

(** An identifier that passes validation and that no identity carries: 404,
    after the one query. *)
Lemma delete_unknown db customer_oid :
  validate_customer_oid customer_oid = Ok customer_oid ->
  no_rows_for customer_oid (user_table db) ->
  request (delete_customer customer_oid) db [] =
    (Raise (HTTPException 404
              ("Customer with CustomerOID '" ++ customer_oid ++ "' not found")),
     db, [(Select TUser, true)]).
Proof.
  intros Hv Hn. apply where_oid_nil in Hn.
  unfold request, delete_customer, bind at 1, lift. rewrite Hv.
  unfold try_except, exec_where, bind. simpl. unfold rows. simpl.
  now rewrite Hn.
Qed.

(** ** Keys *)

Lemma NoDup_map_filter {A B} (f : A -> B) (p : A -> bool) (l : list A) :
  List.NoDup (map f l) -> List.NoDup (map f (List.filter p l)).
Proof.
  induction l as [|x l IH]; simpl; [auto|].
  intros Hd. inversion Hd as [|? ? Hx Hl]; subst.
  destruct (p x); simpl; [|auto].
  constructor; [|auto]. intros Hin. apply Hx.
  apply in_map_iff in Hin as (y & Hy & Hin). apply filter_In in Hin as [Hin _].
  rewrite <- Hy. now apply in_map.
Qed.

Lemma NoDup_map_deleted {T} `{Table T} {B} (f : T -> B) (objs l : list T) :
  List.NoDup (map f l) ->
  List.NoDup (map f (fold_left (fun l obj => without_pk (pk obj) l) objs l)).
Proof.
  revert l. induction objs as [|o rest IH]; simpl; intros l Hd; [exact Hd|].
  apply IH. now apply NoDup_map_filter.
Qed.

Lemma NoDup_map_snoc {A B} (f : A -> B) (l : list A) x :
  List.NoDup (map f l) -> (forall y, In y l -> f y <> f x) ->
  List.NoDup (map f (l ++ [x])).
Proof.
  intros Hd Hx. rewrite map_app. simpl.
  induction l as [|y l IH]; simpl; [repeat constructor; tauto|].
  inversion Hd as [|? ? Hy Hl]; subst. constructor.
  - rewrite in_app_iff. intros [Hin|[E|[]]]; [now apply Hy|].
    apply (Hx y); [now left | now symmetry].
  - apply IH; [exact Hl|]. intros z Hz. apply Hx. now right.
Qed.

Lemma purge_well_keyed customer_oid user db :
  well_keyed db -> well_keyed (purge customer_oid user db).
Proof.
  intros [H1 H2 H3 H4 H5 H6 H7 H8].
  split; unfold unique_pks, unique_oids in *;
    rewrite ?purge_users, ?purge_assets, ?purge_transactions, ?purge_spending,
      ?purge_accounts, ?purge_derivatives, ?purge_institutions;
    try apply NoDup_map_deleted; try apply NoDup_map_filter; assumption.
Qed.

Lemma with_identity_well_keyed db oid name :
  well_keyed db -> where_oid oid (user_table db) = [] ->
  well_keyed (with_identity db oid name).
Proof.
  intros [H1 H2 H3 H4 H5 H6 H7 H8] Hw. apply where_oid_nil in Hw.
  split; try assumption; unfold with_identity; simpl.
  - apply NoDup_map_snoc; [exact H1|]. intros y Hy. simpl.
    pose proof (ids_below_next _ _ Hy). lia.
  - apply NoDup_map_snoc; [exact H2|]. intros y Hy. simpl. now apply Hw.
Qed.

(** X13: unique primary keys in every table and unique identifiers on User
    are kept by every registration and every deletion, whatever they answer
    and whatever the database does. *)
Theorem X13_keys_stay_unique (db : Store) (plan : list bool) :
  well_keyed db ->
  (forall user_data entropy r db' lg,
     request (register_customer user_data entropy) db plan = (r, db', lg) ->
     well_keyed db')
  /\ (forall customer_oid r db' lg,
        request (delete_customer customer_oid) db plan = (r, db', lg) ->
        well_keyed db').
Proof.
  intros Hk. split.
  - intros user_data entropy r db' lg Hr.
    destruct (request_wp _ _ _ _ _ _ _ _
                (register_customer_spec db plan user_data entropy) Hr)
      as (s' & -> & _ & H).
    destruct r as [resp|e].
    + destruct H as (oid & _ & Hw & _ & _ & ->). now apply with_identity_well_keyed.
    + destruct H as [->|(oid & _ & Hw & _ & _ & ->)];
        [exact Hk | now apply with_identity_well_keyed].
  - intros customer_oid r db' lg Hr.
    destruct (request_wp _ _ _ _ _ _ _ _
                (delete_customer_spec db plan customer_oid) Hr)
      as (s' & -> & _ & H).
    destruct r as [resp|e].
    + destruct H as (_ & _ & _ & user & _ & ->). now apply purge_well_keyed.
    + destruct H as [-> _]. exact Hk.
Qed.

Lemma seeded_well_keyed : well_keyed seeded.
Proof.
  split; unfold unique_pks, unique_oids; simpl;
    repeat constructor; simpl; intuition discriminate.
Qed.

Lemma X13_keys_witness :
  well_keyed (with_identity seeded zero_uuid "Alice Johnson")
  /\ well_keyed after_deletion.
Proof.
  destruct (X13_keys_stay_unique seeded [] seeded_well_keyed) as [Hreg Hdel].
  split.
  - refine (Hreg (omitted "Alice Johnson") 0 _ _ _ _). vm_compute. reflexivity.
  - refine (Hdel sample_oid _ _ _ _). vm_compute. reflexivity.
Defined.

(** ** Registration is not all or nothing *)

(** X14: when the three statements up to the commit go through and the
    refresh that follows fails, registration answers 500 although the new
    identity is stored: the handler's rollback comes after the commit. *)
Theorem X14_failure_after_commit (db : Store)
    (user_data : UserRegistrationRequest.t) (entropy : Z) (oid : string)
    (rest : list bool) :
  settles_on user_data entropy (Ok oid) ->
  no_rows_for oid (user_table db) ->
  name_too_short (UserRegistrationRequest.name user_data) = false ->
  request (register_customer user_data entropy) db
    (false :: false :: false :: true :: rest) =
    (Raise (HTTPException 500 register_failure),
     with_identity db oid (UserRegistrationRequest.name user_data),
     [(Select TUser, true); (Insert TUser, true); (Commit, true);
      (Refresh TUser (next_id (user_table db)), false)]).
Proof.
  intros Hs Hfree Hn. apply where_oid_nil in Hfree.
  pose proof (settled_step _ _ _
                (open_session db (false :: false :: false :: true :: rest)) Hs)
    as Hfirst.
  unfold request, register_customer, try_except, bind at 1.
  rewrite Hfirst. unfold exec_where, bind. simpl. unfold rows. simpl.
  rewrite Hfree. simpl.
  fold (name_too_short (UserRegistrationRequest.name user_data)). rewrite Hn.
  unfold session_add_user, bind. simpl. rewrite Hfree. simpl.
  reflexivity.
Qed.

Lemma X14_failure_after_commit_witness :
  request (register_customer (omitted "Alice Johnson") 0) seeded
    [false; false; false; true] =
    (Raise (HTTPException 500 register_failure),
     with_identity seeded zero_uuid "Alice Johnson",
     [(Select TUser, true); (Insert TUser, true); (Commit, true);
      (Refresh TUser 2, false)]).
Proof.
  apply (X14_failure_after_commit seeded (omitted "Alice Johnson") 0 zero_uuid []).
  - reflexivity.
  - intros r [<-|[]]. discriminate.
  - reflexivity.
Defined.

(** ** Operations one after another *)

Lemma registered_database db plan user_data entropy resp db' lg :
  request (register_customer user_data entropy) db plan = (Ok resp, db', lg) ->
  exists oid,
    settled user_data entropy = Ok oid
    /\ where_oid oid (user_table db) = []
    /\ resp = registered oid (ws_strip (UserRegistrationRequest.name user_data))
    /\ db' = with_identity db oid (UserRegistrationRequest.name user_data).
Proof.
  intros Hr.
  destruct (request_wp _ _ _ _ _ _ _ _
              (register_customer_spec db plan user_data entropy) Hr)
    as (s' & -> & _ & oid & Hs & Hw & _ & -> & ->).
  exists oid. auto.
Qed.

Lemma list_customers_answer db :
  request list_customers db [] =
    (Ok (map entry_of (user_table db)), db, [(Select TUser, true)]).
Proof. reflexivity. Qed.

Lemma where_oid_app {T} `{CustomerTable T} customer_oid (l1 l2 : list T) :
  where_oid customer_oid (l1 ++ l2)
  = (where_oid customer_oid l1 ++ where_oid customer_oid l2)%list.
Proof. apply List.filter_app. Qed.

Lemma exists_check_present db customer_oid user :
  validate_customer_oid customer_oid = Ok customer_oid ->
  first (where_oid customer_oid (user_table db)) = Some user ->
  request (check_customer_exists customer_oid) db [] =
    (Ok (present customer_oid (User.name user)), db, [(Select TUser, true)]).
Proof.
  intros Hv Hu.
  unfold request, check_customer_exists, bind, lift. rewrite Hv.
  unfold exec_where, bind. simpl. unfold rows. simpl. now rewrite Hu.
Qed.

Lemma new_identity_is_first db oid name :
  where_oid oid (user_table db) = [] ->
  first (where_oid oid (user_table (with_identity db oid name)))
  = Some (new_identity db oid name).
Proof.
  intros Hw. unfold with_identity. simpl. rewrite where_oid_app, Hw. simpl.
  unfold where_oid. simpl. now rewrite String.eqb_refl.
Qed.

(** X15: once a registration has succeeded, the existence check of the
    identifier it returned answers true with the name it returned, and the
    customer list is the list of before followed by that customer. *)
Theorem X15_registered_customer_is_found (db : Store) (plan : list bool)
    (user_data : UserRegistrationRequest.t) (entropy : Z)
    (resp : UserRegistrationResponse.t) (db' : Store)
    (lg : list (StoreOp * bool)) :
  request (register_customer user_data entropy) db plan = (Ok resp, db', lg) ->
  request (check_customer_exists (UserRegistrationResponse.customer_oid resp))
    db' [] =
    (Ok (present (UserRegistrationResponse.customer_oid resp)
           (UserRegistrationResponse.name resp)),
     db', [(Select TUser, true)])
  /\ request list_customers db' [] =
       (Ok (map entry_of (user_table db)
            ++ [ {| CustomerEntry.customer_oid :=
                      UserRegistrationResponse.customer_oid resp;
                    CustomerEntry.name := UserRegistrationResponse.name resp |} ])%list,
        db', [(Select TUser, true)]).
Proof.
  intros Hr. apply registered_database in Hr as (oid & Hs & Hw & -> & ->).
  simpl. split.
  - apply (exists_check_present _ oid
             (new_identity db oid (UserRegistrationRequest.name user_data))).
    + now apply settled_is_accepted in Hs.
    + now apply new_identity_is_first.
  - rewrite list_customers_answer. unfold with_identity. simpl.
    now rewrite map_app.
Qed.

Lemma X15_registered_witness :
  request (check_customer_exists zero_uuid)
    (with_identity seeded zero_uuid " Alice Johnson") [] =
    (Ok (present zero_uuid "Alice Johnson"),
     with_identity seeded zero_uuid " Alice Johnson", [(Select TUser, true)]).
Proof.
  refine (proj1 (X15_registered_customer_is_found seeded []
                   (omitted " Alice Johnson") 0
                   (registered zero_uuid "Alice Johnson") _ _ _)).
  vm_compute. reflexivity.
Defined.

(** X16: once a registration has succeeded, registering the identifier it
    returned again, under whatever name, answers 409 and leaves the stored
    identity as it is. *)
Theorem X16_second_registration_conflicts (db : Store) (plan : list bool)
    (user_data : UserRegistrationRequest.t) (entropy : Z)
    (resp : UserRegistrationResponse.t) (db' : Store)
    (lg : list (StoreOp * bool)) (other_name : string) (entropy' : Z) :
  request (register_customer user_data entropy) db plan = (Ok resp, db', lg) ->
  request
    (register_customer
       (supplied other_name (UserRegistrationResponse.customer_oid resp)) entropy')
    db' [] =
    (Raise (HTTPException 409
              (conflict_detail (UserRegistrationResponse.customer_oid resp))),
     db', [(Select TUser, true)]).
Proof.
  intros Hr. apply registered_database in Hr as (oid & Hs & Hw & -> & ->).
  simpl. apply settled_is_accepted in Hs.
  assert (Hne : oid <> "") by (intros ->; discriminate).
  assert (Hs' : settles_on (supplied other_name oid) entropy' (Ok oid)).
  { unfold settles_on. simpl.
    destruct (String.eqb_spec oid "") as [->|_]; [congruence | now rewrite Hs]. }
  rewrite (register_with_identifier _ _ entropy' oid Hs').
  pose proof (new_identity_is_first db oid (UserRegistrationRequest.name user_data) Hw)
    as Hfirst.
  destruct (where_oid oid (user_table (with_identity db oid _)));
    [discriminate | reflexivity].
Qed.

Lemma X16_second_registration_witness :
  request (register_customer (supplied "Charlie Brown" "CUST-0001") 7)
    (with_identity seeded "CUST-0001" "Bob Wilson") [] =
    (Raise (HTTPException 409 (conflict_detail "CUST-0001")),
     with_identity seeded "CUST-0001" "Bob Wilson", [(Select TUser, true)]).
Proof.
  refine (X16_second_registration_conflicts seeded []
            (supplied "Bob Wilson" "CUST-0001") 0
            (registered "CUST-0001" "Bob Wilson") _ _ "Charlie Brown" 7 _).
  vm_compute. reflexivity.
Defined.

Lemma without_fresh (l : list User.t) u :
  (forall v, In v l -> User.id v < User.id u) ->
  without_pk (pk u) (l ++ [u]) = l.
Proof.
  intros Hl. unfold without_pk. rewrite List.filter_app. simpl.
  rewrite Z.eqb_refl. simpl. rewrite app_nil_r.
  induction l as [|v l IH]; simpl; [reflexivity|].
  assert (Hv : (User.id v =? User.id u) = false)
    by (apply Z.eqb_neq; specialize (Hl v (or_introl eq_refl)); lia).
  rewrite Hv. simpl. f_equal. apply IH. intros w Hw. apply Hl. now right.
Qed.

(** Purging a just registered customer that owns no rows gives back the
    database of before. *)
Lemma purge_restores db oid name :
  where_oid oid (asset_table db) = [] ->
  where_oid oid (transaction_table db) = [] ->
  where_oid oid (spending_table db) = [] ->
  where_oid oid (bankaccount_table db) = [] ->
  where_oid oid (derivativetransaction_table db) = [] ->
  purge oid (new_identity db oid name) (with_identity db oid name) = db.
Proof.
  intros Ha Ht Hs Hb Hd. destruct db as [us a t s i b d].
  unfold purge, with_identity, delete_all. simpl in *.
  rewrite Ha, Ht, Hs, Hb, Hd. simpl.
  unfold new_identity. simpl.
  f_equal.
  apply (without_fresh us {| User.id := next_id us; User.customer_oid := oid;
                             User.name := ws_strip name |}).
  intros v Hv. simpl. now apply ids_below_next.
Qed.

(** X17: registering a customer and then deleting the identifier returned
    gives back the database of before the registration, provided no row of
    the dependent tables carried that identifier. *)
Theorem X17_register_then_delete (db : Store) (plan : list bool)
    (user_data : UserRegistrationRequest.t) (entropy : Z)
    (resp : UserRegistrationResponse.t) (db' : Store)
    (lg : list (StoreOp * bool)) :
  request (register_customer user_data entropy) db plan = (Ok resp, db', lg) ->
  let oid := UserRegistrationResponse.customer_oid resp in
  no_rows_for oid (asset_table db) ->
  no_rows_for oid (transaction_table db) ->
  no_rows_for oid (spending_table db) ->
  no_rows_for oid (bankaccount_table db) ->
  no_rows_for oid (derivativetransaction_table db) ->
  exists lg',
    request (delete_customer oid) db' [] = (Ok (deleted_response oid), db, lg').
Proof.
  intros Hr. apply registered_database in Hr as (oid & Hs & Hw & -> & ->).
  simpl. intros Ha Ht Hsp Hb Hd.
  apply where_oid_nil in Ha, Ht, Hsp, Hb, Hd.
  destruct (delete_succeeds (with_identity db oid (UserRegistrationRequest.name user_data))
              oid (new_identity db oid (UserRegistrationRequest.name user_data)))
    as (lg' & Hdel).
  - now apply settled_is_accepted in Hs.
  - now apply new_identity_is_first.
  - exists lg'. rewrite Hdel. now rewrite purge_restores.
Qed.

Lemma X17_register_then_delete_witness :
  exists lg',
    request (delete_customer zero_uuid)
      (with_identity seeded zero_uuid "Alice Johnson") [] =
      (Ok (deleted_response zero_uuid), seeded, lg').
Proof.
  refine (X17_register_then_delete seeded [] (omitted "Alice Johnson") 0
            (registered zero_uuid "Alice Johnson") _ _ _ _ _ _ _ _).
  - vm_compute. reflexivity.
  - intros r [<-|[]]. discriminate.
  - intros r [].
  - intros r [<-|[<-|[]]]; discriminate.
  - intros r [<-|[<-|[]]]; discriminate.
  - intros r [].
Defined.

(** X18: deleting an identifier that passes validation and that no identity
    carries answers 404 after one query and changes nothing; so does the
    second of two deletions of the same customer. *)
Theorem X18_delete_unknown_or_twice (db : Store) (customer_oid : string) :
  (validate_customer_oid customer_oid = Ok customer_oid ->
   no_rows_for customer_oid (user_table db) ->
   request (delete_customer customer_oid) db [] =
     (Raise (delete_not_found customer_oid), db, [(Select TUser, true)]))
  /\ (forall plan resp db' lg,
        unique_oids (user_table db) ->
        request (delete_customer customer_oid) db plan = (Ok resp, db', lg) ->
        request (delete_customer customer_oid) db' [] =
          (Raise (delete_not_found customer_oid), db', [(Select TUser, true)])).
Proof.
  split; [apply delete_unknown|].
  intros plan resp db' lg Hd Hr.
  destruct (request_wp _ _ _ _ _ _ _ _
              (delete_customer_spec db plan customer_oid) Hr)
    as (s' & -> & _ & _ & Hv & _ & user & Hu & ->).
  apply delete_unknown; [exact Hv|].
  rewrite purge_users. now apply identity_gone.
Qed.

Lemma X18_delete_witness :
  request (delete_customer "CUST-0001") seeded [] =
    (Raise (delete_not_found "CUST-0001"), seeded, [(Select TUser, true)])
  /\ request (delete_customer sample_oid) after_deletion [] =
       (Raise (delete_not_found sample_oid), after_deletion,
        [(Select TUser, true)]).
Proof.
  split.
  - apply (proj1 (X18_delete_unknown_or_twice seeded "CUST-0001"));
      [reflexivity|]. intros r [<-|[]]. discriminate.
  - refine (proj2 (X18_delete_unknown_or_twice seeded sample_oid)
              [] (deleted_response sample_oid) after_deletion _ _ _).
    + repeat constructor. intros [].
    + vm_compute. reflexivity.
Defined.

(** ** What deletion leaves *)

Lemma same_key_same_row {A B} (f : A -> B) (l : list A) a b :
  List.NoDup (map f l) -> In a l -> In b l -> f a = f b -> a = b.
Proof.
  induction l as [|w l IH]; simpl; [tauto|].
  intros Hd Ha Hb E. inversion Hd as [|? ? Hw Hd']; subst.
  destruct Ha as [->|Ha], Hb as [->|Hb]; auto.
  - destruct Hw. rewrite E. now apply in_map.
  - destruct Hw. rewrite <- E. now apply in_map.
Qed.

Lemma filter_twice {A} (p q : A -> bool) (l : list A) :
  List.filter p (List.filter q l) = List.filter (fun x => q x && p x) l.
Proof.
  induction l as [|x l IH]; simpl; [reflexivity|].
  destruct (q x); simpl; [destruct (p x)|]; now rewrite IH.
Qed.

Lemma deleted_rows_filter {T} `{Table T} (objs : list T) : forall l,
  fold_left (fun l obj => without_pk (pk obj) l) objs l
  = List.filter (fun r => negb (existsb (fun obj => pk r =? pk obj) objs)) l.
Proof.
  induction objs as [|o rest IH]; intros l; simpl.
  - induction l as [|x l IHl]; simpl; [reflexivity | now rewrite <- IHl].
  - rewrite IH. unfold without_pk. rewrite filter_twice.
    apply filter_ext. intros r. now rewrite negb_orb.
Qed.

Section Others.
Context {T : Type} `{CustomerTable T}.

(** With unique primary keys, deleting the rows selected for an identifier
    leaves exactly the rows of the other identifiers, in their order. *)
Lemma selected_rows_only customer_oid (l : list T) :
  unique_pks l ->
  fold_left (fun l obj => without_pk (pk obj) l) (where_oid customer_oid l) l
  = others customer_oid l.
Proof.
  intros Hk. rewrite deleted_rows_filter. unfold others.
  apply filter_ext_in. intros r Hr. f_equal.
  destruct (String.eqb_spec (oid_of r) customer_oid) as [Ho|Ho].
  - apply existsb_exists. exists r. split; [now apply where_oid_In|].
    apply Z.eqb_refl.
  - apply not_true_is_false. intros Hex.
    apply existsb_exists in Hex as (o & Hin & Hpk).
    apply where_oid_In in Hin as [Hin Hoo]. apply Z.eqb_eq in Hpk.
    now rewrite (same_key_same_row pk l r o Hk Hr Hin Hpk) in Ho.
Qed.
End Others.

Lemma identity_only customer_oid (l : list User.t) user :
  unique_pks l -> unique_oids l ->
  first (where_oid customer_oid l) = Some user ->
  without_pk (pk user) l = others customer_oid l.
Proof.
  intros Hk Hd Hu. apply first_where_oid in Hu as [Hu Ho].
  unfold without_pk, others. apply filter_ext_in. intros r Hr. f_equal.
  simpl in *.
  destruct (String.eqb_spec (User.customer_oid r) customer_oid) as [E|E].
  - apply Z.eqb_eq.
    now rewrite (unique_oid_same_row l r user Hd Hr Hu) by congruence.
  - apply Z.eqb_neq. intros Hpk.
    now rewrite (same_key_same_row User.id l r user Hk Hr Hu Hpk) in E.
Qed.

(** X19: a successful deletion removes the customer's rows and nothing
    else: with unique primary keys, each dependent table and the identities
    are afterwards exactly the rows of the other identifiers, in their
    order, and the institutions are those of before. *)
Theorem X19_deletion_spares_the_others (db : Store) (plan : list bool)
    (customer_oid : string) (resp : Deleted.t) (db' : Store)
    (lg : list (StoreOp * bool)) :
  well_keyed db ->
  request (delete_customer customer_oid) db plan = (Ok resp, db', lg) ->
  user_table db' = others customer_oid (user_table db)
  /\ asset_table db' = others customer_oid (asset_table db)
  /\ transaction_table db' = others customer_oid (transaction_table db)
  /\ spending_table db' = others customer_oid (spending_table db)
  /\ bankaccount_table db' = others customer_oid (bankaccount_table db)
  /\ derivativetransaction_table db'
     = others customer_oid (derivativetransaction_table db)
  /\ institution_table db' = institution_table db.
Proof.
  intros [H1 H2 H3 H4 H5 H6 H7 H8] Hr.
  destruct (request_wp _ _ _ _ _ _ _ _
              (delete_customer_spec db plan customer_oid) Hr)
    as (s' & -> & _ & _ & _ & _ & user & Hu & ->).
  rewrite purge_users, purge_assets, purge_transactions, purge_spending,
    purge_accounts, purge_derivatives, purge_institutions.
  rewrite (identity_only customer_oid _ user H1 H2 Hu).
  rewrite !selected_rows_only by assumption.
  repeat split.
Qed.

Lemma X19_deletion_witness :
  user_table after_deletion = others sample_oid (user_table seeded)
  /\ institution_table after_deletion = institution_table seeded.
Proof.
  destruct (X19_deletion_spares_the_others seeded [] sample_oid
              (deleted_response sample_oid) after_deletion
              [(Select TUser, true); (Select TAsset, true);
               (Delete TAsset 1, true); (Select TTransaction, true);
               (Select TSpending, true); (Delete TSpending 1, true);
               (Delete TSpending 2, true); (Select TBankAccount, true);
               (Delete TBankAccount 1, true); (Delete TBankAccount 2, true);
               (Select TDerivativeTransaction, true); (Delete TUser 1, true);
               (Commit, true)] seeded_well_keyed eq_refl)
    as (Hu & _ & _ & _ & _ & _ & Hi).
  split; assumption.
Defined.

(** ** Sample data *)

Lemma wp_session_add_user customer_oid name
    (Q : User.t -> Session -> Prop) (E : Exn -> Session -> Prop) s :
  (where_oid customer_oid (user_table (working s)) = [] ->
   Q {| User.id := next_id (user_table (working s));
        User.customer_oid := customer_oid; User.name := name |}
     (with_working
        (set_rows
           (user_table (working s)
            ++ [ {| User.id := next_id (user_table (working s));
                    User.customer_oid := customer_oid; User.name := name |} ])
           (working s))
        (sent (Insert TUser) true s))) ->
  E (StoreError database_error) (sent (Insert TUser) false s) ->
  (where_oid customer_oid (user_table (working s)) <> [] ->
   E (StoreError unique_violation) (sent (Insert TUser) true s)) ->
  wp (session_add_user customer_oid name) Q E s.
Proof.
  intros HQ HE HU. unfold session_add_user.
  apply wp_bind, wp_store_op; [|exact HE].
  apply wp_bind. unfold wp at 1, get_working. simpl.
  destruct (where_oid customer_oid (user_table (working s))) as [|u rest] eqn:Hw.
  - apply wp_bind. unfold wp, set_working, ret. now apply HQ.
  - apply wp_raise, HU. discriminate.
Qed.

(** While identities are added, nothing is committed and the identities of
    the database stay at the head of the table. *)
Definition adding (db : Store) (s : Session) : Prop :=
  committed s = db
  /\ exists extra, user_table (working s) = (user_table db ++ extra)%list.

Lemma add_users_clash db users : forall s,
  adding db s ->
  (exists p, In p users /\ where_oid (fst p) (user_table db) <> []) ->
  wp (add_users users) (fun _ _ => False) (fun _ s' => committed s' = db) s.
Proof.
  induction users as [|[oid name] rest IH]; intros s [Hc (extra & Hx)] (p & Hp & Hclash).
  - destruct Hp.
  - simpl. apply wp_bind, wp_session_add_user.
    + intros Hfree. rewrite Hx, where_oid_app in Hfree.
      apply app_eq_nil in Hfree as [Hfree _].
      destruct Hp as [<-|Hp]; [now destruct Hclash|].
      apply IH; [|eauto]. split; [exact Hc|].
      exists (extra ++ [ {| User.id := next_id (user_table db ++ extra);
                           User.customer_oid := oid; User.name := name |} ])%list.
      simpl. now rewrite Hx, app_assoc.
    + exact Hc.
    + intros _. exact Hc.
Qed.

(** X20: seeding a database in which an identity already carries one of the
    five sample identifiers changes nothing, whatever the database answers:
    the first insertion that meets the identifier fails, nothing has been
    committed by then, and the handler rolls back and reports the error. *)
Theorem X20_seeding_again_changes_nothing (db : Store) (plan : list bool)
    (r : Outcome SeedReport) (db' : Store) (lg : list (StoreOp * bool)) :
  (exists u, In u (user_table db) /\ In (User.customer_oid u) sample_oids) ->
  request create_sample_data db plan = (r, db', lg) ->
  db' = db /\ exists e, r = Ok (ErrorCreating e).
Proof.
  intros (u & Hu & Ho) Hr.
  assert (Hclash : exists p, In p sample_users
                             /\ where_oid (fst p) (user_table db) <> []).
  { unfold sample_oids in Ho. apply in_map_iff in Ho as (p & Hp & Hin).
    exists p. split; [exact Hin|]. apply rows_found. exists u. now split. }
  assert (Hwp :
    wp (add_users sample_users;;;
        add_each sample_institutions;;;
        session_commit;;;
        add_each sample_bank_accounts;;;
        add_each sample_assets;;;
        add_each sample_transactions;;;
        add_each sample_spending;;;
        add_each sample_derivatives;;;
        session_commit)
       (fun _ _ => False) (fun _ s' => committed s' = db) (open_session db plan)).
  { apply wp_bind.
    assert (Hstart : adding db (open_session db plan))
      by (split; [reflexivity | exists []; simpl; now rewrite app_nil_r]).
    pose proof (add_users_clash db sample_users (open_session db plan)
                  Hstart Hclash) as H.
    unfold wp in *.
    destruct (add_users sample_users (open_session db plan)) as [[[]|e] s'];
      [destruct H | exact H]. }
  unfold request, create_sample_data in Hr. unfold wp in Hwp.
  match type of Hwp with
  | match ?body with _ => _ end => destruct body as [[[]|e] s']
  end; [destruct Hwp|].
  injection Hr as <- <- <-. simpl. split; [exact Hwp | eauto].
Qed.

Lemma X20_seeding_again_witness :
  exists r lg,
    request create_sample_data sample_database [] = (r, sample_database, lg)
    /\ exists e, r = Ok (ErrorCreating e).
Proof.
  destruct (request create_sample_data sample_database []) as [[r db'] lg] eqn:Hr.
  assert (Hex : exists u, In u (user_table sample_database)
                          /\ In (User.customer_oid u) sample_oids).
  { eexists. split; [left; reflexivity|]. vm_compute. tauto. }
  destruct (X20_seeding_again_changes_nothing sample_database [] r db' lg Hex Hr)
    as [-> (e & ->)].
  exists (Ok (ErrorCreating e)), lg. split; [reflexivity | eauto].
Defined.

Fixpoint distinct_keys (l : list Z) : bool :=
  match l with
  | [] => true
  | k :: rest => negb (existsb (Z.eqb k) rest) && distinct_keys rest
  end.

Lemma distinct_keys_sound l : distinct_keys l = true -> List.NoDup l.
Proof.
  induction l as [|k rest IH]; simpl; [constructor|].
  rewrite andb_true_iff, negb_true_iff. intros [Hk Hrest].
  constructor; [|auto]. intros Hin.
  assert (Hex : existsb (Z.eqb k) rest = true)
    by (apply existsb_exists; exists k; split; [exact Hin | apply Z.eqb_refl]).
  congruence.
Qed.

Fixpoint distinct_names (l : list string) : bool :=
  match l with
  | [] => true
  | k :: rest => negb (existsb (String.eqb k) rest) && distinct_names rest
  end.

Lemma distinct_names_sound l : distinct_names l = true -> List.NoDup l.
Proof.
  induction l as [|k rest IH]; simpl; [constructor|].
  rewrite andb_true_iff, negb_true_iff. intros [Hk Hrest].
  constructor; [|auto]. intros Hin.
  assert (Hex : existsb (String.eqb k) rest = true)
    by (apply existsb_exists; exists k; split; [exact Hin | apply String.eqb_refl]).
  congruence.
Qed.

Lemma sample_database_well_keyed : well_keyed sample_database.
Proof.
  split; unfold unique_pks, unique_oids;
    (apply distinct_keys_sound || apply distinct_names_sound);
    vm_compute; reflexivity.
Qed.

Definition known (customer_oid : string) : bool :=
  existsb (String.eqb customer_oid) sample_oids.

Lemma known_sound customer_oid : known customer_oid = true -> In customer_oid sample_oids.
Proof.
  unfold known. intros H. apply existsb_exists in H as (o & Hin & E).
  apply String.eqb_eq in E. now subst.
Qed.

Lemma all_known {T} `{CustomerTable T} (l : list T) :
  forallb (fun r => known (oid_of r)) l = true ->
  Forall (fun r => In (oid_of r) sample_oids) l.
Proof.
  intros Hall. apply Forall_forall. intros r Hr.
  apply known_sound. rewrite forallb_forall in Hall. apply Hall.
  now apply list_elem_of_In.
Qed.

(** X21: seeding an empty database, as [reset_and_seed_database] does from
    any database, commits sample data that hangs together: primary keys and
    identifiers are unique, every identifier passes validation, every
    account refers to an institution of the table, every dependent row
    belongs to one of the five identities, and every sample customer
    aggregates without error, each account under its institution. *)
Theorem X21_fresh_sample_data (db : Store) :
  (exists lg,
     reset_and_seed_database db [] = (Ok SampleDataCreated, sample_database, lg))
  /\ well_keyed sample_database
  /\ map User.customer_oid (user_table sample_database) = sample_oids
  /\ Forall (fun oid => validate_customer_oid oid = Ok oid) sample_oids
  /\ Forall (fun a =>
               exists i, In i (institution_table sample_database)
                         /\ Institution.id i = BankAccount.institution_id a)
       (bankaccount_table sample_database)
  /\ Forall (fun r => In (oid_of r) sample_oids) (asset_table sample_database)
  /\ Forall (fun r => In (oid_of r) sample_oids) (transaction_table sample_database)
  /\ Forall (fun r => In (oid_of r) sample_oids) (spending_table sample_database)
  /\ Forall (fun r => In (oid_of r) sample_oids) (bankaccount_table sample_database)
  /\ Forall (fun r => In (oid_of r) sample_oids)
       (derivativetransaction_table sample_database)
  /\ Forall (fun oid =>
               exists p lg,
                 request (get_user_portfolio oid) sample_database [] =
                   (Ok p, sample_database, lg)
                 /\ Forall (fun view => AccountView.institution view <> None)
                      (Portfolio.bank_accounts p))
       sample_oids.
Proof.
  split; [eexists; vm_compute; reflexivity|].
  split; [apply sample_database_well_keyed|].
  split; [reflexivity|].
  split; [repeat constructor|].
  split.
  { apply Forall_forall. intros a Ha. apply list_elem_of_In in Ha.
    assert (Hfind : forallb
              (fun a => existsb (fun i => Institution.id i =? BankAccount.institution_id a)
                          (institution_table sample_database))
              (bankaccount_table sample_database) = true) by (vm_compute; reflexivity).
    rewrite forallb_forall in Hfind. specialize (Hfind a Ha).
    apply existsb_exists in Hfind as (i & Hi & E).
    exists i. split; [exact Hi | now apply Z.eqb_eq]. }
  repeat (split; [apply all_known; vm_compute; reflexivity|]).
  repeat constructor;
    (eexists _, _; split; [vm_compute; reflexivity|];
     repeat constructor; discriminate).
Qed.

(** ** What a successful registration answers *)

(** X22: a successful registration answers with the identifier that was
    supplied, unchanged, when one was supplied, and with a canonical UUID
    made of the entropy when none or an empty one was; the name in the
    answer is the trimmed name. *)
Theorem X22_registration_answer (db : Store) (plan : list bool)
    (user_data : UserRegistrationRequest.t) (entropy : Z)
    (resp : UserRegistrationResponse.t) (db' : Store)
    (lg : list (StoreOp * bool)) :
  request (register_customer user_data entropy) db plan = (Ok resp, db', lg) ->
  UserRegistrationResponse.name resp
  = ws_strip (UserRegistrationRequest.name user_data)
  /\ UserRegistrationResponse.message resp = "Customer registered successfully"
  /\ match UserRegistrationRequest.customer_oid user_data with
     | Some given =>
         if String.eqb given ""
         then UserRegistrationResponse.customer_oid resp = uuid_str (uuid4 entropy)
         else UserRegistrationResponse.customer_oid resp = given
     | None =>
         UserRegistrationResponse.customer_oid resp = uuid_str (uuid4 entropy)
     end
  /\ (UserRegistrationResponse.customer_oid resp = uuid_str (uuid4 entropy) ->
      is_canonical_uuid (UserRegistrationResponse.customer_oid resp) = true).
Proof.
  intros Hr. apply registered_database in Hr as (oid & Hs & _ & -> & _).
  simpl. split; [reflexivity|]. split; [reflexivity|]. split.
  - unfold settled in Hs.
    destruct (UserRegistrationRequest.customer_oid user_data) as [given|];
      [destruct (String.eqb given "")|]; try congruence.
    now apply validate_returns_input in Hs.
  - intros ->. apply generated_is_canonical.
Qed.

Lemma X22_registration_answer_witness :
  UserRegistrationResponse.customer_oid (registered "CUST-0001" "Bob Wilson")
  = "CUST-0001".
Proof.
  destruct (X22_registration_answer seeded [] (supplied " Bob Wilson " "CUST-0001") 0
              (registered "CUST-0001" "Bob Wilson")
              (with_identity seeded "CUST-0001" " Bob Wilson ")
              [(Select TUser, true); (Insert TUser, true); (Commit, true);
               (Refresh TUser 2, true)] eq_refl)
    as (_ & _ & Ho & _).
  exact Ho.
Defined.

(** ** Reading after a deletion *)

Lemma aggregation_not_found db customer_oid :
  validate_customer_oid customer_oid = Ok customer_oid ->
  no_rows_for customer_oid (user_table db) ->
  request (get_user_portfolio customer_oid) db [] =
    (Raise (HTTPException 404
              ("User with CustomerOID '" ++ customer_oid ++ "' not found")),
     db, [(Select TUser, true)]).
Proof.
  intros Hv Hn. apply where_oid_nil in Hn.
  unfold request, get_user_portfolio, bind, lift. rewrite Hv.
  unfold exec_where, bind. simpl. unfold rows. simpl. now rewrite Hn.
Qed.

Lemma others_lack customer_oid (l : list User.t) :
  no_rows_for customer_oid (others customer_oid l).
Proof.
  intros r Hin. unfold others in Hin. apply filter_In in Hin as [_ Hne].
  apply negb_true_iff in Hne. now apply String.eqb_neq in Hne.
Qed.

(** X23: once a deletion has succeeded, aggregating the identifier answers
    404 and the customer list no longer holds it: with unique keys the list
    is the list of the other identities, in their order. *)
Theorem X23_deleted_customer_is_gone (db : Store) (plan : list bool)
    (customer_oid : string) (resp : Deleted.t) (db' : Store)
    (lg : list (StoreOp * bool)) :
  well_keyed db ->
  request (delete_customer customer_oid) db plan = (Ok resp, db', lg) ->
  request (get_user_portfolio customer_oid) db' [] =
    (Raise (HTTPException 404
              ("User with CustomerOID '" ++ customer_oid ++ "' not found")),
     db', [(Select TUser, true)])
  /\ request list_customers db' [] =
       (Ok (map entry_of (others customer_oid (user_table db))), db',
        [(Select TUser, true)])
  /\ forall entry,
       In entry (map entry_of (others customer_oid (user_table db))) ->
       CustomerEntry.customer_oid entry <> customer_oid.
Proof.
  intros [H1 H2 _ _ _ _ _ _] Hr.
  destruct (request_wp _ _ _ _ _ _ _ _
              (delete_customer_spec db plan customer_oid) Hr)
    as (s' & -> & _ & _ & Hv & _ & user & Hu & ->).
  assert (Hus : user_table (purge customer_oid user db)
                = others customer_oid (user_table db)).
  { rewrite purge_users. now apply identity_only. }
  split; [|split].
  - apply aggregation_not_found; [exact Hv|]. rewrite Hus. apply others_lack.
  - now rewrite list_customers_answer, Hus.
  - intros entry Hin. apply in_map_iff in Hin as (u & <- & Hin).
    now apply others_lack in Hin.
Qed.

Lemma X23_deleted_customer_witness :
  request (get_user_portfolio sample_oid) after_deletion [] =
    (Raise (HTTPException 404
              ("User with CustomerOID '" ++ sample_oid ++ "' not found")),
     after_deletion, [(Select TUser, true)]).
Proof.
  refine (proj1 (X23_deleted_customer_is_gone seeded [] sample_oid
                   (deleted_response sample_oid) after_deletion _
                   seeded_well_keyed _)).
  vm_compute. reflexivity.
Defined.

(** ** Seeding only adds rows *)

Lemma continues_refl {A} (l : list A) : continues l l.
Proof. exists []. now rewrite app_nil_r. Qed.

Lemma continues_more {A} (l : list A) more : continues l (l ++ more).
Proof. now exists more. Qed.

Lemma continues_trans {A} (l1 l2 l3 : list A) :
  continues l1 l2 -> continues l2 l3 -> continues l1 l3.
Proof. intros [a ->] [b ->]. exists (a ++ b)%list. now rewrite app_assoc. Qed.

Lemma grows_refl db : grows db db.
Proof. split; apply continues_refl. Qed.

Lemma grows_trans a b c : grows a b -> grows b c -> grows a c.
Proof.
  intros [] []. split; eapply continues_trans; eassumption.
Qed.

Ltac appends :=
  split; intros st l; destruct st; split; simpl;
  (apply continues_refl || apply continues_more).

#[global] Instance user_appends : Appends User.t.
Proof. appends. Qed.
#[global] Instance asset_appends : Appends Asset.t.
Proof. appends. Qed.
#[global] Instance transaction_appends : Appends Transaction.t.
Proof. appends. Qed.
#[global] Instance spending_appends : Appends Spending.t.
Proof. appends. Qed.
#[global] Instance institution_appends : Appends Institution.t.
Proof. appends. Qed.
#[global] Instance bankaccount_appends : Appends BankAccount.t.
Proof. appends. Qed.
#[global] Instance derivativetransaction_appends : Appends DerivativeTransaction.t.
Proof. appends. Qed.

(** [m] keeps the session on a database that has only grown. *)
Definition only_grows {A} (db : Store) (m : M A) : Prop :=
  forall s, grown db s ->
            wp m (fun _ s' => grown db s') (fun _ s' => grown db s') s.

Lemma only_grows_bind {A B} db (m : M A) (f : A -> M B) :
  only_grows db m -> (forall a, only_grows db (f a)) -> only_grows db (bind m f).
Proof.
  intros Hm Hf s Hs. apply wp_bind. specialize (Hm s Hs). unfold wp in *.
  destruct (m s) as [[a|e] s']; [now apply Hf | exact Hm].
Qed.

Lemma only_grows_store_op db op : only_grows db (store_op op).
Proof. intros s Hs. now apply wp_store_op. Qed.

Lemma only_grows_add {T} `{Insertable T} `{!Appends T} db (obj : T) :
  only_grows db (session_add obj).
Proof.
  unfold session_add. apply only_grows_bind; [apply only_grows_store_op|].
  intros _ s [Hc Hw]. apply wp_bind. unfold wp, get_working, set_working. simpl.
  split; [exact Hc|]. eapply grows_trans; [exact Hw | apply appended].
Qed.

Lemma only_grows_add_each {T} `{Insertable T} `{!Appends T} db (objs : list T) :
  only_grows db (add_each objs).
Proof.
  induction objs as [|obj rest IH]; simpl; [now intros s Hs|].
  apply only_grows_bind; [apply only_grows_add | intros _; exact IH].
Qed.

Lemma only_grows_add_user db customer_oid name :
  only_grows db (session_add_user customer_oid name).
Proof.
  intros s [Hc Hw]. apply wp_session_add_user; try (intros _; now split); [|now split].
  intros _. split; [exact Hc|].
  eapply grows_trans; [exact Hw|].
  exact (appended (T := User.t) (working s)
           [ {| User.id := next_id (user_table (working s));
                User.customer_oid := customer_oid; User.name := name |} ]).
Qed.

Lemma only_grows_add_users db users : only_grows db (add_users users).
Proof.
  induction users as [|[oid name] rest IH]; simpl; [now intros s Hs|].
  apply only_grows_bind; [apply only_grows_add_user | intros _; exact IH].
Qed.

Lemma only_grows_commit db : only_grows db session_commit.
Proof.
  unfold session_commit. apply only_grows_bind; [apply only_grows_store_op|].
  intros _ s [Hc Hw]. unfold wp. simpl. now split.
Qed.

(** X24: seeding never changes or removes a stored row: whatever the
    database held and whatever it answers, every table is afterwards the
    table of before, followed by the rows that were added. *)
Theorem X24_seeding_only_adds (db : Store) (plan : list bool)
    (r : Outcome SeedReport) (db' : Store) (lg : list (StoreOp * bool)) :
  request create_sample_data db plan = (r, db', lg) -> grows db db'.
Proof.
  intros Hr.
  assert (Hbody : only_grows db
            (add_users sample_users;;;
             add_each sample_institutions;;;
             session_commit;;;
             add_each sample_bank_accounts;;;
             add_each sample_assets;;;
             add_each sample_transactions;;;
             add_each sample_spending;;;
             add_each sample_derivatives;;;
             session_commit)).
  { apply only_grows_bind; [apply only_grows_add_users | intros _].
    apply only_grows_bind; [apply only_grows_add_each | intros _].
    apply only_grows_bind; [apply only_grows_commit | intros _].
    apply only_grows_bind; [apply only_grows_add_each | intros _].
    apply only_grows_bind; [apply only_grows_add_each | intros _].
    apply only_grows_bind; [apply only_grows_add_each | intros _].
    apply only_grows_bind; [apply only_grows_add_each | intros _].
    apply only_grows_bind; [apply only_grows_add_each | intros _].
    apply only_grows_commit. }
  specialize (Hbody (open_session db plan)
                (conj (grows_refl db) (grows_refl db))).
  unfold request, create_sample_data in Hr. unfold wp in Hbody.
  match type of Hbody with
  | match ?body with _ => _ end => destruct body as [[[]|e] s']
  end; injection Hr as <- <- <-; simpl; apply Hbody.
Qed.

Lemma X24_seeding_only_adds_witness :
  grows taken (snd (fst (request create_sample_data taken []))).
Proof.
  destruct (request create_sample_data taken []) as [[r db'] lg] eqn:Hr.
  exact (X24_seeding_only_adds taken [] r db' lg Hr).
Defined.
